(** * git-log-search: the commit extractor, the provider dispatch and the
      commands of [message.py]

    The Python sources are embedded as functions over an explicit world
    (the text files of the working tree, the standard streams, the calls
    made to the external libraries).  What the program obtains from
    outside -- git, the clock, the environment, Chroma, the chat model --
    is read from a [Host] record; the commands that list a directory also
    take the directories of the file system.  So every command is an
    executable function of its arguments, the host and the world.  What
    Chroma persists inside its store directories is not modelled: the
    statements that depend on it take those files as given. *)

From Stdlib Require Import Ascii String ZArith NArith Lia.
From stdpp Require Import gmap list sorting strings.

Local Open Scope Z_scope.

(** ** Python strings

    A Python [str] is a sequence of Unicode code points; [len], slicing,
    [strip], [split] and comparison all work on code points. *)

Abbreviation str := (list N).

(** ASCII literals, for readable constants. *)
Definition py (s : string) : str := N_of_ascii <$> list_ascii_of_string s.
Arguments py s%_string : simpl never.

(** The separators of the [git log] format string: [%x1f] between fields,
    [%x1e] after each entry. *)
Definition US : N := 0x1f.
Definition RS : N := 0x1e.

(** [str.isspace] for one code point: general category Zs, or bidirectional
    class WS, B or S.  The information separators 0x1c-0x1f are in it. *)
Definition isspace (c : N) : bool :=
  ((0x09 <=? c) && (c <=? 0x0d) || (0x1c <=? c) && (c <=? 0x1f)
   || (c =? 0x20) || (c =? 0x85) || (c =? 0xa0) || (c =? 0x1680)
   || (0x2000 <=? c) && (c <=? 0x200a) || (c =? 0x2028) || (c =? 0x2029)
   || (c =? 0x202f) || (c =? 0x205f) || (c =? 0x3000))%N.

Fixpoint lstrip (s : str) : str :=
  match s with
  | c :: s' => if isspace c then lstrip s' else s
  | [] => []
  end.

Definition rstrip (s : str) : str := reverse (lstrip (reverse s)).

(** [s.strip()] *)
Definition strip (s : str) : str := lstrip (rstrip s).

Definition is_empty (s : str) : bool :=
  match s with [] => true | _ :: _ => false end.

Definition cons_hd (c : N) (l : list str) : list str :=
  match l with
  | h :: t => (c :: h) :: t
  | [] => [[c]]
  end.

(** [s.split(sep)] for a one-character separator. *)
Fixpoint split (sep : N) (s : str) : list str :=
  match s with
  | [] => [[]]
  | c :: s' => if (c =? sep)%N then [] :: split sep s'
               else cons_hd c (split sep s')
  end.

(** [s.split(sep, maxsplit)]: at most [maxsplit] cuts, the rest of the
    string is the last item. *)
Fixpoint split_max (sep : N) (s : str) (maxsplit : nat) : list str :=
  match s with
  | [] => [[]]
  | c :: s' =>
      match maxsplit with
      | O => [s]
      | S n => if (c =? sep)%N then [] :: split_max sep s' n
               else cons_hd c (split_max sep s' maxsplit)
      end
  end.

(** Line boundaries of [str.splitlines]. *)
Definition is_linebreak (c : N) : bool :=
  ((0x0a <=? c) && (c <=? 0x0d) || (0x1c <=? c) && (c <=? 0x1e)
   || (c =? 0x85) || (c =? 0x2028) || (c =? 0x2029))%N.

(** [s.splitlines()]: the lines without their terminators; a carriage
    return followed by a line feed is one terminator, and a terminator at
    the very end opens no further line. *)
Fixpoint splitlines_from (cur : str) (s : str) : list str :=
  match s with
  | [] => match cur with [] => [] | _ :: _ => [reverse cur] end
  | c :: s' =>
      if is_linebreak c then
        match s' with
        | d :: s'' =>
            if ((c =? 0x0d) && (d =? 0x0a))%N
            then reverse cur :: splitlines_from [] s''
            else reverse cur :: splitlines_from [] s'
        | [] => [reverse cur]
        end
      else splitlines_from (c :: cur) s'
  end.

Definition splitlines (s : str) : list str := splitlines_from [] s.

(** [s.replace(old, new)] for one-character [old] and [new]. *)
Definition replace_char (old new : N) (s : str) : str :=
  (fun c => if (c =? old)%N then new else c) <$> s.

(** [sep.join(items)] *)
Fixpoint join (sep : str) (items : list str) : str :=
  match items with
  | [] => []
  | [x] => x
  | x :: rest => x ++ sep ++ join sep rest
  end.

(** [a <= b] on strings: lexicographic on code points. *)
Fixpoint str_leb (a b : str) : bool :=
  match a, b with
  | [], _ => true
  | _ :: _, [] => false
  | x :: a', y :: b' => (x <? y)%N || (x =? y)%N && str_leb a' b'
  end.

Definition str_le (a b : str) : Prop := str_leb a b = true.

#[global] Instance str_le_dec : RelDecision str_le.
Proof. intros a b. unfold str_le. apply _. Defined.

(** Decimal digits, as [str(n)] and the zero-padded strftime fields print
    them. *)
Definition digit (n : nat) : N := (0x30 + N.of_nat (n `mod` 10))%N.

Fixpoint decimal_fuel (fuel n : nat) (acc : str) : str :=
  match fuel with
  | O => acc
  | S f => if (n <? 10)%nat then digit n :: acc
           else decimal_fuel f (n `div` 10)%nat (digit n :: acc)
  end.

Definition str_of_nat (n : nat) : str := decimal_fuel (S n) n [].

(** ** Data model *)

(** A [pathlib.Path], by its parts; the parts of an absolute path start
    with the anchor, ["/"] or ["//"]. *)
Abbreviation Path := (list str).

Definition is_anchor (part : str) : Prop := part = py "/" \/ part = py "//".

#[global] Instance is_anchor_dec part : Decision (is_anchor part).
Proof. unfold is_anchor. apply _. Defined.

(** [Path(s)]: the parts between slashes, empty parts and ["."] dropped,
    with the anchor in front when [s] starts with a slash: ["//"] for
    exactly two leading slashes, ["/"] otherwise. *)
Definition Path_of (s : str) : Path :=
  let parts :=
    filter (fun part => part <> [] /\ part <> py ".") (split 0x2f s) in
  match s with
  | c1 :: c2 :: rest =>
      if (c1 =? 0x2f)%N then
        if (c2 =? 0x2f)%N && negb (bool_decide (take 1 rest = py "/"))
        then py "//" :: parts
        else py "/" :: parts
      else parts
  | [c] => if (c =? 0x2f)%N then py "/" :: parts else parts
  | [] => parts
  end.

(** [p / child] *)
Definition path_div (p : Path) (child : str) : Path := p ++ [child].

(** [p.name]: the last part, the anchor excepted. *)
Definition path_name (p : Path) : str :=
  if bool_decide (p = [py "/"] \/ p = [py "//"]) then [] else default [] (last p).

(** [str(p)] *)
Definition path_str (p : Path) : str :=
  match p with
  | [] => py "."
  | first :: rest =>
      if bool_decide (is_anchor first) then first ++ join (py "/") rest
      else join (py "/") p
  end.

(** A LangChain [Document]: the commit message as content, the other
    fields of the commit record as metadata. *)
Record Document := mkDocument {
  page_content : str;
  metadata : list (str * str);
}.

(** [d.get(key)] and [d[key]] on a dict kept as its items in insertion
    order. *)
Fixpoint dict_get {V : Type} (d : list (str * V)) (key : str) : option V :=
  match d with
  | [] => None
  | (k, v) :: rest => if bool_decide (k = key) then Some v else dict_get rest key
  end.

(** Values of the [json] module. *)
#[warnings="-register-all"]
Inductive json :=
| JNull
| JBool (b : bool)
| JInt (n : Z)
| JStr (s : str)
| JList (items : list json)
| JDict (items : list (str * json)).

(** The text of a file, up to JSON parsing: [JsonText j] is a text that
    [json.loads] maps to [j], such as [json.dumps(j, indent=2)];
    [OtherText] is a text on which [json.loads] raises. *)
Inductive file_text :=
| JsonText (j : json)
| OtherText (s : str).

Definition json_dumps (j : json) : file_text := JsonText j.

(** The embedding objects and the chat model, by constructor and model
    name. *)
Inductive Embeddings :=
| HuggingFaceEmbeddings (model_name : str)
| OpenAIEmbeddings (model : str).

Inductive LLM :=
| ChatOpenAI (model : str).

(** What the chat model hands back: a message object with a [content]
    attribute, or a bare string. *)
Inductive Response :=
| AIMessage (content : str)
| RawString (s : str).

(** [datetime.datetime] down to the second. *)
Record datetime := mkDatetime {
  year : nat; month : nat; day : nat;
  hour : nat; minute : nat; second : nat;
}.

Definition digits2 (n : nat) : str := [digit (n `div` 10); digit n].
Definition digits4 (n : nat) : str :=
  [digit (n `div` 1000); digit (n `div` 100); digit (n `div` 10); digit n].

(** [t.strftime("%Y%m%d%H%M%S")], for the four-digit years the clock
    returns. *)
Definition strftime_YmdHMS (t : datetime) : str :=
  digits4 (year t) ++ digits2 (month t) ++ digits2 (day t)
  ++ digits2 (hour t) ++ digits2 (minute t) ++ digits2 (second t).

(** ** The outside world *)

(** What one run of the program reads from outside.  [None] stands for the
    exception the corresponding library call raises.  The two Chroma
    functions give the outcome of the call only: the store that Chroma
    keeps under its [persist_directory] is no part of the world. *)
Record Host := mkHost {
  path_exists : Path -> bool;                 (* Path.exists() *)
  realpath : Path -> str;                     (* str(Path.resolve()) *)
  git_rev_parse : Path -> option str;         (* git rev-parse --abbrev-ref HEAD *)
  git_log : Path -> option str;               (* git log --pretty=format:..., as text *)
  now_utc : datetime;                         (* datetime.now(timezone.utc) *)
  utcnow_isoformat : str;                     (* datetime.utcnow().isoformat() *)
  getenv : str -> option str;                 (* os.getenv *)
  chroma_from_documents :
    list Document -> Embeddings -> str -> option unit;
  chroma_similarity_search :
    json -> Embeddings -> str -> Z -> option (list Document);
  llm_invoke : LLM -> str -> option Response;
}.

(** [p.resolve()] *)
Definition resolve (h : Host) (p : Path) : Path := Path_of (realpath h p).

(** Calls made to the external libraries, in the order they are made. *)
Inductive call :=
| FromDocuments (documents : list Document) (embedding : Embeddings)
    (persist_directory : str)
| SimilaritySearch (persist_directory : json) (embedding_function : Embeddings)
    (query : str) (k : Z)
| Invoke (llm : LLM) (prompt : str).

(** A line on standard output: text, or the warning of the commit
    extractor, which prints the list of parts it could not unpack. *)
Inductive out_line :=
| Line (text : str)
| SkippingMalformed (parts : list str).

Record World := mkWorld {
  files : gmap Path file_text;
  stdout : list out_line;
  stderr : list str;
  calls : list call;
}.

Inductive exn :=
| CalledProcessError
| IndexError
| KeyError (key : str)
| TypeError
| JSONDecodeError
| FileNotFoundError
| IsADirectoryError
| LibraryError.

(** How a computation ends: with a value, with [raise typer.Exit(code)],
    or with an uncaught exception. *)
Inductive result (A : Type) :=
| Done (a : A)
| Exit (code : Z)
| Raised (e : exn).
Arguments Done {A} a.
Arguments Exit {A} code.
Arguments Raised {A} e.

(** The exit status of the process: an uncaught exception ends the
    interpreter with status 1. *)
Definition exit_code {A : Type} (r : result A) : Z :=
  match r with
  | Done _ => 0
  | Exit code => code
  | Raised _ => 1
  end.

Definition M (A : Type) : Type := World -> result A * World.

#[global] Instance M_ret : MRet M := fun A a w => (Done a, w).
#[global] Instance M_bind : MBind M := fun A B f c w =>
  match c w with
  | (Done a, w') => f a w'
  | (Exit code, w') => (Exit code, w')
  | (Raised e, w') => (Raised e, w')
  end.

Definition typer_exit {A : Type} (code : Z) : M A := fun w => (Exit code, w).
Definition raise {A : Type} (e : exn) : M A := fun w => (Raised e, w).

Definition from_option {A : Type} (e : exn) (o : option A) : M A :=
  match o with
  | Some a => mret a
  | None => raise e
  end.

Definition put_out (l : out_line) : M unit := fun w =>
  (Done (), mkWorld (files w) (stdout w ++ [l]) (stderr w) (calls w)).

(** [typer.echo(text)] and [typer.echo(text, err=True)] *)
Definition echo (text : str) : M unit := put_out (Line text).
Definition echo_err (text : str) : M unit := fun w =>
  (Done (), mkWorld (files w) (stdout w) (stderr w ++ [text]) (calls w)).

Definition record_call (c : call) : M unit := fun w =>
  (Done (), mkWorld (files w) (stdout w) (stderr w) (calls w ++ [c])).

(** [path.write_text(text)]: creates or truncates the file. *)
Definition write_text (p : Path) (text : file_text) : M unit := fun w =>
  (Done (), mkWorld (<[p := text]> (files w)) (stdout w) (stderr w) (calls w)).

(** [json.loads(path.read_text())]; [directories] are the directories of
    the file system, on which [read_text] raises [IsADirectoryError]. *)
Definition read_json (directories : list Path) (p : Path) : M json := fun w =>
  match files w !! p with
  | Some (JsonText j) => (Done j, w)
  | Some (OtherText _) => (Raised JSONDecodeError, w)
  | None =>
      (Raised (if bool_decide (p ∈ directories) then IsADirectoryError
               else FileNotFoundError), w)
  end.

(** ** utilities/api_key_manager.py *)

(** [not key], for the [None] or the string [os.getenv] returns. *)
Definition not_key (key : option str) : bool :=
  match key with
  | None => true
  | Some s => is_empty s
  end.

Definition _get_api_key_openai (h : Host) : M (option str) :=
  let key := getenv h (py "OPENAI_API_KEY") in
  if not_key key then
    echo_err (py "Error: OPENAI_API_KEY is not set. Run export OPENAI_API_KEY='<key>'");;
    typer_exit 1
  else mret key.

Definition _get_api_key (h : Host) (provider : str) : M (option str) :=
  if bool_decide (provider = py "openai") then _get_api_key_openai h
  else
    echo_err (py "Unknown embedding provider: " ++ provider);;
    typer_exit 1.

(** ** utilities/embeddings.py *)

Definition _get_embeddings (h : Host) (provider model : str) : M Embeddings :=
  if bool_decide (provider = py "hf") then
    mret (HuggingFaceEmbeddings model)
  else if bool_decide (provider = py "openai") then
    _get_api_key h (py "openai");;
    mret (OpenAIEmbeddings model)
  else
    echo_err (py "Unknown embedding provider: " ++ provider);;
    typer_exit 1.

(** ** utilities/llm_provider.py *)

Definition _get_llm_provider_openai (h : Host) (model : str) : M LLM :=
  _get_api_key h (py "openai");;
  mret (ChatOpenAI model).

Definition _get_llm_provider (h : Host) (provider model : str) : M LLM :=
  if bool_decide (provider = py "openai") then _get_llm_provider_openai h model
  else
    echo_err (py "Unknown LLM provider: " ++ provider);;
    typer_exit 1.

(** ** utilities/git_command_utilities.py *)

(** The body of the [for entry in ...] loop, [docs] being the list built
    so far.  Unpacking [parts] into four names is the [len(parts) != 4]
    test. *)
Fixpoint extract_loop (entries : list str) (docs : list Document)
  : M (list Document) :=
  match entries with
  | [] => mret docs
  | entry :: rest =>
      if is_empty (strip entry) then extract_loop rest docs
      else
        let parts := split_max US entry 4 in
        match parts with
        | [sha; author; date; message] =>
            let metadata :=
              [(py "sha", sha); (py "author", author); (py "date", date)] in
            extract_loop rest (docs ++ [mkDocument message metadata])
        | _ =>
            put_out (SkippingMalformed parts);;
            extract_loop rest docs
        end
  end.

Definition _extract_commits_with_message (h : Host) (target_dir : Path)
  : M (list Document) :=
  raw ← from_option CalledProcessError (git_log h target_dir);
  extract_loop (split RS (strip raw)) [].

(** ** message.py *)

Definition root_dir : str := py ".tmp".

Definition _get_embeddings_store_paths (h : Host) (target_dir : Path)
  : Path * Path :=
  let timestamp := strftime_YmdHMS (now_utc h) in
  let node_name := replace_char 0x20 0x5f (path_name (resolve h target_dir)) in
  let embed_filename :=
    root_dir ++ py "/" ++ node_name ++ py "-embeddings-" ++ timestamp ++ py ".json" in
  let chroma_dir := Path_of (root_dir ++ py "/.git_gpt_chroma_db_" ++ timestamp) in
  (Path_of embed_filename, chroma_dir).

Definition check_mark : str := [0x2705%N].
Definition magnifier : str := [0x1F50D%N].
Definition robot : str := [0x1F916%N].

Definition prepare (h : Host) (folder : Path) (provider model : str) : M unit :=
  if negb (path_exists h (path_div folder (py ".git"))) then
    echo_err (py "Error: provided folder is missing or is not a Git repository");;
    typer_exit 1
  else
    let '(embed_file, chroma_dir) := _get_embeddings_store_paths h folder in
    out ← from_option CalledProcessError (git_rev_parse h folder);
    let branch := strip out in
    echo (py "Preparing embeddings for branch: " ++ branch ++ py " at "
          ++ path_str folder);;
    docs ← _extract_commits_with_message h folder;
    embeddings ← _get_embeddings h provider model;
    record_call (FromDocuments docs embeddings (path_str chroma_dir));;
    from_option LibraryError
      (chroma_from_documents h docs embeddings (path_str chroma_dir));;
    let payload := JDict [
      (py "branch", JStr branch);
      (py "created_at", JStr (utcnow_isoformat h ++ py "Z"));
      (py "provider", JStr provider);
      (py "doc_count", JInt (Z.of_nat (length docs)));
      (py "path", JStr (path_str folder));
      (py "chroma_dir", JStr (path_str chroma_dir))
    ] in
    write_text embed_file (json_dumps payload);;
    echo (check_mark ++ py " Embeddings indexed and stored in " ++ path_str embed_file).

(** Glob patterns: [*] matches any run of characters of a file name, every
    other character of the patterns used here matches itself. *)
Inductive glob_token :=
| Star
| Char (c : N).

Definition glob_pattern (s : str) : list glob_token :=
  (fun c => if (c =? 0x2a)%N then Star else Char c) <$> s.

Fixpoint glob_match (pat : list glob_token) (s : str) : bool :=
  match pat with
  | [] => is_empty s
  | Char c :: pat' =>
      match s with
      | c' :: s' => (c =? c')%N && glob_match pat' s'
      | [] => false
      end
  | Star :: pat' =>
      (fix star (s : str) : bool :=
         glob_match pat' s
         || match s with
            | _ :: s' => star s'
            | [] => false
            end) s
  end.

(** [p] is an entry of directory [dir] whose name matches [pattern]. *)
Definition in_glob (dir : Path) (pattern : str) (p : Path) : bool :=
  match reverse p with
  | name :: rev_parent =>
      bool_decide (reverse rev_parent = dir) && glob_match (glob_pattern pattern) name
  | [] => false
  end.

(** [list(dir.glob(pattern))]: the entries of [dir] whose name matches,
    files of the world and directories alike ([directories] are the
    directories of the file system; they are not files of the world). *)
Definition glob (directories : list Path) (dir : Path) (pattern : str)
  : M (list Path) := fun w =>
  (Done (filter (fun p => in_glob dir pattern p = true)
                ((map_to_list (files w)).*1 ++ directories)), w).

(** [p <= q] on paths: lexicographic on their parts. *)
Fixpoint path_leb (p q : Path) : bool :=
  match p, q with
  | [], _ => true
  | _ :: _, [] => false
  | x :: p', y :: q' =>
      if bool_decide (x = y) then path_leb p' q' else str_leb x y
  end.

Definition path_le (p q : Path) : Prop := path_leb p q = true.

#[global] Instance path_le_dec : RelDecision path_le.
Proof. intros p q. unfold path_le. apply _. Defined.

(** [sorted(paths)] *)
Definition sorted (paths : list Path) : list Path := merge_sort path_le paths.

(** [data[key]] on a loaded JSON value. *)
Definition json_getitem (data : json) (key : str) : M json :=
  match data with
  | JDict items => from_option (KeyError key) (dict_get items key)
  | _ => raise TypeError
  end.

(** [f"{v}"] for the result of [dict.get]. *)
Definition fmt (v : option str) : str := default (py "None") v.

(** [l[0]] *)
Definition index0 {A : Type} (l : list A) : M A :=
  from_option IndexError (head l).

(** The body of the [for doc in docs] loop of [search], [commits] being
    the text accumulated so far. *)
Fixpoint format_results (docs : list Document) (commits : str) : M str :=
  match docs with
  | [] => mret commits
  | doc :: rest =>
      let sha := fmt (dict_get (metadata doc) (py "sha")) in
      let author := fmt (dict_get (metadata doc) (py "author")) in
      let date := fmt (dict_get (metadata doc) (py "date")) in
      message ← index0 (splitlines (take 100 (page_content doc)));
      echo (py "- " ++ sha ++ py ": " ++ author ++ py " on " ++ date
            ++ py ": " ++ message ++ py "...");;
      format_results rest
        (commits ++ py "-commit: " ++ sha ++ py ": author: " ++ author
         ++ py ", date: " ++ date ++ py ", message: " ++ message
         ++ py "..." ++ [0x0a%N])
  end.

(** An f-string prompt template, cut at its [{name}] fields (the templates
    of this program have no doubled braces). *)
Inductive segment :=
| Literal (text : str)
| Field (name : str).

Fixpoint parse_template (s : str) (text : str) : list segment :=
  match s with
  | [] => [Literal (reverse text)]
  | c :: s' =>
      if (c =? 0x7b)%N then Literal (reverse text) :: parse_field s' []
      else parse_template s' (c :: text)
  end
with parse_field (s : str) (name : str) : list segment :=
  match s with
  | [] => []
  | c :: s' =>
      if (c =? 0x7d)%N then Field (reverse name) :: parse_template s' []
      else parse_field s' (c :: name)
  end.

Definition field_names (segments : list segment) : list str :=
  omap (fun sg => match sg with Field n => Some n | Literal _ => None end) segments.

(** [PromptTemplate(input_variables=..., template=...)]: langchain_core
    replaces the declared input variables by the fields of the template. *)
Record PromptTemplate := mkPromptTemplate {
  input_variables : list str;
  template : str;
}.

Definition PromptTemplate_init (declared : list str) (template : str)
  : PromptTemplate :=
  mkPromptTemplate (field_names (parse_template template [])) template.

Fixpoint format_segments (segments : list segment) (inputs : list (str * str))
  : M str :=
  match segments with
  | [] => mret []
  | Literal text :: rest =>
      tail ← format_segments rest inputs;
      mret (text ++ tail)
  | Field name :: rest =>
      v ← from_option (KeyError name) (dict_get inputs name);
      tail ← format_segments rest inputs;
      mret (v ++ tail)
  end.

(** The prompt a template yields when the chain is invoked on [inputs]. *)
Definition prompt_invoke (pt : PromptTemplate) (inputs : list (str * str))
  : M str :=
  format_segments (parse_template (template pt) []) inputs.

Definition system_prompt : str :=
  py "You are a helpful Engineer who understands how development works" ++ [0x0a%N]
  ++ py "        and answers questions about git commit changes. You are concise, accurate, and explain all commit messages" ++ [0x0a%N]
  ++ py "        which are relevant to the question clearly using developer-friendly language and provide all relevant details" ++ [0x0a%N]
  ++ py "        including the commit hash, author, date, and message. Answer only based on the commit messages provided." ++ [0x0a%N]
  ++ py "        If you don't know the answer, say so.".

Definition nl : str := [0x0a%N].

(** The body of [if summarize:] in [search]. *)
Definition summarize_commits (h : Host) (llm_provider llm_model : str)
    (commits query : str) : M unit :=
  llm ← _get_llm_provider h llm_provider llm_model;
  let prompt_template :=
    PromptTemplate_init [py "context"; py "question"]
      (system_prompt ++ nl ++ nl ++ py "Commit Messages:" ++ nl
       ++ py "{commits}" ++ nl ++ nl ++ py "Question:" ++ nl
       ++ py "{question}") in
  prompt ← prompt_invoke prompt_template
    [(py "commits", commits); (py "question", query)];
  record_call (Invoke llm prompt);;
  response ← from_option LibraryError (llm_invoke h llm prompt);
  let answer :=
    match response with
    | AIMessage content => content
    | RawString s => s
    end in
  echo (nl ++ robot ++ py " LLM Answer:");;
  echo (strip answer).

Definition search (directories : list Path) (h : Host)
    (query provider model : str) (summarize : bool)
    (llm_provider llm_model : str) (k : Z) : M unit :=
  if (200 <? length query)%nat then
    echo_err (py "Error: Query exceeds 200 characters.");;
    typer_exit 1
  else
    found ← glob directories (Path_of root_dir) (py "*-embeddings-*.json");
    if bool_decide (found = []) then
      echo_err (py "No embeddings found. Run 'prepare' first.");;
      typer_exit 1
    else
      latest ← from_option IndexError (last (sorted found));
      data ← read_json directories latest;
      chroma_dir ← json_getitem data (py "chroma_dir");
      embedding_function ← _get_embeddings h provider model;
      record_call (SimilaritySearch chroma_dir embedding_function query k);;
      docs ← from_option LibraryError
        (chroma_similarity_search h chroma_dir embedding_function query k);
      echo (magnifier ++ py " Top " ++ str_of_nat (length docs)
            ++ py " matching commits:");;
      commits ← format_results docs [];
      if summarize then
        summarize_commits h llm_provider llm_model commits query
      else mret ().

(** One command-line invocation of [prepare], with the host it runs on. *)
Record prepare_run := mkPrepareRun {
  run_host : Host;
  run_folder : Path;
  run_provider : str;
  run_model : str;
}.

(** The world after a series of [prepare] invocations, one after the other. *)
Definition run_prepares (runs : list prepare_run) (w : World) : World :=
  foldl (fun w r =>
           (prepare (run_host r) (run_folder r) (run_provider r) (run_model r) w).2)
        w runs.

(** ** message.py: [list_embeddings] and [cleanup] *)

(** [str(z)] *)
Definition str_of_Z (z : Z) : str :=
  if z <? 0 then py "-" ++ str_of_nat (Z.to_nat (- z))
  else str_of_nat (Z.to_nat z).

(** What the interpreter prints for values whose text this program does not
    build itself: [str(e)] for a caught exception, and the [repr] of a JSON
    list or dict. *)
Record Rendering := mkRendering {
  str_of_exn : exn -> str;
  repr_of : json -> str;
}.

(** [f"{v}"] for a loaded JSON value. *)
Definition fmt_json (r : Rendering) (v : json) : str :=
  match v with
  | JNull => py "None"
  | JBool true => py "True"
  | JBool false => py "False"
  | JInt n => str_of_Z n
  | JStr s => s
  | JList _ | JDict _ => repr_of r v
  end.

(** [try: body / except Exception as e: handler(e)]; what [body] did before
    raising stays done.  The bodies below raise no [typer.Exit]. *)
Definition try_except {A : Type} (body : M A) (handler : exn -> M A) : M A :=
  fun w =>
    match body w with
    | (Raised e, w') => handler e w'
    | other => other
    end.

Definition path_ge (p q : Path) : Prop := path_le q p.

#[global] Instance path_ge_dec : RelDecision path_ge.
Proof. intros p q. unfold path_ge. apply _. Defined.

(** [sorted(paths, reverse=True)] *)
Definition sorted_reverse (paths : list Path) : list Path :=
  merge_sort path_ge paths.

Definition warning_sign : str := [0x26A0%N; 0xFE0F%N].
Definition wastebasket : str := [0x1F5D1%N; 0xFE0F%N].

(** The body of the [try] block of [list_embeddings]. *)
Definition show_metadata (directories : list Path) (r : Rendering)
    (file : Path) : M unit :=
  data ← read_json directories file;
  echo (nl ++ py "Embeddings metadata from " ++ path_name file ++ py ":");;
  branch ← json_getitem data (py "branch");
  echo (py "  Branch      : " ++ fmt_json r branch);;
  created_at ← json_getitem data (py "created_at");
  echo (py "  Created at  : " ++ fmt_json r created_at);;
  provider ← json_getitem data (py "provider");
  echo (py "  Provider    : " ++ fmt_json r provider);;
  doc_count ← json_getitem data (py "doc_count");
  echo (py "  Doc count   : " ++ fmt_json r doc_count);;
  chroma_dir ← json_getitem data (py "chroma_dir");
  echo (py "  Chroma dir  : " ++ fmt_json r chroma_dir).

(** The [for file in sorted(files, reverse=True)] loop. *)
Fixpoint list_loop (directories : list Path) (r : Rendering)
    (listed : list Path) : M unit :=
  match listed with
  | [] => mret ()
  | file :: rest =>
      try_except (show_metadata directories r file)
        (fun e =>
           echo_err (nl ++ warning_sign ++ py "  Failed to read "
                     ++ path_name file ++ py ": " ++ str_of_exn r e));;
      list_loop directories r rest
  end.

Definition list_embeddings (directories : list Path) (r : Rendering) : M unit :=
  found ← glob directories (Path_of root_dir) (py "*-embeddings-*.json");
  if bool_decide (found = []) then
    echo_err (py "No embeddings found in current directory.");;
    typer_exit 1
  else list_loop directories r (sorted_reverse found).

(** [p] lies below directory [d]. *)
Definition below (d p : Path) : Prop := d `prefix_of` p /\ d <> p.

(** [f.unlink()]: removes a file of the world, and raises for a path that
    is none (a directory, for which Python raises another [OSError], is not
    told apart from a missing path). *)
Definition unlink (p : Path) : M unit := fun w =>
  match files w !! p with
  | Some _ =>
      (Done (), mkWorld (delete p (files w)) (stdout w) (stderr w) (calls w))
  | None => (Raised FileNotFoundError, w)
  end.

(** [shutil.rmtree(d, ignore_errors=True)]: removes the files below [d],
    except those whose removal fails, which [survives] tells; never fails
    itself. *)
Definition rmtree_ignore_errors (survives : Path -> bool) (d : Path) : M unit :=
  fun w =>
    (Done (),
     mkWorld
       (filter (fun entry => ~ below d entry.1 \/ survives entry.1 = true)
               (files w))
       (stdout w) (stderr w) (calls w)).

Fixpoint unlink_loop (embed_files : list Path) : M unit :=
  match embed_files with
  | [] => mret ()
  | f :: rest =>
      unlink f;;
      echo (wastebasket ++ py " Deleted " ++ path_name f);;
      unlink_loop rest
  end.

Fixpoint rmtree_loop (survives : Path -> bool) (chroma_dirs : list Path)
  : M unit :=
  match chroma_dirs with
  | [] => mret ()
  | d :: rest =>
      rmtree_ignore_errors survives d;;
      echo (wastebasket ++ py " Deleted directory " ++ path_name d);;
      rmtree_loop survives rest
  end.

Definition cleanup (directories : list Path) (survives : Path -> bool) : M unit :=
  embed_files ← glob directories (Path_of root_dir)
                  (py "*-embeddings-*.json");
  chroma_dirs ← glob directories (Path_of root_dir)
                  (py ".git_gpt_chroma_db_*");
  unlink_loop embed_files;;
  rmtree_loop survives chroma_dirs;;
  echo (check_mark ++ py " Cleanup complete.").

(** ** Vocabulary of the statements *)

(** The commit record of a log entry that splits, at every field separator,
    into exactly four fields. *)
Definition commit_record (entry : str) : option Document :=
  match split US entry with
  | [sha; author; date; message] =>
      Some (mkDocument message
              [(py "sha", sha); (py "author", author); (py "date", date)])
  | _ => None
  end.

Definition blank (entry : str) : bool := is_empty (strip entry).

(** The entries the extractor's loop runs over, and among them those it
    warns about. *)
Definition loop_entries (raw : str) : list str := split RS (strip raw).

Definition malformed (entry : str) : bool :=
  negb (blank entry) && bool_decide (commit_record entry = None).

Definition warn (w : World) (lines : list out_line) : World :=
  mkWorld (files w) (stdout w ++ lines) (stderr w) (calls w).

Definition complain (w : World) (text : str) : World :=
  mkWorld (files w) (stdout w) (stderr w ++ [text]) (calls w).

Definition called (w : World) (c : call) : World :=
  mkWorld (files w) (stdout w) (stderr w) (calls w ++ [c]).

(** The prompt the summarizer is meant to send: the system prompt, the
    block of commits and the question. *)
Definition summary_prompt (commits query : str) : str :=
  system_prompt ++ nl ++ nl ++ py "Commit Messages:" ++ nl ++ commits
  ++ nl ++ nl ++ py "Question:" ++ nl ++ query.

Definition answer_of (response : Response) : str :=
  match response with
  | AIMessage content => content
  | RawString s => s
  end.

(** The first line [search] shows for a stored message, when there is one,
    and the line it adds to the block of commits. *)
Definition first_line (doc : Document) : str :=
  default [] (head (splitlines (take 100 (page_content doc)))).

Definition commit_line (doc : Document) : str :=
  py "-commit: " ++ fmt (dict_get (metadata doc) (py "sha"))
  ++ py ": author: " ++ fmt (dict_get (metadata doc) (py "author"))
  ++ py ", date: " ++ fmt (dict_get (metadata doc) (py "date"))
  ++ py ", message: " ++ first_line doc ++ py "..." ++ nl.

Definition result_line (doc : Document) : out_line :=
  Line (py "- " ++ fmt (dict_get (metadata doc) (py "sha")) ++ py ": "
        ++ fmt (dict_get (metadata doc) (py "author")) ++ py " on "
        ++ fmt (dict_get (metadata doc) (py "date")) ++ py ": "
        ++ first_line doc ++ py "...").

(** The rest of [search] once [chroma_dir] has been read from the metadata
    file ([search_unfold] below shows it is that part, unchanged). *)
Definition search_in (h : Host) (query provider model : str) (summarize : bool)
    (llm_provider llm_model : str) (k : Z) (chroma_dir : json) : M unit :=
  embedding_function ← _get_embeddings h provider model;
  record_call (SimilaritySearch chroma_dir embedding_function query k);;
  docs ← from_option LibraryError
    (chroma_similarity_search h chroma_dir embedding_function query k);
  echo (magnifier ++ py " Top " ++ str_of_nat (length docs)
        ++ py " matching commits:");;
  commits ← format_results docs [];
  if summarize then
    summarize_commits h llm_provider llm_model commits query
  else mret ().

(** A computation that behaves the same in a world and in its image under
    [T], up to [T]. *)
Definition respects (T : World -> World) {A : Type} (c : M A) : Prop :=
  forall w, c (T w) = ((c w).1, T (c w).2).

(** The metadata files [search] and [list_embeddings] see. *)
Definition metadata_files (w : World) : list Path :=
  filter (fun p => in_glob (Path_of root_dir) (py "*-embeddings-*.json") p = true)
         (map_to_list (files w)).*1.

(** The entries of [root_dir] with the name of a metadata file: the
    metadata files and the directories so named. *)
Definition metadata_entries (directories : list Path) (w : World) : list Path :=
  filter (fun p => in_glob (Path_of root_dir) (py "*-embeddings-*.json") p = true)
         ((map_to_list (files w)).*1 ++ directories).

(** The name [prepare] gives the metadata file of a folder name and a
    timestamp. *)
Definition embed_name (node_name timestamp : str) : str :=
  node_name ++ py "-embeddings-" ++ timestamp ++ py ".json".

(** The folder name and the timestamp [prepare] uses on a host. *)
Definition node_name (h : Host) (folder : Path) : str :=
  replace_char 0x20 0x5f (path_name (resolve h folder)).

Definition embed_path (h : Host) (folder : Path) : Path :=
  [py ".tmp"; embed_name (node_name h folder) (strftime_YmdHMS (now_utc h))].

(** The record [prepare] persists. *)
Definition payload_keys : list str :=
  [py "branch"; py "created_at"; py "provider"; py "doc_count"; py "path";
   py "chroma_dir"].

Definition prepare_payload (h : Host) (folder : Path) (provider branch : str)
    (docs : list Document) : list (str * json) := [
  (py "branch", JStr branch);
  (py "created_at", JStr (utcnow_isoformat h ++ py "Z"));
  (py "provider", JStr provider);
  (py "doc_count", JInt (Z.of_nat (length docs)));
  (py "path", JStr (path_str folder));
  (py "chroma_dir", JStr (path_str (_get_embeddings_store_paths h folder).2))
].

(** The timestamp and the folder name in the name of a metadata file: the
    fourteen characters before the extension, and what precedes the infix. *)
Definition timestamp_of (p : Path) : str :=
  let name := path_name p in
  take 14 (drop (length name - 19) name).

Definition node_of (p : Path) : str :=
  let name := path_name p in
  take (length name - 31) name.

(** [p] is the metadata file of one of the invocations [runs]. *)
Definition written_by (runs : list prepare_run) (p : Path) : Prop :=
  exists r, r ∈ runs /\ p = embed_path (run_host r) (run_folder r).

(** "At most one metadata file per timestamp", and per folder name and
    timestamp. *)
Definition one_file_per_timestamp (w : World) : Prop :=
  forall p q, p ∈ metadata_files w -> q ∈ metadata_files w ->
    timestamp_of p = timestamp_of q -> p = q.

Definition one_file_per_name_and_timestamp (w : World) : Prop :=
  forall p q, p ∈ metadata_files w -> q ∈ metadata_files w ->
    node_of p = node_of q -> timestamp_of p = timestamp_of q -> p = q.

(** The metadata of a world with the recorded provider of every metadata
    file replaced by [provider]. *)
Fixpoint dict_set {V : Type} (d : list (str * V)) (key : str) (v : V)
  : list (str * V) :=
  match d with
  | [] => []
  | (k, x) :: rest =>
      if bool_decide (k = key) then (k, v) :: rest
      else (k, x) :: dict_set rest key v
  end.

Definition set_provider (provider : str) (t : file_text) : file_text :=
  match t with
  | JsonText (JDict items) =>
      JsonText (JDict (dict_set items (py "provider") (JStr provider)))
  | _ => t
  end.

Definition with_provider (provider : str) (w : World) : World :=
  mkWorld (set_provider provider <$> files w) (stdout w) (stderr w) (calls w).

(** ** Vocabulary of the further properties *)

(** The part of a string before its first line boundary. *)
Fixpoint until_linebreak (s : str) : str :=
  match s with
  | [] => []
  | c :: s' => if is_linebreak c then [] else c :: until_linebreak s'
  end.

(** A commit as [git log] knows it, and what the format string
    [%H%x1f%an%x1f%ad%x1f%s%x1e] prints for a history: one entry per commit,
    newest first, with a newline between entries. *)
Record commit := mkCommit {
  c_sha : str;
  c_author : str;
  c_date : str;
  c_subject : str;
}.

Definition log_entry (c : commit) : str :=
  c_sha c ++ [US] ++ c_author c ++ [US] ++ c_date c ++ [US] ++ c_subject c
  ++ [RS].

Definition git_log_output (history : list commit) : str :=
  join nl (log_entry <$> history).

(** What [check_output(..., text=True)] makes of the output of a command:
    in text mode every ["\r\n"] and every other ["\r"] is read as
    ["\n"]. *)
Fixpoint universal_newlines (s : str) : str :=
  match s with
  | [] => []
  | c :: s' =>
      if (c =? 0x0d)%N then
        0x0a%N :: match s' with
                  | d :: s'' =>
                      if (d =? 0x0a)%N then universal_newlines s''
                      else universal_newlines s'
                  | [] => []
                  end
      else c :: universal_newlines s'
  end.

(** The document the extractor builds for a commit: the sha of every
    commit but the first carries the newline that precedes its entry. *)
Definition commit_doc (first : bool) (c : commit) : Document :=
  mkDocument (c_subject c)
    [(py "sha", (if first then [] else nl) ++ c_sha c);
     (py "author", c_author c); (py "date", c_date c)].

Definition commit_docs (history : list commit) : list Document :=
  match history with
  | [] => []
  | c :: rest => commit_doc true c :: (commit_doc false <$> rest)
  end.

Definition no_separator (s : str) : Prop := (US ∉ s) /\ (RS ∉ s).

(** The document made of the parts of an entry, when they are four. *)
Definition document_of_parts (parts : list str) : option Document :=
  match parts with
  | [sha; author; date; message] =>
      Some (mkDocument message
              [(py "sha", sha); (py "author", author); (py "date", date)])
  | _ => None
  end.

Definition printable (s : str) : Prop :=
  s <> [] /\ Forall (fun c => isspace c = false) s.

(** The labels and keys [list_embeddings] prints for a metadata file, in
    order. *)
Definition metadata_fields : list (str * str) := [
  (py "  Branch      : ", py "branch");
  (py "  Created at  : ", py "created_at");
  (py "  Provider    : ", py "provider");
  (py "  Doc count   : ", py "doc_count");
  (py "  Chroma dir  : ", py "chroma_dir")
].

(** The lines printed for the fields of a loaded object, up to the first
    key it lacks, and that key. *)
Fixpoint field_lines (r : Rendering) (items : list (str * json))
    (fields : list (str * str)) : list out_line * option str :=
  match fields with
  | [] => ([], None)
  | (label, key) :: rest =>
      match dict_get items key with
      | None => ([], Some key)
      | Some v =>
          let '(lines, missing) := field_lines r items rest in
          (Line (label ++ fmt_json r v) :: lines, missing)
      end
  end.

Definition metadata_header (file : Path) : out_line :=
  Line (nl ++ py "Embeddings metadata from " ++ path_name file ++ py ":").

(** What [list_embeddings] shows for one file, and the exception that cuts
    it short. *)
Definition shown (directories : list Path) (r : Rendering) (w : World)
    (file : Path) : list out_line * option exn :=
  match files w !! file with
  | None =>
      ([], Some (if bool_decide (file ∈ directories) then IsADirectoryError
                 else FileNotFoundError))
  | Some (OtherText _) => ([], Some JSONDecodeError)
  | Some (JsonText (JDict items)) =>
      let '(lines, missing) := field_lines r items metadata_fields in
      (metadata_header file :: lines, KeyError <$> missing)
  | Some (JsonText _) => ([metadata_header file], Some TypeError)
  end.

Definition failure_line (r : Rendering) (file : Path) (e : exn) : str :=
  nl ++ warning_sign ++ py "  Failed to read " ++ path_name file ++ py ": "
  ++ str_of_exn r e.

(** The world after a listing of [listed]. *)
Definition listing (directories : list Path) (r : Rendering) (w : World)
    (listed : list Path) : World :=
  mkWorld (files w)
    (stdout w ++ concat ((fun file => (shown directories r w file).1) <$> listed))
    (stderr w
     ++ omap (fun file => failure_line r file <$> (shown directories r w file).2)
          listed)
    (calls w).

(** The entry [search] takes for the latest metadata file. *)
Definition latest_entry (directories : list Path) (w : World) : option Path :=
  last (sorted (metadata_entries directories w)).

(** The entries of [.tmp] that [cleanup] takes for vector-store
    directories, and the lines it prints. *)
Definition store_entries (directories : list Path) (w : World) : list Path :=
  filter (fun p => in_glob (Path_of root_dir) (py ".git_gpt_chroma_db_*") p = true)
         ((map_to_list (files w)).*1 ++ directories).

Definition deleted_line (f : Path) : out_line :=
  Line (wastebasket ++ py " Deleted " ++ path_name f).

Definition deleted_directory_line (d : Path) : out_line :=
  Line (wastebasket ++ py " Deleted directory " ++ path_name d).

(** No directory of the host is named like a metadata file. *)
Definition no_metadata_directory (directories : list Path) : Prop :=
  Forall (fun d => in_glob (Path_of root_dir) (py "*-embeddings-*.json") d = false)
         directories.

Definition ends_printable (s : str) : Prop :=
  exists s' x, s = s' ++ [x] /\ isspace x = false.

(** An entry without its final record separator. *)
Definition entry_fields (c : commit) : str :=
  c_sha c ++ [US] ++ c_author c ++ [US] ++ c_date c ++ [US] ++ c_subject c.

(** What [git log] prints for real commits: a hash without blanks, fields
    without the separators of the format. *)
Definition well_formed (c : commit) : Prop :=
  printable (c_sha c) /\ no_separator (c_sha c) /\ no_separator (c_author c)
  /\ no_separator (c_date c) /\ no_separator (c_subject c).

(** No field of the commit holds a carriage return. *)
Definition no_return (c : commit) : Prop := 0x0d%N ∉ entry_fields c.

(** ** Sample hosts and worlds, for the concrete runs below *)

Definition empty_world : World := mkWorld ∅ [] [] [].

(** A two-commit log as [git log] prints it: the entries end in [RS] and
    are separated by a newline. *)
Definition sample_log : str :=
  py "b2c4" ++ [US] ++ py "Ann" ++ [US] ++ py "Tue Jan 2" ++ [US]
  ++ py "Fix parser" ++ [RS] ++ nl
  ++ py "a1f3" ++ [US] ++ py "Bob" ++ [US] ++ py "Mon Jan 1" ++ [US]
  ++ py "Initial commit" ++ [RS].

Definition sample_docs : list Document := [
  mkDocument (py "Fix parser")
    [(py "sha", py "b2c4"); (py "author", py "Ann"); (py "date", py "Tue Jan 2")];
  mkDocument (py "Initial commit")
    [(py "sha", nl ++ py "a1f3"); (py "author", py "Bob"); (py "date", py "Mon Jan 1")]
].

Definition sample_host (real : str) (log : str) (t : datetime)
    (key : option str) (hits : list Document) : Host :=
  mkHost
    (fun p => bool_decide (p = [py "repo"; py ".git"]))
    (fun _ => real)
    (fun _ => Some (py "main" ++ nl))
    (fun _ => Some log)
    t
    (py "2025-01-02T03:04:05.000123")
    (fun name => if bool_decide (name = py "OPENAI_API_KEY") then key else None)
    (fun _ _ _ => Some ())
    (fun _ _ _ _ => Some hits)
    (fun _ _ => Some (AIMessage (py " Ann fixed the parser. " ++ nl))).

Definition noon : datetime := mkDatetime 2025 1 2 12 0 0.

Definition host1 : Host :=
  sample_host (py "/home/ann/my repo") sample_log noon None sample_docs.

(** A commit made with an empty message, as [git log] prints it, alone in
    its repository and as the newer of two commits. *)
Definition bob_sha : str := py "3f2a9c1e5b7d4f6a8c0e1b2d3f4a5c6e7d8f9a0b".
Definition bob_date : str := py "Mon Jan 1 09:00:00 2024 +0000".
Definition ann_sha : str := py "9e07c4d2a1b35f6e8d7c9b0a1f2e3d4c5b6a7f80".
Definition ann_date : str := py "Sun Dec 31 18:30:00 2023 +0000".

Definition empty_subject_entry : str :=
  bob_sha ++ [US] ++ py "Bob" ++ [US] ++ bob_date ++ [US].

Definition empty_subject_doc : Document :=
  mkDocument []
    [(py "sha", bob_sha); (py "author", py "Bob"); (py "date", bob_date)].

Definition empty_subject_log : str := empty_subject_entry ++ [RS].

Definition empty_subject_first_log : str :=
  empty_subject_entry ++ [RS] ++ nl
  ++ ann_sha ++ [US] ++ py "Ann" ++ [US] ++ ann_date ++ [US]
  ++ py "Initial commit" ++ [RS].

Definition host_of_log (log : str) : Host :=
  sample_host (py "/home/ann/my repo") log noon None sample_docs.

(** A host with an API key, whose vector store returns the commit with the
    empty message. *)
Definition host_empty_hit : Host :=
  sample_host (py "/home/ann/my repo") empty_subject_first_log noon
    (Some (py "sk-test")) [empty_subject_doc].

(** Two invocations of [prepare] in the same second, on folders of
    different names. *)
Definition run_alpha : prepare_run :=
  mkPrepareRun
    (sample_host (py "/srv/git/alpha") sample_log noon None sample_docs)
    [py "repo"] (py "hf") (py "BAAI/bge-small-en-v1.5").

Definition run_beta : prepare_run :=
  mkPrepareRun
    (sample_host (py "/srv/git/beta") sample_log noon None sample_docs)
    [py "repo"] (py "hf") (py "BAAI/bge-small-en-v1.5").

(** Two metadata files: the one most recently written has the smaller
    name. *)
Definition sample_items (provider timestamp : str) : list (str * json) := [
  (py "branch", JStr (py "main"));
  (py "created_at", JStr (py "2025-01-02T03:04:05.000123Z"));
  (py "provider", JStr provider);
  (py "doc_count", JInt 2);
  (py "path", JStr (py "repo"));
  (py "chroma_dir", JStr (py ".tmp/.git_gpt_chroma_db_" ++ timestamp))
].

Definition zeta_file : Path :=
  [py ".tmp"; py "zeta-embeddings-20240101000000.json"].
Definition alpha_file : Path :=
  [py ".tmp"; py "alpha-embeddings-20250102120000.json"].

Definition two_files_world : World :=
  mkWorld
    (<[alpha_file := JsonText (JDict (sample_items (py "openai") (py "20250102120000")))]>
       (<[zeta_file := JsonText (JDict (sample_items (py "openai") (py "20240101000000")))]> ∅))
    [] [] [].

(** A history of two commits, and a host whose [git log] prints it. *)
Definition sample_history : list commit := [
  mkCommit ann_sha (py "Ann") ann_date (py "Fix parser");
  mkCommit bob_sha (py "Bob") bob_date (py "Initial commit")
].

Definition host_of_history : Host :=
  host_of_log (universal_newlines (git_log_output sample_history)).

(** The two metadata files, and a third under a greater name that is not
    JSON. *)
Definition broken_file : Path := [py ".tmp"; py "zz-embeddings-0.json"].

Definition broken_world : World :=
  mkWorld (<[broken_file := OtherText (py "{")]> (files two_files_world)) [] [] [].

(** A store with two metadata files, a vector-store directory holding one
    file, and a file that [cleanup] has no business with. *)
Definition store_dir : Path := [py ".tmp"; py ".git_gpt_chroma_db_20240101000000"].
Definition store_file : Path := store_dir ++ [py "chroma.sqlite3"].
Definition notes_file : Path := [py "notes.txt"].
Definition cluttered_world : World :=
  mkWorld
    (<[store_file := OtherText (py "sqlite")]>
       (<[notes_file := OtherText (py "remember")]> (files two_files_world)))
    [] [] [].

(** A directory of [.tmp] named like a metadata file, above the names of
    the two files. *)
Definition zz_directory : Path := [py ".tmp"; py "zz-embeddings-dir.json"].

(** A linked worktree: its [.git] is a file that points to the repository. *)
Definition worktree_world : World :=
  mkWorld
    {[ [py "repo"; py ".git"]
       := OtherText (py "gitdir: /home/ann/main/.git/worktrees/repo") ]}
    [] [] [].

(** The directory that a [prepare] at [noon] hands to Chroma, and a store
    that Chroma persisted in it. *)
Definition new_store_dir : Path :=
  [py ".tmp"; py ".git_gpt_chroma_db_20250102120000"].
Definition new_store : gmap Path file_text :=
  {[ new_store_dir ++ [py "chroma.sqlite3"] := OtherText (py "sqlite") ]}.

(** A rendering that names the exception and does not print containers. *)
Definition plain_rendering : Rendering :=
  mkRendering
    (fun e =>
       match e with
       | KeyError key => py "'" ++ key ++ py "'"
       | JSONDecodeError => py "Expecting property name"
       | _ => py "error"
       end)
    (fun _ => py "...").

(** * Properties *)

(** ** Strings *)

Lemma split_nonempty sep s : split sep s <> [].
Proof.
  destruct s as [|c s]; simpl; [done|].
  destruct (c =? sep)%N; [done|].
  by destruct (split sep s).
Qed.

Lemma split_max_nonempty sep s n : split_max sep s n <> [].
Proof.
  destruct s as [|c s]; simpl; [done|].
  destruct n; [done|].
  destruct (c =? sep)%N; [done|].
  by destruct (split_max sep s (S n)).
Qed.

Lemma cons_hd_length c l : l <> [] -> length (cons_hd c l) = length l.
Proof. by destruct l. Qed.

Lemma split_single sep s : length (split sep s) = 1%nat -> split sep s = [s].
Proof.
  induction s as [|c s IH]; simpl; [done|].
  destruct (c =? sep)%N.
  - pose proof (split_nonempty sep s) as Hne.
    destruct (split sep s); simpl; [done | lia].
  - intros Hlen. rewrite cons_hd_length in Hlen by apply split_nonempty.
    by rewrite (IH Hlen).
Qed.

(** With enough cuts allowed, [split(sep, maxsplit)] is [split(sep)]. *)
Lemma split_max_all sep s n :
  (length (split sep s) <= S n)%nat -> split_max sep s n = split sep s.
Proof.
  revert n. induction s as [|c s IH]; intros n Hlen; [done|].
  destruct n as [|n].
  - assert (length (split sep (c :: s)) = 1%nat) as H1.
    { pose proof (split_nonempty sep (c :: s)).
      destruct (split sep (c :: s)); simpl in *; [done | lia]. }
    by rewrite (split_single _ _ H1).
  - simpl in *. destruct (c =? sep)%N.
    + simpl in Hlen. rewrite IH; [done | lia].
    + rewrite cons_hd_length in Hlen by apply split_nonempty.
      by rewrite IH.
Qed.

(** Otherwise it stops after [maxsplit] cuts. *)
Lemma split_max_cut sep s n :
  (S n < length (split sep s))%nat -> length (split_max sep s n) = S n.
Proof.
  revert n. induction s as [|c s IH]; intros n Hlen; simpl in *; [lia|].
  destruct n as [|n]; [done|].
  destruct (c =? sep)%N; simpl in *.
  - rewrite IH; [done | lia].
  - rewrite cons_hd_length in Hlen by apply split_nonempty.
    rewrite cons_hd_length by apply split_max_nonempty.
    by apply IH.
Qed.

(** Cutting at most four times yields four parts exactly when the entry has
    four fields. *)
Lemma split_max_four sep s :
  length (split_max sep s 4) = 4%nat -> split_max sep s 4 = split sep s.
Proof.
  intros Hlen.
  destruct (decide (length (split sep s) <= 5)%nat) as [Hle|Hgt].
  - by apply split_max_all.
  - rewrite split_max_cut in Hlen by lia. lia.
Qed.

Lemma split_four_max sep s :
  length (split sep s) = 4%nat -> split_max sep s 4 = split sep s.
Proof. intros Hlen. apply split_max_all. lia. Qed.

(** ** The commit extractor *)

Lemma warn_nil w : warn w [] = w.
Proof. destruct w. unfold warn. simpl. by rewrite app_nil_r. Qed.

Lemma warn_warn w l1 l2 : warn (warn w l1) l2 = warn w (l1 ++ l2).
Proof. unfold warn. simpl. by rewrite app_assoc. Qed.

(** The unpacking test of the loop, on [split(US, 4)], decides whether the
    entry has exactly four fields. *)
Lemma commit_record_split_max entry :
  commit_record entry =
  match split_max US entry 4 with
  | [sha; author; date; message] =>
      Some (mkDocument message
              [(py "sha", sha); (py "author", author); (py "date", date)])
  | _ => None
  end.
Proof.
  unfold commit_record.
  destruct (decide (length (split_max US entry 4) = 4%nat)) as [H4|H4].
  - by rewrite (split_max_four _ _ H4).
  - assert (length (split US entry) <> 4%nat) as H4'.
    { intros Hlen. by rewrite (split_four_max _ _ Hlen) in H4. }
    destruct (split US entry) as [|? [|? [|? [|? [|? ?]]]]];
      destruct (split_max US entry 4) as [|? [|? [|? [|? [|? ?]]]]];
      simpl in *; done.
Qed.

Lemma extract_loop_spec entries docs w :
  extract_loop entries docs w =
  (Done (docs ++ omap commit_record (filter (fun e => blank e = false) entries)),
   warn w ((fun e => SkippingMalformed (split_max US e 4))
           <$> filter (fun e => malformed e = true) entries)).
Proof.
  revert docs w. induction entries as [|e entries IH]; intros docs w.
  - simpl. by rewrite app_nil_r, warn_nil.
  - cbn [extract_loop]. fold (blank e).
    destruct (blank e) eqn:Hb.
    + rewrite IH.
      rewrite (filter_cons_False (fun e => blank e = false)) by congruence.
      rewrite (filter_cons_False (fun e => malformed e = true)); [done|].
      unfold malformed. rewrite Hb. done.
    + rewrite (filter_cons_True (fun e => blank e = false)) by done.
      cbn [omap list_omap].
      pose proof (commit_record_split_max e) as Hrec.
      assert (malformed e = bool_decide (commit_record e = None)) as Hmal.
      { unfold malformed. by rewrite Hb. }
      destruct (split_max US e 4) as [|a [|b [|c [|d [|x l]]]]] eqn:Hparts;
        rewrite Hrec;
        try (rewrite (filter_cons_True (fun e => malformed e = true))
               by (rewrite Hmal, Hrec; by apply bool_decide_eq_true_2);
             unfold mbind, M_bind, put_out; simpl; rewrite IH;
             unfold warn; simpl; rewrite Hparts;
             by rewrite <- app_assoc).
      rewrite (filter_cons_False (fun e => malformed e = true))
        by (rewrite Hmal, Hrec; by rewrite bool_decide_eq_false_2).
      rewrite IH. by rewrite <- app_assoc.
Qed.

(** What [_extract_commits_with_message] computes, for every output of
    [git log]: it does not fail, it returns the commit records of the
    non-blank loop entries that have four fields, in their order, and it
    prints one warning for each other non-blank loop entry. *)
Lemma extract_commits_spec h target_dir raw w :
  git_log h target_dir = Some raw ->
  _extract_commits_with_message h target_dir w =
  (Done (omap commit_record (filter (fun e => blank e = false) (loop_entries raw))),
   warn w ((fun e => SkippingMalformed (split_max US e 4))
           <$> filter (fun e => malformed e = true) (loop_entries raw))).
Proof.
  intros Hlog. unfold _extract_commits_with_message. rewrite Hlog.
  unfold mbind, M_bind, from_option, mret, M_ret.
  by rewrite extract_loop_spec.
Qed.

(** ** The first line of a stored message *)

Lemma splitlines_from_nonempty cur s :
  cur <> [] \/ s <> [] -> splitlines_from cur s <> [].
Proof.
  revert cur. induction s as [|c s IH]; intros cur Hne; simpl.
  - destruct cur; [by destruct Hne as [[]|[]] | done].
  - destruct (is_linebreak c).
    + destruct s as [|d s']; [done|].
      by destruct ((c =? 13)%N && (d =? 10)%N).
    + apply IH. by left.
Qed.

Lemma first_line_some msg :
  msg <> [] -> exists line, head (splitlines (take 100 msg)) = Some line.
Proof.
  intros Hne.
  assert (splitlines (take 100 msg) <> []) as Hlines.
  { apply splitlines_from_nonempty. right. by destruct msg. }
  destruct (splitlines (take 100 msg)) as [|line ?]; [done|].
  by exists line.
Qed.

(** The loop of [search] touches only standard output. *)
Lemma format_results_frame docs commits w :
  files (format_results docs commits w).2 = files w
  /\ stderr (format_results docs commits w).2 = stderr w
  /\ calls (format_results docs commits w).2 = calls w.
Proof.
  revert commits w. induction docs as [|doc docs IH]; intros commits w; [done|].
  cbn [format_results]. unfold mbind, M_bind, index0, from_option.
  destruct (head (splitlines (take 100 (page_content doc)))) as [line|];
    [|done].
  unfold mret, M_ret, echo, put_out.
  match goal with |- context [format_results docs ?c ?w'] =>
    destruct (IH c w') as (Hf & He & Hc) end.
  by rewrite Hf, He, Hc.
Qed.

Lemma format_results_done docs commits w :
  Forall (fun d => page_content d <> []) docs ->
  exists out w', format_results docs commits w = (Done out, w').
Proof.
  intros Hall. revert commits w.
  induction Hall as [|doc docs Hdoc _ IH]; intros commits w.
  - by exists commits, w.
  - cbn [format_results]. unfold mbind, M_bind, index0, from_option.
    destruct (first_line_some _ Hdoc) as [line ->].
    unfold mret, M_ret, echo, put_out. apply IH.
Qed.

Lemma format_results_raises docs commits w :
  Exists (fun d => page_content d = []) docs ->
  (format_results docs commits w).1 = Raised IndexError.
Proof.
  intros Hex. revert commits w.
  induction Hex as [doc docs Hdoc|doc docs _ IH]; intros commits w;
    cbn [format_results]; unfold mbind, M_bind, index0, from_option.
  - by rewrite Hdoc.
  - destruct (head (splitlines (take 100 (page_content doc)))); [|done].
    unfold mret, M_ret, echo, put_out. apply IH.
Qed.

Lemma format_results_block docs commits w :
  Forall (fun d => page_content d <> []) docs ->
  format_results docs commits w =
  (Done (commits ++ concat (commit_line <$> docs)),
   warn w (result_line <$> docs)).
Proof.
  intros Hall. revert commits w.
  induction Hall as [|doc docs Hdoc _ IH]; intros commits w.
  - simpl. by rewrite app_nil_r, warn_nil.
  - cbn [format_results]. unfold mbind, M_bind, index0, from_option.
    unfold first_line in IH |- *.
    destruct (first_line_some _ Hdoc) as [line Hline]. rewrite Hline.
    unfold mret, M_ret, echo, put_out. rewrite IH.
    rewrite !fmap_cons. cbn [concat].
    unfold commit_line at 2, result_line at 2, first_line.
    rewrite Hline. unfold warn. cbn [files stdout stderr calls default from_option id].
    f_equal; [f_equal|f_equal]; by rewrite <- !app_assoc.
Qed.

Lemma empty_or_not (docs : list Document) :
  Forall (fun d => page_content d <> []) docs
  \/ Exists (fun d => page_content d = []) docs.
Proof.
  induction docs as [|doc docs [IH|IH]].
  - left. constructor.
  - destruct (decide (page_content doc = [])) as [He|Hne].
    + right. by constructor.
    + left. by constructor.
  - right. by constructor 2.
Qed.

(** ** Provider dispatch and the API key *)

Lemma get_api_key_openai_unset h w :
  not_key (getenv h (py "OPENAI_API_KEY")) = true ->
  _get_api_key h (py "openai") w =
  (Exit 1,
   complain w (py "Error: OPENAI_API_KEY is not set. Run export OPENAI_API_KEY='<key>'")).
Proof.
  intros Hkey. unfold _get_api_key, _get_api_key_openai.
  rewrite bool_decide_eq_true_2 by done. by rewrite Hkey.
Qed.

Lemma get_api_key_openai_set h w :
  not_key (getenv h (py "OPENAI_API_KEY")) = false ->
  _get_api_key h (py "openai") w = (Done (getenv h (py "OPENAI_API_KEY")), w).
Proof.
  intros Hkey. unfold _get_api_key, _get_api_key_openai.
  rewrite bool_decide_eq_true_2 by done. by rewrite Hkey.
Qed.

Lemma not_key_true key : not_key key = true <-> key = None \/ key = Some [].
Proof.
  destruct key as [[|c s]|]; simpl; split;
    first [by auto | discriminate | intros [H|H]; congruence].
Qed.

(** Building a provider prints at most an error and never touches the
    files or the trace of calls; when it succeeds it prints nothing. *)
Lemma get_embeddings_outcome h provider model w :
  (exists e, _get_embeddings h provider model w = (Done e, w))
  \/ (exists text, _get_embeddings h provider model w = (Exit 1, complain w text)).
Proof.
  unfold _get_embeddings. repeat case_bool_decide.
  - left. by eexists.
  - destruct (not_key (getenv h (py "OPENAI_API_KEY"))) eqn:Hkey.
    + right. eexists. unfold mbind, M_bind.
      by rewrite get_api_key_openai_unset.
    + left. eexists. unfold mbind, M_bind.
      by rewrite get_api_key_openai_set.
  - right. by eexists.
Qed.

Lemma get_llm_provider_outcome h provider model w :
  (exists l, _get_llm_provider h provider model w = (Done l, w))
  \/ (exists text, _get_llm_provider h provider model w = (Exit 1, complain w text)).
Proof.
  unfold _get_llm_provider, _get_llm_provider_openai. case_bool_decide.
  - destruct (not_key (getenv h (py "OPENAI_API_KEY"))) eqn:Hkey.
    + right. eexists. unfold mbind, M_bind.
      by rewrite get_api_key_openai_unset.
    + left. eexists. unfold mbind, M_bind.
      by rewrite get_api_key_openai_set.
  - right. by eexists.
Qed.

(** C7. Provider dispatch is an enumerated choice: an embedding provider
    other than "hf" and "openai" makes [_get_embeddings] report
    "Unknown embedding provider" on standard error and exit with code 1,
    and an LLM provider other than "openai" makes [_get_llm_provider]
    report "Unknown LLM provider" and exit with code 1. *)
Theorem unknown_provider_exits h provider model w :
  (provider <> py "hf" -> provider <> py "openai" ->
   _get_embeddings h provider model w =
   (Exit 1, complain w (py "Unknown embedding provider: " ++ provider)))
  /\ (provider <> py "openai" ->
      _get_llm_provider h provider model w =
      (Exit 1, complain w (py "Unknown LLM provider: " ++ provider))).
Proof.
  split.
  - intros Hhf Hopenai. unfold _get_embeddings.
    by rewrite !bool_decide_eq_false_2 by done.
  - intros Hopenai. unfold _get_llm_provider.
    by rewrite bool_decide_eq_false_2 by done.
Qed.

Lemma unknown_provider_exits_witness :
  _get_embeddings host1 (py "cohere") (py "embed-v3") empty_world =
  (Exit 1, complain empty_world (py "Unknown embedding provider: cohere"))
  /\ _get_llm_provider host1 (py "hf") (py "llama") empty_world =
     (Exit 1, complain empty_world (py "Unknown LLM provider: hf")).
Proof.
  split.
  - apply (unknown_provider_exits host1 (py "cohere")); by vm_compute.
  - apply (unknown_provider_exits host1 (py "hf")); by vm_compute.
Defined.

(** ** Ordering of names and paths *)

Lemma str_leb_refl a : str_leb a a = true.
Proof.
  induction a as [|x a IH]; simpl; [done|].
  rewrite N.eqb_refl, IH. by rewrite orb_true_r.
Qed.

Lemma str_leb_total a b : str_leb a b = true \/ str_leb b a = true.
Proof.
  revert b. induction a as [|x a IH]; intros [|y b]; simpl; auto.
  destruct (N.ltb_spec x y), (N.ltb_spec y x), (N.eqb_spec x y),
    (N.eqb_spec y x); simpl; auto; lia.
Qed.

Lemma str_leb_trans a b c :
  str_leb a b = true -> str_leb b c = true -> str_leb a c = true.
Proof.
  revert b c. induction a as [|x a IH]; intros [|y b] [|z c]; simpl; auto;
    try done.
  destruct (N.ltb_spec x y), (N.ltb_spec y z), (N.ltb_spec x z),
    (N.eqb_spec x y), (N.eqb_spec y z), (N.eqb_spec x z);
    simpl; auto; try lia; try done.
  apply IH.
Qed.

Lemma str_leb_antisym a b :
  str_leb a b = true -> str_leb b a = true -> a = b.
Proof.
  revert b. induction a as [|x a IH]; intros [|y b]; simpl; auto; try done.
  destruct (N.ltb_spec x y), (N.ltb_spec y x), (N.eqb_spec x y),
    (N.eqb_spec y x); simpl; try lia; try done.
  intros Hab Hba. subst. f_equal. by apply IH.
Qed.

Lemma path_leb_refl p : path_leb p p = true.
Proof.
  induction p as [|x p IH]; simpl; [done|].
  by rewrite bool_decide_eq_true_2.
Qed.

#[global] Instance path_le_total : Total path_le.
Proof.
  intros p. unfold path_le. induction p as [|x p IH]; intros [|y q]; simpl; auto.
  destruct (decide (x = y)) as [->|Hne].
  - rewrite !bool_decide_eq_true_2 by done. apply IH.
  - rewrite !bool_decide_eq_false_2 by done. apply str_leb_total.
Qed.

#[global] Instance path_le_trans : Transitive path_le.
Proof.
  intros p. unfold path_le.
  induction p as [|x p IH]; intros [|y q] [|z r]; simpl; auto; try done.
  destruct (decide (x = y)) as [->|Hxy], (decide (y = z)) as [->|Hyz];
    rewrite ?bool_decide_eq_true_2 by done;
    rewrite ?(bool_decide_eq_false_2 (_ = _)) by done; auto.
  - apply IH.
  - intros Hle1 Hle2.
    destruct (decide (x = z)) as [->|Hxz].
    + destruct Hxy. by apply str_leb_antisym.
    + rewrite bool_decide_eq_false_2 by done. by eapply str_leb_trans.
Qed.

#[global] Instance path_le_antisym : AntiSymm (=) path_le.
Proof.
  intros p. unfold path_le.
  induction p as [|x p IH]; intros [|y q]; simpl; auto; try done.
  destruct (decide (x = y)) as [->|Hxy].
  - rewrite !bool_decide_eq_true_2 by done.
    intros Hpq Hqp. f_equal. by apply IH.
  - rewrite !bool_decide_eq_false_2 by done.
    intros Hle1 Hle2. destruct Hxy. by apply str_leb_antisym.
Qed.

(** [sorted(found)[-1]] is an element of [found] above all the others,
    and the only one. *)
Lemma sorted_last_upper found latest :
  last (sorted found) = Some latest ->
  latest ∈ found /\ forall p, p ∈ found -> path_le p latest.
Proof.
  intros Hlast. apply last_Some in Hlast as [l' Hsorted].
  pose proof (merge_sort_Permutation path_le found) as Hperm.
  pose proof (StronglySorted_merge_sort path_le found) as Hss.
  fold (sorted found) in Hperm, Hss. rewrite Hsorted in Hperm, Hss.
  split.
  - rewrite <- Hperm. set_solver.
  - intros p Hp. rewrite <- Hperm in Hp.
    apply elem_of_app in Hp as [Hp|Hp].
    + apply (StronglySorted_app_1_elem_of path_le l' [latest]); [done..|set_solver].
    + apply list_elem_of_singleton in Hp as ->. apply path_leb_refl.
Qed.

Lemma sorted_last_greatest found latest :
  latest ∈ found -> (forall p, p ∈ found -> path_le p latest) ->
  last (sorted found) = Some latest.
Proof.
  intros Hin Hmax.
  destruct (last (sorted found)) as [top|] eqn:Hlast.
  - apply sorted_last_upper in Hlast as [Htop Hupper].
    f_equal. apply (anti_symm path_le); auto.
  - apply last_None in Hlast.
    pose proof (merge_sort_Permutation path_le found) as Hperm.
    fold (sorted found) in Hperm. rewrite Hlast in Hperm.
    apply Permutation_nil_l in Hperm. subst. set_solver.
Qed.

Lemma sorted_Permutation l1 l2 : l1 ≡ₚ l2 -> sorted l1 = sorted l2.
Proof.
  intros Hperm. apply (Sorted_unique path_le).
  - apply Sorted_merge_sort, _.
  - apply Sorted_merge_sort, _.
  - unfold sorted. by rewrite !merge_sort_Permutation.
Qed.

(** ** The metadata files under [root_dir] *)

Lemma filter_all {A : Type} (P : A -> Prop) `{!forall x, Decision (P x)}
    (l : list A) :
  Forall P l -> filter P l = l.
Proof.
  induction 1 as [|x l Hx _ IH]; [done|].
  by rewrite filter_cons_True, IH.
Qed.

Lemma filter_none {A : Type} (P : A -> Prop) `{!forall x, Decision (P x)}
    (l : list A) :
  Forall (fun x => ~ P x) l -> filter P l = [].
Proof.
  induction 1 as [|x l Hx _ IH]; [done|].
  by rewrite filter_cons_False.
Qed.

Lemma root_path : Path_of root_dir = [py ".tmp"].
Proof. by vm_compute. Qed.

Lemma in_glob_child dir pattern name :
  in_glob dir pattern (dir ++ [name]) = glob_match (glob_pattern pattern) name.
Proof.
  unfold in_glob. rewrite reverse_app. simpl.
  by rewrite reverse_involutive, bool_decide_eq_true_2.
Qed.

Lemma in_glob_inv dir pattern p :
  in_glob dir pattern p = true ->
  exists name, p = dir ++ [name] /\ glob_match (glob_pattern pattern) name = true.
Proof.
  unfold in_glob. destruct (reverse p) as [|name rev_parent] eqn:Hrev; [done|].
  intros [Hdir Hmatch]%andb_true_iff. apply bool_decide_eq_true in Hdir.
  exists name. split; [|done].
  rewrite <- Hdir, <- (reverse_involutive p), Hrev.
  by rewrite reverse_cons.
Qed.

Lemma elem_of_metadata_files w p :
  p ∈ metadata_files w <->
  exists name,
    p = Path_of root_dir ++ [name]
    /\ glob_match (glob_pattern (py "*-embeddings-*.json")) name = true
    /\ is_Some (files w !! p).
Proof.
  unfold metadata_files. rewrite list_elem_of_filter, list_elem_of_fmap. split.
  - intros [Hglob [[q t] [-> Hin]]]. apply elem_of_map_to_list in Hin.
    destruct (in_glob_inv _ _ _ Hglob) as (name & Hp & Hmatch).
    exists name. simpl in *. eauto.
  - intros (name & -> & Hmatch & [t Ht]). split.
    + by rewrite in_glob_child.
    + exists (Path_of root_dir ++ [name], t). split; [done|].
      by apply elem_of_map_to_list.
Qed.

Lemma glob_metadata_entries directories w :
  glob directories (Path_of root_dir) (py "*-embeddings-*.json") w
  = (Done (metadata_entries directories w), w).
Proof. reflexivity. Qed.

Lemma metadata_entries_app directories w :
  metadata_entries directories w
  = metadata_files w
    ++ filter (fun p => in_glob (Path_of root_dir) (py "*-embeddings-*.json") p = true)
         directories.
Proof. unfold metadata_entries, metadata_files. by rewrite filter_app. Qed.

Lemma elem_of_metadata_entries directories w p :
  p ∈ metadata_entries directories w <->
  exists name,
    p = Path_of root_dir ++ [name]
    /\ glob_match (glob_pattern (py "*-embeddings-*.json")) name = true
    /\ (is_Some (files w !! p) \/ p ∈ directories).
Proof.
  rewrite metadata_entries_app, elem_of_app, elem_of_metadata_files,
    list_elem_of_filter.
  split.
  - intros [(name & -> & Hmatch & Hsome)|[Hglob Hdir]].
    + exists name. split; [done|]. split; [done|by left].
    + destruct (in_glob_inv _ _ _ Hglob) as (name & -> & Hmatch).
      exists name. split; [done|]. split; [done|by right].
  - intros (name & -> & Hmatch & [Hsome|Hdir]).
    + left. by exists name.
    + right. split; [by rewrite in_glob_child|done].
Qed.

Lemma path_name_child dir name : path_name [dir; name] = name.
Proof. unfold path_name. by rewrite bool_decide_eq_false_2 by (by intros [|]). Qed.

Lemma metadata_entry_name directories w p :
  p ∈ metadata_entries directories w -> p = [py ".tmp"; path_name p].
Proof.
  intros (name & -> & _)%elem_of_metadata_entries. rewrite root_path.
  simpl. by rewrite path_name_child.
Qed.

Lemma metadata_entries_le directories w p q :
  p ∈ metadata_entries directories w -> q ∈ metadata_entries directories w ->
  str_le (path_name p) (path_name q) -> path_le p q.
Proof.
  intros (n1 & -> & _)%elem_of_metadata_entries
         (n2 & -> & _)%elem_of_metadata_entries.
  rewrite root_path. simpl. rewrite !path_name_child.
  unfold path_le, str_le. simpl. intros Hle.
  by case_bool_decide.
Qed.

Lemma no_metadata_directory_entries directories w :
  no_metadata_directory directories ->
  metadata_entries directories w = metadata_files w.
Proof.
  intros Hno. rewrite metadata_entries_app.
  rewrite (filter_none _ directories), app_nil_r; [done|].
  eapply Forall_impl; [exact Hno|]. intros d Hd. cbn beta. by rewrite Hd.
Qed.

Lemma metadata_entries_nil directories w :
  metadata_entries directories w = [] ->
  metadata_files w = []
  /\ Forall (fun d => in_glob (Path_of root_dir) (py "*-embeddings-*.json") d = false)
       directories.
Proof.
  rewrite metadata_entries_app. intros [Hfiles Hdirs]%app_eq_nil.
  split; [done|]. apply Forall_forall. intros d Hd.
  destruct (in_glob _ _ d) eqn:Hglob; [|done].
  assert (d ∈ filter
            (fun p => in_glob (Path_of root_dir) (py "*-embeddings-*.json") p = true)
            directories) as Hin by (by apply list_elem_of_filter).
  rewrite Hdirs in Hin. by apply elem_of_nil in Hin.
Qed.

(** ** Precondition failures *)

(** C2, as stated, fails: a folder whose [.git] is a file -- a linked
    worktree, a submodule -- has no [.git] subdirectory, yet [exists()] is
    true of the file and [prepare] goes on; here it ends normally, with
    exit status 0. *)
Lemma prepare_accepts_git_file :
  files worktree_world !! path_div [py "repo"] (py ".git")
  = Some (OtherText (py "gitdir: /home/ann/main/.git/worktrees/repo"))
  /\ path_exists host1 (path_div [py "repo"] (py ".git")) = true
  /\ (prepare host1 [py "repo"] (py "hf") (py "bge") worktree_world).1 = Done ()
  /\ exit_code (prepare host1 [py "repo"] (py "hf") (py "bge") worktree_world).1
     <> 1.
Proof. repeat split; vm_compute; congruence. Qed.

(** C2, amended.  Each documented precondition failure exits with code 1:
    [prepare] when the folder has no [.git] entry at all, neither a
    directory nor a file; [search] when the query has more than 200
    characters; and [search] when no metadata file matches
    [*-embeddings-*.json] -- through [typer.Exit] with "No embeddings
    found" when no directory has such a name either, and otherwise through
    the [IsADirectoryError] of reading a directory. *)
Theorem precondition_failures_exit_1 directories h folder query provider model
    summarize llm_provider llm_model k w :
  (path_exists h (path_div folder (py ".git")) = false ->
   prepare h folder provider model w =
   (Exit 1,
    complain w (py "Error: provided folder is missing or is not a Git repository")))
  /\ ((200 < length query)%nat ->
      search directories h query provider model summarize llm_provider llm_model k w =
      (Exit 1, complain w (py "Error: Query exceeds 200 characters.")))
  /\ ((forall name,
         glob_match (glob_pattern (py "*-embeddings-*.json")) name = true ->
         files w !! (Path_of root_dir ++ [name]) = None) ->
      exit_code
        (search directories h query provider model summarize llm_provider
           llm_model k w).1 = 1
      /\ ((length query <= 200)%nat ->
          search directories h query provider model summarize llm_provider
            llm_model k w
          = if bool_decide (metadata_entries directories w = [])
            then (Exit 1,
                  complain w (py "No embeddings found. Run 'prepare' first."))
            else (Raised IsADirectoryError, w))).
Proof.
  split; [|split].
  - intros Hgit. unfold prepare. by rewrite Hgit.
  - intros Hlong. unfold search.
    by rewrite (proj2 (Nat.ltb_lt _ _) Hlong).
  - intros Hnone.
    assert (forall p, p ∈ metadata_entries directories w ->
              files w !! p = None /\ p ∈ directories) as Hdirs.
    { intros p (name & -> & Hmatch & Hkind)%elem_of_metadata_entries.
      pose proof (Hnone name Hmatch) as Hp. split; [done|].
      destruct Hkind as [[t Ht]|Hdir]; [congruence|done]. }
    assert (search directories h query provider model summarize llm_provider
              llm_model k w
            = if (200 <? length query)%nat
              then (Exit 1, complain w (py "Error: Query exceeds 200 characters."))
              else if bool_decide (metadata_entries directories w = [])
              then (Exit 1,
                    complain w (py "No embeddings found. Run 'prepare' first."))
              else (Raised IsADirectoryError, w)) as ->.
    { unfold search. destruct (200 <? length query)%nat; [done|].
      unfold mbind at 1, M_bind at 1. rewrite glob_metadata_entries.
      case_bool_decide as Hnil; [done|].
      unfold mbind at 1, M_bind at 1.
      destruct (last (sorted (metadata_entries directories w))) as [latest|]
        eqn:Hlast.
      2:{ apply last_None in Hlast.
          pose proof (merge_sort_Permutation path_le
                        (metadata_entries directories w)) as Hperm.
          fold (sorted (metadata_entries directories w)) in Hperm.
          rewrite Hlast in Hperm. by apply Permutation_nil_l in Hperm. }
      assert (latest ∈ metadata_entries directories w) as Hin.
      { apply last_Some_elem_of in Hlast. unfold sorted in Hlast.
        by rewrite merge_sort_Permutation in Hlast. }
      destruct (Hdirs latest Hin) as [Hfile Hdir].
      cbn [from_option mret M_ret].
      unfold mbind at 1, M_bind at 1, read_json. rewrite Hfile.
      by rewrite bool_decide_eq_true_2. }
    split.
    + destruct (200 <? length query)%nat; [done|]. by case_bool_decide.
    + intros Hlen. by rewrite (proj2 (Nat.ltb_ge _ _) Hlen).
Qed.

Lemma precondition_failures_exit_1_witness :
  prepare host1 [py "elsewhere"] (py "hf") (py "bge") empty_world =
  (Exit 1,
   complain empty_world
     (py "Error: provided folder is missing or is not a Git repository"))
  /\ search [] host1 (replicate 201 97%N) (py "hf") (py "bge") false (py "openai")
       (py "gpt") 5 empty_world =
     (Exit 1, complain empty_world (py "Error: Query exceeds 200 characters."))
  /\ exit_code
       (search [[py ".tmp"; py "old-embeddings-1.json"]] host1 (py "parser")
          (py "hf") (py "bge") false (py "openai") (py "gpt") 5 empty_world).1
     = 1.
Proof.
  split; [|split].
  - apply (precondition_failures_exit_1 [] host1 [py "elsewhere"] [] (py "hf")
             (py "bge") false [] [] 0 empty_world).
    by vm_compute.
  - apply (precondition_failures_exit_1 [] host1 [] (replicate 201 97%N) (py "hf")
             (py "bge") false (py "openai") (py "gpt") 5 empty_world).
    rewrite length_replicate. lia.
  - apply (precondition_failures_exit_1 [[py ".tmp"; py "old-embeddings-1.json"]]
             host1 [] (py "parser") (py "hf")
             (py "bge") false (py "openai") (py "gpt") 5 empty_world).
    intros name _. apply lookup_empty.
Defined.

(** ** The summarizer *)

Lemma format_segments_two text1 text2 commits query w :
  format_segments
    [Literal text1; Field (py "commits"); Literal text2; Field (py "question");
     Literal []]
    [(py "commits", commits); (py "question", query)] w =
  (Done (text1 ++ commits ++ text2 ++ query), w).
Proof.
  cbn [format_segments]. unfold mbind, M_bind, from_option, mret, M_ret.
  cbn [dict_get].
  rewrite (bool_decide_eq_true_2 (py "commits" = py "commits")) by done.
  rewrite (bool_decide_eq_false_2 (py "commits" = py "question"))
    by (by vm_compute).
  rewrite (bool_decide_eq_true_2 (py "question" = py "question")) by done.
  by rewrite app_nil_r.
Qed.

(** The template has exactly the fields [commits] and [question], whatever
    input variables were declared, and formatting it with both succeeds. *)
Lemma prompt_invoke_spec declared commits query w :
  prompt_invoke
    (PromptTemplate_init declared
       (system_prompt ++ nl ++ nl ++ py "Commit Messages:" ++ nl
        ++ py "{commits}" ++ nl ++ nl ++ py "Question:" ++ nl
        ++ py "{question}"))
    [(py "commits", commits); (py "question", query)] w =
  (Done (summary_prompt commits query), w).
Proof.
  unfold prompt_invoke, PromptTemplate_init. cbn [template].
  assert (parse_template
            (system_prompt ++ nl ++ nl ++ py "Commit Messages:" ++ nl
             ++ py "{commits}" ++ nl ++ nl ++ py "Question:" ++ nl
             ++ py "{question}") [] =
          [Literal (system_prompt ++ nl ++ nl ++ py "Commit Messages:" ++ nl);
           Field (py "commits");
           Literal (nl ++ nl ++ py "Question:" ++ nl);
           Field (py "question"); Literal []]) as -> by (by vm_compute).
  rewrite format_segments_two. unfold summary_prompt.
  by rewrite <- !app_assoc.
Qed.

Lemma summarize_commits_spec h llm_provider llm_model commits query w :
  summarize_commits h llm_provider llm_model commits query w =
  match _get_llm_provider h llm_provider llm_model w with
  | (Done llm, _) =>
      let w1 := called w (Invoke llm (summary_prompt commits query)) in
      match llm_invoke h llm (summary_prompt commits query) with
      | Some response =>
          (Done (),
           warn w1 [Line (nl ++ robot ++ py " LLM Answer:");
                    Line (strip (answer_of response))])
      | None => (Raised LibraryError, w1)
      end
  | (Exit code, w') => (Exit code, w')
  | (Raised e, w') => (Raised e, w')
  end.
Proof.
  unfold summarize_commits. unfold mbind at 1, M_bind at 1.
  destruct (get_llm_provider_outcome h llm_provider llm_model w)
    as [[llm ->]|[text ->]]; [|done].
  unfold mbind at 1, M_bind at 1. rewrite prompt_invoke_spec.
  unfold mbind, M_bind, record_call, from_option.
  fold (called w (Invoke llm (summary_prompt commits query))).
  destruct (llm_invoke h llm (summary_prompt commits query)) as [response|];
    [|done].
  unfold mret, M_ret, echo, put_out, warn. simpl.
  by rewrite <- app_assoc.
Qed.

Lemma summarize_commits_calls h llm_provider llm_model commits query w :
  exists rest,
    calls (summarize_commits h llm_provider llm_model commits query w).2
    = calls w ++ rest.
Proof.
  rewrite summarize_commits_spec.
  destruct (get_llm_provider_outcome h llm_provider llm_model w)
    as [[llm ->]|[text ->]].
  - destruct (llm_invoke h llm (summary_prompt commits query));
      by eexists [_].
  - exists []. simpl. by rewrite app_nil_r.
Qed.

(** ** [search], step by step *)

Lemma search_unfold directories h query provider model summarize llm_provider
    llm_model k w :
  search directories h query provider model summarize llm_provider llm_model k w =
  if (200 <? length query)%nat then
    (Exit 1, complain w (py "Error: Query exceeds 200 characters."))
  else if bool_decide (metadata_entries directories w = []) then
    (Exit 1, complain w (py "No embeddings found. Run 'prepare' first."))
  else
    match last (sorted (metadata_entries directories w)) with
    | None => (Raised IndexError, w)
    | Some latest =>
        match files w !! latest with
        | Some (JsonText (JDict items)) =>
            match dict_get items (py "chroma_dir") with
            | Some chroma_dir =>
                search_in h query provider model summarize llm_provider
                  llm_model k chroma_dir w
            | None => (Raised (KeyError (py "chroma_dir")), w)
            end
        | Some (JsonText _) => (Raised TypeError, w)
        | Some (OtherText _) => (Raised JSONDecodeError, w)
        | None =>
            (Raised (if bool_decide (latest ∈ directories) then IsADirectoryError
                     else FileNotFoundError), w)
        end
    end.
Proof.
  unfold search. destruct (200 <? length query)%nat; [done|].
  unfold mbind at 1, M_bind at 1. rewrite glob_metadata_entries.
  case_bool_decide; [done|].
  unfold mbind at 1, M_bind at 1.
  destruct (last (sorted (metadata_entries directories w))) as [latest|]; [|done].
  cbn [from_option mret M_ret].
  unfold mbind at 1, M_bind at 1, read_json.
  destruct (files w !! latest) as [[data|text]|]; [|done..].
  unfold mbind at 1, M_bind at 1.
  destruct data as [| | | | |items]; try done.
  cbn [json_getitem]. by destruct (dict_get items (py "chroma_dir")).
Qed.

Lemma search_in_spec h query provider model summarize llm_provider llm_model k
    chroma_dir w :
  search_in h query provider model summarize llm_provider llm_model k chroma_dir w =
  match _get_embeddings h provider model w with
  | (Done e, _) =>
      let w1 := called w (SimilaritySearch chroma_dir e query k) in
      match chroma_similarity_search h chroma_dir e query k with
      | None => (Raised LibraryError, w1)
      | Some docs =>
          match format_results docs []
                  (warn w1 [Line (magnifier ++ py " Top "
                                  ++ str_of_nat (length docs)
                                  ++ py " matching commits:")]) with
          | (Done commits, w2) =>
              if summarize
              then summarize_commits h llm_provider llm_model commits query w2
              else (Done (), w2)
          | (Exit code, w2) => (Exit code, w2)
          | (Raised e, w2) => (Raised e, w2)
          end
      end
  | (Exit code, w') => (Exit code, w')
  | (Raised e, w') => (Raised e, w')
  end.
Proof.
  unfold search_in. unfold mbind at 1, M_bind at 1.
  destruct (get_embeddings_outcome h provider model w) as [[e ->]|[text ->]];
    [|done].
  unfold mbind at 1, M_bind at 1. cbn [record_call].
  fold (called w (SimilaritySearch chroma_dir e query k)).
  unfold mbind at 1, M_bind at 1.
  destruct (chroma_similarity_search h chroma_dir e query k) as [docs|]; [|done].
  cbn [from_option mret M_ret].
  unfold mbind at 1, M_bind at 1. cbn [echo put_out].
  unfold mbind at 1, M_bind at 1. unfold warn. simpl.
  destruct (format_results docs [] _) as [[commits|code|e'] w2]; try done.
  by destruct summarize.
Qed.

Lemma search_in_calls h query provider model summarize llm_provider llm_model k
    chroma_dir w :
  (exists text,
     search_in h query provider model summarize llm_provider llm_model k
       chroma_dir w = (Exit 1, complain w text)
     /\ (_get_embeddings h provider model w).1 = Exit 1)
  \/ exists e rest,
       (_get_embeddings h provider model w).1 = Done e
       /\ calls (search_in h query provider model summarize llm_provider
                   llm_model k chroma_dir w).2
          = calls w ++ SimilaritySearch chroma_dir e query k :: rest.
Proof.
  rewrite search_in_spec.
  destruct (get_embeddings_outcome h provider model w) as [[e He]|[text He]];
    rewrite He; [|left; by exists text].
  right. exists e. cbn zeta.
  destruct (chroma_similarity_search h chroma_dir e query k) as [docs|];
    [|by exists []].
  match goal with |- context [format_results docs [] ?w1] =>
    destruct (format_results_frame docs [] w1) as (_ & _ & Hcalls);
    destruct (format_results docs [] w1) as [[commits|code|e'] w2] eqn:Hfmt
  end; simpl in Hcalls; simpl; try (exists []; by rewrite Hcalls).
  destruct summarize; simpl; [|exists []; by rewrite Hcalls].
  destruct (summarize_commits_calls h llm_provider llm_model commits query w2)
    as [rest ->].
  exists rest. split; [done|]. rewrite Hcalls. by rewrite <- app_assoc.
Qed.

(** With [--summarize], when every retrieved message is non-empty and the
    chat model answers: the block has one line per commit, the prompt is
    the template filled with the block and the query, it is sent to the
    model, and the stripped answer is printed. *)
Lemma search_in_summarize h query provider model llm_provider llm_model k
    chroma_dir w e docs llm response :
  _get_embeddings h provider model w = (Done e, w) ->
  chroma_similarity_search h chroma_dir e query k = Some docs ->
  Forall (fun d => page_content d <> []) docs ->
  (forall w', _get_llm_provider h llm_provider llm_model w' = (Done llm, w')) ->
  llm_invoke h llm (summary_prompt (concat (commit_line <$> docs)) query)
  = Some response ->
  search_in h query provider model true llm_provider llm_model k chroma_dir w =
  (Done (),
   mkWorld (files w)
     (stdout w
      ++ [Line (magnifier ++ py " Top " ++ str_of_nat (length docs)
                ++ py " matching commits:")]
      ++ (result_line <$> docs)
      ++ [Line (nl ++ robot ++ py " LLM Answer:");
          Line (strip (answer_of response))])
     (stderr w)
     (calls w
      ++ [SimilaritySearch chroma_dir e query k;
          Invoke llm (summary_prompt (concat (commit_line <$> docs)) query)])).
Proof.
  intros Hemb Hdocs Hall Hllm Hanswer.
  rewrite search_in_spec, Hemb. cbn zeta. rewrite Hdocs.
  rewrite (format_results_block _ _ _ Hall).
  rewrite summarize_commits_spec, Hllm. cbn zeta. cbn [app].
  rewrite Hanswer. unfold warn, called. cbn [files stdout stderr calls].
  by rewrite <- !app_assoc.
Qed.

Lemma search_latest directories h query provider model summarize llm_provider
    llm_model k w latest :
  (length query <= 200)%nat ->
  latest ∈ metadata_entries directories w ->
  (forall p, p ∈ metadata_entries directories w ->
     str_le (path_name p) (path_name latest)) ->
  search directories h query provider model summarize llm_provider llm_model k w
  = match files w !! latest with
    | Some (JsonText (JDict items)) =>
        match dict_get items (py "chroma_dir") with
        | Some chroma_dir =>
            search_in h query provider model summarize llm_provider
              llm_model k chroma_dir w
        | None => (Raised (KeyError (py "chroma_dir")), w)
        end
    | Some (JsonText _) => (Raised TypeError, w)
    | Some (OtherText _) => (Raised JSONDecodeError, w)
    | None => (Raised IsADirectoryError, w)
    end.
Proof.
  intros Hlen Hin Hmax.
  rewrite search_unfold, (proj2 (Nat.ltb_ge _ _) Hlen).
  rewrite bool_decide_eq_false_2
    by (intros Hnil; rewrite Hnil in Hin; by apply elem_of_nil in Hin).
  rewrite (sorted_last_greatest _ latest Hin)
    by (intros p Hp; eapply metadata_entries_le; eauto).
  destruct (files w !! latest) as [t|] eqn:Hfile; [done|].
  apply elem_of_metadata_entries in Hin as (name & _ & _ & [[t Ht]|Hdir]);
    [congruence|].
  by rewrite bool_decide_eq_true_2.
Qed.

(** C3, as stated, fails: [Path.glob] also returns directories.  With two
    metadata files and a directory of a greater name in [.tmp], the
    metadata file of the greatest name has all it takes, but [search] takes
    the directory for the latest file, [read_text] raises
    [IsADirectoryError], and no similarity search is made. *)
Lemma search_takes_directory_for_latest :
  zeta_file ∈ metadata_files two_files_world
  /\ (forall p, p ∈ metadata_files two_files_world ->
        str_le (path_name p) (path_name zeta_file))
  /\ files two_files_world !! zeta_file
     = Some (JsonText (JDict (sample_items (py "openai") (py "20240101000000"))))
  /\ (search [zz_directory] host1 (py "parser") (py "hf") (py "bge") false
        (py "openai") (py "gpt") 5 two_files_world).1
     = Raised IsADirectoryError
  /\ calls (search [zz_directory] host1 (py "parser") (py "hf") (py "bge") false
              (py "openai") (py "gpt") 5 two_files_world).2
     = [].
Proof.
  assert (metadata_files two_files_world = [zeta_file; alpha_file]) as Hfiles
    by (by vm_compute).
  split; [rewrite Hfiles; apply elem_of_cons; by left|].
  split.
  { intros p Hp. rewrite Hfiles in Hp.
    apply elem_of_cons in Hp as [->|Hp]; [by vm_compute|].
    apply list_elem_of_singleton in Hp as ->. by vm_compute. }
  repeat split; vm_compute; reflexivity.
Qed.

(** C3, amended.  Whenever [.tmp] has entries named [*-embeddings-*.json]
    -- metadata files, or directories of such a name -- [search] takes the
    entry whose name is lexicographically greatest.  When that entry is a
    metadata file, it reads [chroma_dir] from it and runs the similarity
    search against that directory; when it is a directory, the run ends
    with [IsADirectoryError]. *)
Theorem search_reads_lexicographically_latest directories h query provider model
    summarize llm_provider llm_model k w latest :
  (length query <= 200)%nat ->
  latest ∈ metadata_entries directories w ->
  (forall p, p ∈ metadata_entries directories w ->
     str_le (path_name p) (path_name latest)) ->
  (forall items chroma_dir e,
     files w !! latest = Some (JsonText (JDict items)) ->
     dict_get items (py "chroma_dir") = Some chroma_dir ->
     (_get_embeddings h provider model w).1 = Done e ->
     exists rest,
       calls (search directories h query provider model summarize llm_provider
                llm_model k w).2
       = calls w ++ SimilaritySearch chroma_dir e query k :: rest)
  /\ (files w !! latest = None ->
      search directories h query provider model summarize llm_provider llm_model
        k w
      = (Raised IsADirectoryError, w)).
Proof.
  intros Hlen Hin Hmax.
  rewrite (search_latest _ _ _ _ _ _ _ _ _ _ latest Hlen Hin Hmax).
  split.
  - intros items chroma_dir e Hfile Hdir Hemb. rewrite Hfile, Hdir.
    destruct (search_in_calls h query provider model summarize llm_provider
                llm_model k chroma_dir w)
      as [(text & _ & Hexit)|(e' & rest & He' & Hcalls)].
    + congruence.
    + exists rest. rewrite Hcalls. congruence.
  - by intros ->.
Qed.

Lemma search_reads_lexicographically_latest_witness :
  exists rest,
    calls (search [] host1 (py "parser") (py "hf") (py "bge") false (py "openai")
             (py "gpt") 5 two_files_world).2
    = calls two_files_world
      ++ SimilaritySearch (JStr (py ".tmp/.git_gpt_chroma_db_20240101000000"))
           (HuggingFaceEmbeddings (py "bge")) (py "parser") 5 :: rest.
Proof.
  assert (metadata_entries [] two_files_world = [zeta_file; alpha_file]) as Hfiles
    by (by vm_compute).
  destruct (search_reads_lexicographically_latest [] host1 (py "parser") (py "hf")
              (py "bge") false (py "openai") (py "gpt") 5 two_files_world
              zeta_file) as [Hfile _].
  - vm_compute. lia.
  - rewrite Hfiles. apply elem_of_cons. by left.
  - intros p Hp. rewrite Hfiles in Hp.
    apply elem_of_cons in Hp as [->|Hp]; [by vm_compute|].
    apply list_elem_of_singleton in Hp as ->. by vm_compute.
  - apply (Hfile (sample_items (py "openai") (py "20240101000000"))).
    + by vm_compute.
    + by vm_compute.
    + by vm_compute.
Defined.

(** C1. One commit record per log entry that splits into exactly four
    fields, the others being skipped with a warning: the extractor does
    this except for the last entry of the log.  A commit with an empty
    subject is printed as [sha US author US date US RS]; that entry has four
    fields, the last one empty.  When it is the last of the log, [strip]
    removes its final field separator along with the record separator
    (both are whitespace for [str.strip]), three parts remain, and the
    commit is reported as malformed and dropped.  The same entry anywhere
    else in the log yields its record. *)
Theorem extract_drops_last_entry_with_empty_subject :
  commit_record empty_subject_entry = Some empty_subject_doc
  /\ _extract_commits_with_message (host_of_log empty_subject_log) [py "repo"]
       empty_world =
     (Done [],
      warn empty_world [SkippingMalformed [bob_sha; py "Bob"; bob_date]])
  /\ _extract_commits_with_message (host_of_log empty_subject_first_log)
       [py "repo"] empty_world =
     (Done [empty_subject_doc;
            mkDocument (py "Initial commit")
              [(py "sha", nl ++ ann_sha); (py "author", py "Ann");
               (py "date", ann_date)]],
      empty_world).
Proof. repeat split; by vm_compute. Qed.

(** ** The block of commits and the first-line index *)

(** C9. In the result loop of [search], [splitlines()[0]] on the first 100
    characters of a stored message is in bounds for every non-empty
    message and out of bounds for the empty one; so the loop completes
    exactly when every retrieved message is non-empty, and raises
    IndexError exactly when one of them is empty. *)
Theorem first_line_index_in_bounds_iff_nonempty docs commits w :
  (forall msg : str,
     msg <> [] -> exists line, head (splitlines (take 100 msg)) = Some line)
  /\ index0 (splitlines (take 100 [])) w = (Raised IndexError, w)
  /\ (Forall (fun d => page_content d <> []) docs <->
      exists out w', format_results docs commits w = (Done out, w'))
  /\ (Exists (fun d => page_content d = []) docs <->
      (format_results docs commits w).1 = Raised IndexError).
Proof.
  split; [apply first_line_some|]. split; [done|].
  destruct (empty_or_not docs) as [Hall|Hex].
  - destruct (format_results_done docs commits w Hall) as (out & w' & Hrun).
    split; split; eauto.
    + intros Hex. apply Exists_exists in Hex as (d & Hd & He).
      rewrite Forall_forall in Hall. by destruct (Hall d Hd).
    + rewrite Hrun. done.
  - pose proof (format_results_raises docs commits w Hex) as Hraise.
    split; split; eauto.
    + intros Hall. apply Exists_exists in Hex as (d & Hd & He).
      rewrite Forall_forall in Hall. by destruct (Hall d Hd).
    + intros (out & w' & Hrun). by rewrite Hrun in Hraise.
Qed.

Lemma first_line_index_in_bounds_iff_nonempty_witness :
  (exists line, head (splitlines (take 100 (py "Fix parser"))) = Some line)
  /\ (exists out w', format_results sample_docs [] empty_world = (Done out, w'))
  /\ (format_results [empty_subject_doc] [] empty_world).1 = Raised IndexError.
Proof.
  split; [|split].
  - apply (first_line_index_in_bounds_iff_nonempty [] [] empty_world).
    by vm_compute.
  - apply (first_line_index_in_bounds_iff_nonempty sample_docs [] empty_world).
    repeat constructor; by vm_compute.
  - apply (first_line_index_in_bounds_iff_nonempty [empty_subject_doc] []
             empty_world).
    by constructor.
Defined.

(** C4. With [--summarize], [search] is meant to turn every retrieved
    result set into a block of commits and a prompt for the chat model.
    When a retrieved commit has an empty message, the run ends in the
    result loop with IndexError: no prompt is built and the chat model is
    never called. *)
Theorem search_summarize_raises_on_empty_message :
  let run :=
    search [] host_empty_hit (py "parser") (py "hf") (py "bge") true (py "openai")
      (py "gpt-4.1-nano") 5 two_files_world in
  run.1 = Raised IndexError
  /\ calls run.2 =
     [SimilaritySearch (JStr (py ".tmp/.git_gpt_chroma_db_20240101000000"))
        (HuggingFaceEmbeddings (py "bge")) (py "parser") 5]
  /\ stdout run.2 = [Line (magnifier ++ py " Top 1 matching commits:")]
  /\ stderr run.2 = [].
Proof. repeat split; vm_compute; reflexivity. Qed.

(** ** The hosted provider without its key *)

Lemma get_embeddings_openai_unset h model w :
  not_key (getenv h (py "OPENAI_API_KEY")) = true ->
  _get_embeddings h (py "openai") model w =
  (Exit 1,
   complain w (py "Error: OPENAI_API_KEY is not set. Run export OPENAI_API_KEY='<key>'")).
Proof.
  intros Hkey. unfold _get_embeddings.
  rewrite bool_decide_eq_false_2 by (by vm_compute).
  rewrite bool_decide_eq_true_2 by done.
  unfold mbind, M_bind. by rewrite get_api_key_openai_unset.
Qed.

Lemma get_llm_provider_openai_unset h model w :
  not_key (getenv h (py "OPENAI_API_KEY")) = true ->
  _get_llm_provider h (py "openai") model w =
  (Exit 1,
   complain w (py "Error: OPENAI_API_KEY is not set. Run export OPENAI_API_KEY='<key>'")).
Proof.
  intros Hkey. unfold _get_llm_provider, _get_llm_provider_openai.
  rewrite bool_decide_eq_true_2 by done.
  unfold mbind, M_bind. by rewrite get_api_key_openai_unset.
Qed.

Lemma format_results_outcome docs commits w :
  (exists out w', format_results docs commits w = (Done out, w'))
  \/ (format_results docs commits w).1 = Raised IndexError.
Proof.
  destruct (empty_or_not docs) as [Hall|Hex].
  - left. by apply format_results_done.
  - right. by apply format_results_raises.
Qed.

(** A [prepare] run asked for the hosted embedding provider cannot end
    with status 0 when the key is missing. *)
Lemma prepare_openai_unset h folder model w :
  not_key (getenv h (py "OPENAI_API_KEY")) = true ->
  exit_code (prepare h folder (py "openai") model w).1 = 1.
Proof.
  intros Hkey. unfold prepare.
  destruct (path_exists h (path_div folder (py ".git"))); [|done].
  cbn [negb]. destruct (_get_embeddings_store_paths h folder) as [embed_file dir].
  unfold mbind at 1, M_bind at 1.
  destruct (git_rev_parse h folder) as [out|]; [|done].
  cbn [from_option mret M_ret].
  unfold mbind at 1, M_bind at 1. cbn [echo put_out].
  unfold mbind at 1, M_bind at 1.
  destruct (git_log h folder) as [raw|] eqn:Hlog.
  - rewrite (extract_commits_spec _ _ _ _ Hlog).
    unfold mbind at 1, M_bind at 1.
    by rewrite get_embeddings_openai_unset.
  - unfold _extract_commits_with_message. rewrite Hlog. done.
Qed.

(** Nor can a [search] run that uses the hosted provider, for the query or
    for the summary. *)
Lemma search_openai_unset directories h query provider model summarize
    llm_provider llm_model k w :
  not_key (getenv h (py "OPENAI_API_KEY")) = true ->
  provider = py "openai"
  \/ (summarize = true /\ llm_provider = py "openai") ->
  exit_code (search directories h query provider model summarize llm_provider llm_model k w).1
  = 1.
Proof.
  intros Hkey Huse. rewrite search_unfold.
  destruct (200 <? length query)%nat; [done|].
  case_bool_decide; [done|].
  destruct (last (sorted (metadata_entries directories w))) as [latest|]; [|done].
  destruct (files w !! latest) as [[data|text]|]; [|done..].
  destruct data as [| | | | |items]; try done.
  destruct (dict_get items (py "chroma_dir")) as [dir|]; [|done].
  rewrite search_in_spec.
  destruct Huse as [->|[-> ->]].
  { by rewrite get_embeddings_openai_unset. }
  destruct (get_embeddings_outcome h provider model w) as [[e ->]|[text ->]];
    [|done].
  cbn zeta.
  destruct (chroma_similarity_search h dir e query k) as [docs|]; [|done].
  match goal with |- context [format_results docs [] ?w1] =>
    destruct (format_results_outcome docs [] w1) as [(out & w2 & ->)|Hraise];
    [|destruct (format_results docs [] w1) as [[?|?|?] ?];
      simpl in Hraise; by try discriminate]
  end.
  rewrite summarize_commits_spec.
  by rewrite get_llm_provider_openai_unset.
Qed.

(** C8. When the hosted ("openai") embedding or LLM provider is selected
    and OPENAI_API_KEY is unset or empty, an error is reported on standard
    error and the exit code is 1 -- for the provider functions, and hence
    for every [prepare] or [search] run that uses the hosted provider; when
    the variable holds a non-empty key, the provider object is built. *)
Theorem openai_needs_api_key h model w :
  (getenv h (py "OPENAI_API_KEY") = None
   \/ getenv h (py "OPENAI_API_KEY") = Some [] ->
   _get_embeddings h (py "openai") model w =
   (Exit 1,
    complain w (py "Error: OPENAI_API_KEY is not set. Run export OPENAI_API_KEY='<key>'"))
   /\ _get_llm_provider h (py "openai") model w =
      (Exit 1,
       complain w (py "Error: OPENAI_API_KEY is not set. Run export OPENAI_API_KEY='<key>'"))
   /\ (forall folder, exit_code (prepare h folder (py "openai") model w).1 = 1)
   /\ (forall directories query provider summarize llm_provider llm_model k,
         provider = py "openai"
         \/ (summarize = true /\ llm_provider = py "openai") ->
         exit_code
           (search directories h query provider model summarize llm_provider
              llm_model k w).1
         = 1))
  /\ (forall secret,
        getenv h (py "OPENAI_API_KEY") = Some secret -> secret <> [] ->
        _get_embeddings h (py "openai") model w = (Done (OpenAIEmbeddings model), w)
        /\ _get_llm_provider h (py "openai") model w = (Done (ChatOpenAI model), w)).
Proof.
  split.
  - intros Hkey%not_key_true. repeat split.
    + by apply get_embeddings_openai_unset.
    + by apply get_llm_provider_openai_unset.
    + intros folder. by apply prepare_openai_unset.
    + intros. by apply search_openai_unset.
  - intros secret Hget Hne.
    assert (not_key (getenv h (py "OPENAI_API_KEY")) = false) as Hkey.
    { rewrite Hget. by destruct secret. }
    split.
    + unfold _get_embeddings.
      rewrite bool_decide_eq_false_2 by (by vm_compute).
      rewrite bool_decide_eq_true_2 by done.
      unfold mbind, M_bind. by rewrite get_api_key_openai_set.
    + unfold _get_llm_provider, _get_llm_provider_openai.
      rewrite bool_decide_eq_true_2 by done.
      unfold mbind, M_bind. by rewrite get_api_key_openai_set.
Qed.

Lemma openai_needs_api_key_witness :
  (_get_embeddings host1 (py "openai") (py "text-embedding-3-small") empty_world =
   (Exit 1,
    complain empty_world
      (py "Error: OPENAI_API_KEY is not set. Run export OPENAI_API_KEY='<key>'"))
   /\ exit_code
        (prepare host1 [py "repo"] (py "openai") (py "text-embedding-3-small")
           empty_world).1 = 1)
  /\ _get_llm_provider host_empty_hit (py "openai") (py "gpt-4.1-nano") empty_world =
     (Done (ChatOpenAI (py "gpt-4.1-nano")), empty_world).
Proof.
  split; [split|].
  - apply (openai_needs_api_key host1 (py "text-embedding-3-small") empty_world).
    left. by vm_compute.
  - apply (openai_needs_api_key host1 (py "text-embedding-3-small") empty_world).
    left. by vm_compute.
  - destruct (openai_needs_api_key host_empty_hit (py "gpt-4.1-nano") empty_world)
      as [_ Hset].
    apply (Hset (py "sk-test")); by vm_compute.
Defined.

(** ** Paths of the metadata files *)

Lemma split_app_sep sep a b :
  split sep (a ++ sep :: b) = split sep a ++ split sep b.
Proof.
  induction a as [|c a IH]; simpl.
  - by rewrite N.eqb_refl.
  - destruct (c =? sep)%N; rewrite IH; [done|].
    pose proof (split_nonempty sep a). by destruct (split sep a).
Qed.

Lemma split_no_sep sep s : sep ∉ s -> split sep s = [s].
Proof.
  induction s as [|c s IH]; [done|].
  intros [Hc Hs]%not_elem_of_cons. simpl.
  destruct (N.eqb_spec c sep) as [->|_]; [done|].
  by rewrite (IH Hs).
Qed.

Lemma split_parts_no_sep sep s part : part ∈ split sep s -> sep ∉ part.
Proof.
  revert part. induction s as [|c s IH]; intros part; simpl.
  - intros ->%list_elem_of_singleton. apply not_elem_of_nil.
  - destruct (N.eqb_spec c sep) as [->|Hne].
    + intros [->|Hin]%elem_of_cons; [apply not_elem_of_nil | by apply IH].
    + pose proof (split_nonempty sep s) as Hnonempty.
      destruct (split sep s) as [|first rest]; [done|]. simpl.
      intros [->|Hin]%elem_of_cons.
      * apply not_elem_of_cons. split; [done|]. apply IH, elem_of_cons. by left.
      * apply IH, elem_of_cons. by right.
Qed.

Lemma Path_of_parts s :
  exists front,
    Path_of s
    = front ++ filter (fun part => part <> [] /\ part <> py ".") (split 0x2f s)
    /\ (front = [] \/ front = [py "/"] \/ front = [py "//"]).
Proof.
  unfold Path_of. destruct s as [|c1 [|c2 rest]].
  - exists []. split; [done|by left].
  - destruct (c1 =? 0x2f)%N;
      [exists [py "/"]; split; [done|by right; left]
      |exists []; split; [done|by left]].
  - destruct (c1 =? 0x2f)%N; [|exists []; split; [done|by left]].
    destruct ((c2 =? 0x2f)%N && negb (bool_decide (take 1 rest = py "/")));
      [exists [py "//"]; split; [done|by right; right]
      |exists [py "/"]; split; [done|by right; left]].
Qed.

(** The name of a resolved folder has no slash in it. *)
Lemma path_name_no_slash s : 0x2f%N ∉ path_name (Path_of s).
Proof.
  unfold path_name. case_bool_decide as Hanchor; [apply not_elem_of_nil|].
  destruct (last (Path_of s)) as [name|] eqn:Hlast; [|apply not_elem_of_nil].
  simpl.
  destruct (Path_of_parts s) as (front & Hparts & Hfront).
  rewrite Hparts in Hlast, Hanchor.
  set (parts := filter (fun part => part <> [] /\ part <> py ".") (split 0x2f s))
    in Hlast, Hanchor.
  assert (name ∈ parts) as Hin.
  { destruct parts as [|first rest] eqn:Hp.
    - rewrite app_nil_r in Hlast, Hanchor.
      destruct Hfront as [->|[->| ->]];
        [done|destruct Hanchor; by left|destruct Hanchor; by right].
    - rewrite last_app_cons in Hlast. by apply last_Some_elem_of. }
  apply list_elem_of_filter in Hin as [_ Hin].
  by apply split_parts_no_sep in Hin.
Qed.

Lemma node_name_no_slash h folder : 0x2f%N ∉ node_name h folder.
Proof.
  unfold node_name, replace_char. intros Hin.
  apply list_elem_of_fmap in Hin as (c & Hc & Hin).
  destruct (c =? 32)%N eqn:Heq; [done|]. subst c.
  by apply (path_name_no_slash (realpath h folder)).
Qed.

Lemma embed_name_no_slash node timestamp :
  0x2f%N ∉ node -> 0x2f%N ∉ timestamp -> 0x2f%N ∉ embed_name node timestamp.
Proof.
  intros Hnode Hts. unfold embed_name.
  rewrite !not_elem_of_app.
  repeat split; try done; apply (bool_decide_unpack _); by vm_compute.
Qed.

Lemma strftime_length t : length (strftime_YmdHMS t) = 14%nat.
Proof. reflexivity. Qed.

Lemma strftime_no_slash t : 0x2f%N ∉ strftime_YmdHMS t.
Proof.
  assert (Forall (fun c => (0x30 <= c)%N) (strftime_YmdHMS t)) as Hdigits.
  { unfold strftime_YmdHMS, digits4, digits2.
    repeat (apply Forall_app; split); repeat constructor; unfold digit; lia. }
  intros Hin. rewrite Forall_forall in Hdigits.
  specialize (Hdigits _ Hin). lia.
Qed.

Lemma embed_name_length node timestamp :
  length (embed_name node timestamp) = (length node + 12 + length timestamp + 5)%nat.
Proof.
  unfold embed_name. rewrite !length_app.
  change (length (py "-embeddings-")) with 12%nat.
  change (length (py ".json")) with 5%nat. lia.
Qed.

Lemma Path_of_child name :
  0x2f%N ∉ name -> (2 <= length name)%nat ->
  Path_of (root_dir ++ py "/" ++ name) = [py ".tmp"; name].
Proof.
  intros Hslash Hlen.
  change (root_dir ++ py "/" ++ name)
    with (46%N :: (py "tmp" ++ 0x2f%N :: name)).
  unfold Path_of. rewrite N.eqb_compare. cbn [N.compare Pos.compare Pos.compare_cont].
  change (46%N :: (py "tmp" ++ 0x2f%N :: name))
    with (py ".tmp" ++ 0x2f%N :: name).
  rewrite split_app_sep, (split_no_sep _ name Hslash).
  rewrite (split_no_sep _ (py ".tmp")) by (apply (bool_decide_unpack _); by vm_compute).
  cbn [app]. rewrite filter_cons_True by (split; by vm_compute).
  rewrite filter_cons_True; [done|].
  split; intros ->; simpl in Hlen; lia.
Qed.

Lemma store_paths_embed_file h folder :
  (_get_embeddings_store_paths h folder).1 = embed_path h folder.
Proof.
  unfold _get_embeddings_store_paths, embed_path. cbn [fst].
  fold (node_name h folder).
  fold (embed_name (node_name h folder) (strftime_YmdHMS (now_utc h))).
  apply Path_of_child.
  - apply embed_name_no_slash; [apply node_name_no_slash | apply strftime_no_slash].
  - rewrite embed_name_length. lia.
Qed.

(** ** Matching the pattern of the metadata files *)

Lemma glob_match_star pat s :
  glob_match (Star :: pat) s =
  glob_match pat s
  || match s with
     | _ :: s' => glob_match (Star :: pat) s'
     | [] => false
     end.
Proof. by destruct s. Qed.

Lemma glob_match_star_skip pat skipped s :
  glob_match pat s = true -> glob_match (Star :: pat) (skipped ++ s) = true.
Proof.
  intros Hmatch. induction skipped as [|c skipped IH].
  - rewrite glob_match_star. simpl. by rewrite Hmatch.
  - rewrite glob_match_star. cbn [app]. rewrite IH. apply orb_true_r.
Qed.

Lemma glob_match_chars chars pat s :
  glob_match ((Char <$> chars) ++ pat) (chars ++ s) = glob_match pat s.
Proof.
  induction chars as [|c chars IH]; [done|].
  cbn [fmap list_fmap app glob_match]. fold (@fmap list _ _ _ Char chars).
  by rewrite N.eqb_refl, IH.
Qed.

(** Every name [prepare] gives a metadata file matches the pattern
    [search] globs for. *)
Lemma glob_match_embed_name node timestamp :
  glob_match (glob_pattern (py "*-embeddings-*.json")) (embed_name node timestamp)
  = true.
Proof.
  assert (glob_pattern (py "*-embeddings-*.json") =
          Star :: (Char <$> py "-embeddings-")
               ++ Star :: (Char <$> py ".json") ++ []) as -> by (by vm_compute).
  unfold embed_name. apply glob_match_star_skip.
  rewrite glob_match_chars. apply glob_match_star_skip.
  rewrite <- (app_nil_r (py ".json")) at 2.
  by rewrite glob_match_chars.
Qed.

(** ** [prepare], step by step *)

Lemma extract_outcome h folder w :
  (exists raw,
     git_log h folder = Some raw
     /\ _extract_commits_with_message h folder w =
        (Done (omap commit_record
                 (filter (fun e => blank e = false) (loop_entries raw))),
         warn w ((fun e => SkippingMalformed (split_max US e 4))
                 <$> filter (fun e => malformed e = true) (loop_entries raw))))
  \/ (git_log h folder = None
      /\ _extract_commits_with_message h folder w = (Raised CalledProcessError, w)).
Proof.
  destruct (git_log h folder) as [raw|] eqn:Hlog.
  - left. exists raw. split; [done|]. by apply extract_commits_spec.
  - right. split; [done|]. unfold _extract_commits_with_message. by rewrite Hlog.
Qed.

Lemma prepare_spec h folder provider model w :
  prepare h folder provider model w =
  if negb (path_exists h (path_div folder (py ".git"))) then
    (Exit 1,
     complain w (py "Error: provided folder is missing or is not a Git repository"))
  else
    match git_rev_parse h folder with
    | None => (Raised CalledProcessError, w)
    | Some out =>
        let w1 :=
          warn w [Line (py "Preparing embeddings for branch: " ++ strip out
                        ++ py " at " ++ path_str folder)] in
        match _extract_commits_with_message h folder w1 with
        | (Done docs, w2) =>
            match _get_embeddings h provider model w2 with
            | (Done e, _) =>
                let dir := path_str (_get_embeddings_store_paths h folder).2 in
                let w3 := called w2 (FromDocuments docs e dir) in
                match chroma_from_documents h docs e dir with
                | None => (Raised LibraryError, w3)
                | Some _ =>
                    (Done (),
                     mkWorld
                       (<[embed_path h folder :=
                            json_dumps
                              (JDict (prepare_payload h folder provider
                                        (strip out) docs))]> (files w3))
                       (stdout w3
                        ++ [Line (check_mark
                                  ++ py " Embeddings indexed and stored in "
                                  ++ path_str (embed_path h folder))])
                       (stderr w3) (calls w3))
                end
            | (Exit code, w') => (Exit code, w')
            | (Raised x, w') => (Raised x, w')
            end
        | (Exit code, w2) => (Exit code, w2)
        | (Raised x, w2) => (Raised x, w2)
        end
    end.
Proof.
  unfold prepare.
  destruct (negb (path_exists h (path_div folder (py ".git")))); [done|].
  pose proof (store_paths_embed_file h folder) as Hfile.
  unfold prepare_payload.
  destruct (_get_embeddings_store_paths h folder) as [embed_file dir].
  cbn [fst snd] in *. subst embed_file.
  unfold mbind at 1, M_bind at 1.
  destruct (git_rev_parse h folder) as [out|]; [|done].
  cbn [from_option mret M_ret].
  unfold mbind at 1, M_bind at 1. cbn [echo put_out].
  fold (warn w [Line (py "Preparing embeddings for branch: " ++ strip out
                      ++ py " at " ++ path_str folder)]).
  cbn zeta. unfold mbind at 1, M_bind at 1.
  destruct (_extract_commits_with_message h folder _) as [[docs|code|x] w2];
    [|done..].
  unfold mbind at 1, M_bind at 1.
  destruct (get_embeddings_outcome h provider model w2) as [[e ->]|[text ->]];
    [|done].
  unfold mbind at 1, M_bind at 1. cbn [record_call].
  fold (called w2 (FromDocuments docs e (path_str dir))).
  unfold mbind at 1, M_bind at 1.
  destruct (chroma_from_documents h docs e (path_str dir)) as [[]|]; [|done].
  cbn [from_option mret M_ret].
  unfold mbind, M_bind, write_text, echo, put_out. reflexivity.
Qed.

(** Whatever its outcome, a [prepare] run leaves the files as they were or
    writes the one metadata file named after its folder and timestamp. *)
Lemma prepare_files h folder provider model w :
  files (prepare h folder provider model w).2 = files w
  \/ exists items,
       files (prepare h folder provider model w).2
       = <[embed_path h folder := JsonText (JDict items)]> (files w).
Proof.
  rewrite prepare_spec.
  destruct (negb (path_exists h (path_div folder (py ".git")))); [by left|].
  destruct (git_rev_parse h folder) as [out|]; [|by left].
  cbn zeta.
  match goal with |- context [_extract_commits_with_message h folder ?w1] =>
    destruct (extract_outcome h folder w1) as [(raw & _ & ->)|[_ ->]]
  end; [|by left].
  match goal with |- context [_get_embeddings h provider model ?w2] =>
    destruct (get_embeddings_outcome h provider model w2) as [[e ->]|[text ->]]
  end; [|by left].
  destruct (chroma_from_documents h _ e _) as [[]|]; [|by left].
  right. by eexists.
Qed.

(** C5. Every successful [prepare] invocation writes exactly one metadata
    file: a JSON object with exactly the fields branch, created_at,
    provider, doc_count, path and chroma_dir, stored under a name that
    holds the timestamp of the run and matches the pattern of the metadata
    files, and whose doc_count is the number of commit records extracted
    from the repository. *)
Theorem prepare_writes_one_metadata_file h folder provider model w w' :
  prepare h folder provider model w = (Done (), w') ->
  exists items docs,
    files w' = <[embed_path h folder := json_dumps (JDict items)]> (files w)
    /\ embed_path h folder ∈ metadata_files w'
    /\ path_name (embed_path h folder)
       = node_name h folder ++ py "-embeddings-"
         ++ strftime_YmdHMS (now_utc h) ++ py ".json"
    /\ items.*1 = payload_keys
    /\ (_extract_commits_with_message h folder w).1 = Done docs
    /\ dict_get items (py "doc_count") = Some (JInt (Z.of_nat (length docs))).
Proof.
  rewrite prepare_spec.
  destruct (negb (path_exists h (path_div folder (py ".git")))); [done|].
  destruct (git_rev_parse h folder) as [out|]; [|done].
  cbn zeta.
  match goal with |- context [_extract_commits_with_message h folder ?w1] =>
    destruct (extract_outcome h folder w1) as [(raw & Hlog & ->)|[_ ->]]
  end; [|done].
  match goal with |- context [_get_embeddings h provider model ?w2] =>
    destruct (get_embeddings_outcome h provider model w2) as [[e ->]|[text ->]]
  end; [|done].
  destruct (chroma_from_documents h _ e _) as [[]|]; [|done].
  intros Heq. apply (f_equal snd) in Heq. cbn [snd] in Heq. subst w'.
  cbn [files called warn].
  eexists _, _. split; [reflexivity|].
  split; [|split; [|split; [|split]]].
  - apply elem_of_metadata_files.
    exists (embed_name (node_name h folder) (strftime_YmdHMS (now_utc h))).
    split; [by rewrite root_path|].
    split; [apply glob_match_embed_name|].
    cbn [files]. rewrite lookup_insert_eq. by eexists.
  - unfold embed_path. by rewrite path_name_child.
  - reflexivity.
  - by rewrite (extract_commits_spec _ _ _ _ Hlog).
  - reflexivity.
Qed.

Lemma prepare_writes_one_metadata_file_witness :
  exists items docs,
    files (prepare host1 [py "repo"] (py "hf") (py "bge") empty_world).2
    = <[embed_path host1 [py "repo"] := json_dumps (JDict items)]> (files empty_world)
    /\ embed_path host1 [py "repo"]
       ∈ metadata_files (prepare host1 [py "repo"] (py "hf") (py "bge") empty_world).2
    /\ path_name (embed_path host1 [py "repo"])
       = node_name host1 [py "repo"] ++ py "-embeddings-"
         ++ strftime_YmdHMS (now_utc host1) ++ py ".json"
    /\ items.*1 = payload_keys
    /\ (_extract_commits_with_message host1 [py "repo"] empty_world).1 = Done docs
    /\ dict_get items (py "doc_count") = Some (JInt (Z.of_nat (length docs))).
Proof.
  apply (prepare_writes_one_metadata_file host1 [py "repo"] (py "hf") (py "bge")
           empty_world).
  assert ((prepare host1 [py "repo"] (py "hf") (py "bge") empty_world).1 = Done ())
    as Hdone by (vm_compute; reflexivity).
  destruct (prepare host1 [py "repo"] (py "hf") (py "bge") empty_world) as [r w'].
  cbn [fst snd] in *. by rewrite Hdone.
Defined.

(** ** Sequences of [prepare] invocations *)

Lemma timestamp_of_embed dir node timestamp :
  length timestamp = 14%nat ->
  timestamp_of [dir; embed_name node timestamp] = timestamp.
Proof.
  intros Hlen. unfold timestamp_of. rewrite path_name_child, embed_name_length.
  unfold embed_name.
  rewrite (app_assoc node), drop_app_length'
    by (rewrite length_app; change (length (py "-embeddings-")) with 12%nat; lia).
  by rewrite take_app_length'.
Qed.

Lemma node_of_embed dir node timestamp :
  length timestamp = 14%nat ->
  node_of [dir; embed_name node timestamp] = node.
Proof.
  intros Hlen. unfold node_of. rewrite path_name_child, embed_name_length.
  unfold embed_name. rewrite take_app_length'; [done|lia].
Qed.

Lemma run_prepares_cons r runs w :
  run_prepares (r :: runs) w =
  run_prepares runs
    (prepare (run_host r) (run_folder r) (run_provider r) (run_model r) w).2.
Proof. reflexivity. Qed.

(** Every file present after a series of invocations was there before or
    is the metadata file of one of them. *)
Lemma run_prepares_files runs w p :
  is_Some (files (run_prepares runs w) !! p) ->
  is_Some (files w !! p) \/ written_by runs p.
Proof.
  revert w. induction runs as [|r runs IH]; intros w; [by left|].
  rewrite run_prepares_cons. intros Hp.
  destruct (IH _ Hp) as [Hbefore|(r' & Hin & ->)].
  - destruct (prepare_files (run_host r) (run_folder r) (run_provider r)
                (run_model r) w) as [Hsame|[items Hwrite]].
    + left. by rewrite <- Hsame.
    + rewrite Hwrite in Hbefore.
      destruct (decide (embed_path (run_host r) (run_folder r) = p)) as [<-|Hne].
      * right. exists r. split; [|done]. apply elem_of_cons. by left.
      * left. by rewrite lookup_insert_ne in Hbefore.
  - right. exists r'. split; [|done]. apply elem_of_cons. by right.
Qed.

(** C6, as the code has it.  Across any sequence of [prepare] invocations
    started without metadata files, there is at most one metadata file per
    pair of folder name and timestamp: every metadata file is the one of an
    invocation, and its name determines that folder name and timestamp. *)
Theorem prepare_runs_one_file_per_name_and_timestamp runs w :
  metadata_files w = [] ->
  one_file_per_name_and_timestamp (run_prepares runs w).
Proof.
  intros Hempty p q Hp Hq Hnode Hts.
  assert (forall x, x ∈ metadata_files (run_prepares runs w) -> written_by runs x)
    as Hwritten.
  { intros x (name & Hname & Hmatch & Hsome)%elem_of_metadata_files.
    apply run_prepares_files in Hsome as [Hsome|Hx]; [|done].
    assert (x ∈ metadata_files w) as Hin
      by (apply elem_of_metadata_files; by exists name).
    rewrite Hempty in Hin. by apply elem_of_nil in Hin. }
  destruct (Hwritten p Hp) as (rp & _ & ->).
  destruct (Hwritten q Hq) as (rq & _ & ->).
  unfold embed_path in *.
  rewrite !timestamp_of_embed in Hts by apply strftime_length.
  rewrite !node_of_embed in Hnode by apply strftime_length.
  by rewrite Hnode, Hts.
Qed.

Lemma prepare_runs_one_file_per_name_and_timestamp_witness :
  one_file_per_name_and_timestamp
    (run_prepares [run_alpha; run_beta] worktree_world).
Proof.
  apply (prepare_runs_one_file_per_name_and_timestamp [run_alpha; run_beta]
           worktree_world).
  vm_compute. reflexivity.
Defined.

(** C6, as stated, fails: two invocations in the same second on folders
    named [alpha] and [beta] leave two metadata files with one timestamp. *)
Lemma two_metadata_files_one_timestamp :
  ~ (forall runs w,
       metadata_files w = [] -> one_file_per_timestamp (run_prepares runs w)).
Proof.
  intros Hone.
  specialize (Hone [run_alpha; run_beta] empty_world eq_refl).
  assert (forall name,
            name = py "alpha-embeddings-20250102120000.json"
            \/ name = py "beta-embeddings-20250102120000.json" ->
            [py ".tmp"; name]
            ∈ metadata_files (run_prepares [run_alpha; run_beta] empty_world))
    as Hpresent.
  { intros name Hname. apply elem_of_metadata_files. exists name.
    destruct Hname as [-> | ->];
      (split; [vm_compute; reflexivity|]);
      (split; [vm_compute; reflexivity|]);
      vm_compute; by eexists. }
  assert ([py ".tmp"; py "alpha-embeddings-20250102120000.json"]
          = [py ".tmp"; py "beta-embeddings-20250102120000.json"]) as Heq.
  { apply Hone.
    - apply Hpresent. by left.
    - apply Hpresent. by right.
    - vm_compute. reflexivity. }
  vm_compute in Heq. discriminate Heq.
Qed.

(** ** The provider recorded in the metadata *)

Lemma dict_get_set_ne {V : Type} (d : list (str * V)) key key' v :
  key <> key' -> dict_get (dict_set d key v) key' = dict_get d key'.
Proof.
  intros Hne. induction d as [|[k x] d IH]; [done|].
  cbn [dict_set]. case_bool_decide as Hk; cbn [dict_get].
  - subst k. by rewrite !bool_decide_eq_false_2.
  - by rewrite IH.
Qed.

Create HintDb respects.

Section recorded_provider.
Variable recorded : str.

Local Abbreviation T := (with_provider recorded).

Lemma respects_ret {A : Type} (a : A) : respects T (mret a).
Proof. by intros w. Qed.

Lemma respects_bind {A B : Type} (c : M A) (f : A -> M B) :
  respects T c -> (forall a, respects T (f a)) -> respects T (c ≫= f).
Proof.
  intros Hc Hf w. unfold mbind, M_bind. rewrite Hc.
  destruct (c w) as [[a|code|e] w1]; cbn [fst snd]; [apply Hf|done..].
Qed.

Lemma respects_exit {A : Type} code : respects T (@typer_exit A code).
Proof. by intros w. Qed.

Lemma respects_from_option {A : Type} e (o : option A) :
  respects T (from_option e o).
Proof. by destruct o. Qed.

Lemma respects_put_out l : respects T (put_out l).
Proof. by intros w. Qed.

Lemma respects_echo_err text : respects T (echo_err text).
Proof. by intros w. Qed.

Lemma respects_record_call c : respects T (record_call c).
Proof. by intros w. Qed.

#[local] Hint Resolve respects_ret respects_exit respects_from_option respects_put_out
  respects_echo_err respects_record_call : respects.

Ltac respects_steps :=
  repeat first
    [ solve [auto with respects]
    | apply respects_bind; [|intros ?] ].

Lemma respects_get_api_key h provider : respects T (_get_api_key h provider).
Proof.
  unfold _get_api_key, _get_api_key_openai, echo.
  case_bool_decide;
    [destruct (not_key (getenv h (py "OPENAI_API_KEY")))|]; respects_steps.
Qed.

Lemma respects_get_embeddings h provider model :
  respects T (_get_embeddings h provider model).
Proof.
  unfold _get_embeddings. pose proof (respects_get_api_key h (py "openai")).
  repeat case_bool_decide; respects_steps.
Qed.

Lemma respects_get_llm_provider h provider model :
  respects T (_get_llm_provider h provider model).
Proof.
  unfold _get_llm_provider, _get_llm_provider_openai.
  pose proof (respects_get_api_key h (py "openai")).
  case_bool_decide; respects_steps.
Qed.

Lemma respects_format_results docs commits :
  respects T (format_results docs commits).
Proof.
  revert commits. induction docs as [|doc docs IH]; intros commits;
    cbn [format_results]; unfold index0, echo; respects_steps.
Qed.

Lemma respects_format_segments segments inputs :
  respects T (format_segments segments inputs).
Proof.
  induction segments as [|[text|name] segments IH];
    cbn [format_segments]; respects_steps.
Qed.

Lemma respects_summarize_commits h llm_provider llm_model commits query :
  respects T (summarize_commits h llm_provider llm_model commits query).
Proof.
  unfold summarize_commits, prompt_invoke, echo.
  pose proof (respects_get_llm_provider h llm_provider llm_model).
  pose proof respects_format_segments. respects_steps.
Qed.

Lemma respects_search_in h query provider model summarize llm_provider
    llm_model k chroma_dir :
  respects T (search_in h query provider model summarize llm_provider
                llm_model k chroma_dir).
Proof.
  unfold search_in, echo.
  pose proof (respects_get_embeddings h provider model).
  pose proof respects_format_results.
  pose proof respects_summarize_commits.
  respects_steps. destruct summarize; respects_steps.
Qed.

Lemma metadata_entries_with_provider directories w :
  metadata_entries directories (T w) = metadata_entries directories w.
Proof.
  unfold metadata_entries, T, with_provider. cbn [files].
  rewrite map_to_list_fmap. f_equal. f_equal.
  rewrite <- list_fmap_compose. by apply list_fmap_ext; intros ? [].
Qed.

(** [search] never looks at the recorded provider. *)
Lemma respects_search directories h query provider model summarize llm_provider
    llm_model k :
  respects T (search directories h query provider model summarize llm_provider
                llm_model k).
Proof.
  intros w. rewrite !search_unfold, metadata_entries_with_provider.
  destruct (200 <? length query)%nat; [done|].
  case_bool_decide; [done|].
  destruct (last (sorted (metadata_entries directories w))) as [latest|]; [|done].
  unfold T at 1, with_provider at 1. cbn [files]. rewrite lookup_fmap.
  destruct (files w !! latest) as [[data|text]|]; [|done..].
  destruct data as [| | | | |items]; try done.
  cbn [fmap option_fmap option_map set_provider].
  rewrite dict_get_set_ne by (by vm_compute).
  destruct (dict_get items (py "chroma_dir")) as [dir|]; [|done].
  apply respects_search_in.
Qed.
End recorded_provider.

Lemma get_embeddings_done h provider model w e :
  (_get_embeddings h provider model w).1 = Done e ->
  (provider = py "hf" /\ e = HuggingFaceEmbeddings model)
  \/ (provider = py "openai" /\ e = OpenAIEmbeddings model).
Proof.
  unfold _get_embeddings. repeat case_bool_decide.
  - intros [= <-]. by left.
  - unfold mbind, M_bind.
    destruct (_get_api_key h (py "openai") w) as [[key|code|x] w']; try done.
    intros [= <-]. by right.
  - done.
Qed.

(** * Further properties *)

(** ** The line shown for a message *)

Lemma splitlines_from_head cur s :
  cur <> [] \/ s <> [] ->
  head (splitlines_from cur s) = Some (reverse cur ++ until_linebreak s).
Proof.
  revert cur. induction s as [|c s IH]; intros cur Hne; simpl.
  - destruct cur as [|x cur]; [by destruct Hne as [[]|[]]|].
    by rewrite app_nil_r.
  - destruct (is_linebreak c).
    + rewrite app_nil_r. destruct s as [|d s']; [done|].
      by destruct ((c =? 13)%N && (d =? 10)%N).
    + rewrite IH by (by left). by rewrite reverse_cons, <- app_assoc.
Qed.

Lemma until_linebreak_prefix s : until_linebreak s `prefix_of` s.
Proof.
  induction s as [|c s IH]; simpl; [done|].
  destruct (is_linebreak c); [apply prefix_nil|by apply prefix_cons].
Qed.

Lemma until_linebreak_clean s :
  Forall (fun c => is_linebreak c = false) (until_linebreak s).
Proof.
  induction s as [|c s IH]; simpl; [constructor|].
  destruct (is_linebreak c) eqn:Hc; by constructor.
Qed.

(** X11. For a non-empty stored message, the text [search] shows and puts
    in the block of commits is the message up to its first line boundary
    or its 100th character, whichever comes first: a prefix of the message,
    at most 100 characters long, without any line boundary. *)
Theorem first_line_is_bounded_prefix (msg : str) w :
  msg <> [] ->
  index0 (splitlines (take 100 msg)) w
  = (Done (until_linebreak (take 100 msg)), w)
  /\ until_linebreak (take 100 msg) `prefix_of` msg
  /\ (length (until_linebreak (take 100 msg)) <= 100)%nat
  /\ Forall (fun c => is_linebreak c = false) (until_linebreak (take 100 msg)).
Proof.
  intros Hne. split; [|split; [|split]].
  - unfold index0, splitlines.
    rewrite splitlines_from_head by (right; by destruct msg).
    by rewrite reverse_nil.
  - etrans; [apply until_linebreak_prefix|]. apply prefix_take.
  - pose proof (prefix_length _ _ (until_linebreak_prefix (take 100 msg))) as Hle.
    rewrite length_take in Hle. lia.
  - apply until_linebreak_clean.
Qed.

Lemma first_line_is_bounded_prefix_witness :
  index0 (splitlines (take 100 (py "Fix parser" ++ nl ++ py "details")))
    empty_world
  = (Done (py "Fix parser"), empty_world).
Proof.
  apply (first_line_is_bounded_prefix (py "Fix parser" ++ nl ++ py "details")
           empty_world).
  by vm_compute.
Defined.

(** ** What the extractor returns *)

Lemma split_parts_subset sep s part c :
  part ∈ split sep s -> c ∈ part -> c ∈ s.
Proof.
  revert part. induction s as [|x s IH]; intros part; simpl.
  - intros ->%list_elem_of_singleton. by intros ?%elem_of_nil.
  - destruct (x =? sep)%N.
    + intros [->|Hin]%elem_of_cons; [by intros ?%elem_of_nil|].
      intros Hc. apply elem_of_cons. right. by eapply IH.
    + pose proof (split_nonempty sep s) as Hnonempty.
      destruct (split sep s) as [|first rest]; [done|]. simpl.
      intros [->|Hin]%elem_of_cons.
      * intros [->|Hc]%elem_of_cons; apply elem_of_cons; [by left|right].
        apply (IH first); [apply elem_of_cons; by left|done].
      * intros Hc. apply elem_of_cons. right.
        apply (IH part); [apply elem_of_cons; by right|done].
Qed.

Lemma commit_record_fields entry doc :
  commit_record entry = Some doc ->
  exists sha author date message,
    split US entry = [sha; author; date; message]
    /\ doc = mkDocument message
               [(py "sha", sha); (py "author", author); (py "date", date)].
Proof.
  unfold commit_record.
  destruct (split US entry) as [|a [|b [|c [|d [|x l]]]]]; try done.
  intros [= <-]. by exists a, b, c, d.
Qed.

Lemma document_of_parts_None parts :
  document_of_parts parts = None <-> length parts <> 4%nat.
Proof. by destruct parts as [|? [|? [|? [|? [|? ?]]]]]. Qed.

(** X2. Nothing is lost silently.  When [git log] succeeds the extractor
    returns normally.  Of the non-blank entries of
    [raw.strip().split("\x1e")], split at the first four field separators,
    those with exactly four parts are returned as documents -- the fourth
    part as content, the first three as sha, author and date -- and the
    others are reported on standard output as malformed, with their parts;
    both in the order of the log, and every non-blank entry is in exactly
    one of the two. *)
Theorem extractor_returns_or_warns h target_dir raw w :
  git_log h target_dir = Some raw ->
  let parts :=
    (fun entry => split_max US entry 4)
    <$> filter (fun entry => is_empty (strip entry) = false)
          (split RS (strip raw)) in
  _extract_commits_with_message h target_dir w
  = (Done (omap document_of_parts parts),
     warn w (SkippingMalformed
             <$> filter (fun p => length p <> 4%nat) parts))
  /\ (forall p, document_of_parts p = None <-> length p <> 4%nat).
Proof.
  intros Hlog. cbn zeta. split; [|apply document_of_parts_None].
  rewrite (extract_commits_spec _ _ _ _ Hlog). unfold loop_entries, blank.
  f_equal.
  - f_equal. induction (filter _ (split RS (strip raw))) as [|e l IH]; [done|].
    rewrite fmap_cons. cbn [omap list_omap].
    rewrite IH, commit_record_split_max. reflexivity.
  - f_equal. induction (split RS (strip raw)) as [|e l IH]; [done|].
    unfold malformed, blank in *.
    destruct (is_empty (strip e)) eqn:Hblank.
    + rewrite (filter_cons_False _ e) by (rewrite Hblank; done).
      rewrite (filter_cons_False (fun entry => is_empty (strip entry) = false))
        by (by rewrite Hblank).
      apply IH.
    + rewrite (filter_cons_True (fun entry => is_empty (strip entry) = false))
        by done.
      rewrite fmap_cons.
      destruct (decide (length (split_max US e 4) = 4%nat)) as [H4|H4].
      * rewrite (filter_cons_False _ (split_max US e 4)) by (by intros ?).
        rewrite (filter_cons_False _ e); [apply IH|].
        rewrite Hblank. cbn [negb andb]. rewrite commit_record_split_max.
        intros Hnone%bool_decide_eq_true.
        by apply document_of_parts_None in Hnone.
      * rewrite (filter_cons_True _ (split_max US e 4)) by done.
        rewrite (filter_cons_True _ e); [rewrite !fmap_cons; by rewrite IH|].
        rewrite Hblank. cbn [negb andb]. rewrite commit_record_split_max.
        apply bool_decide_eq_true. by apply document_of_parts_None.
Qed.

Lemma extractor_returns_or_warns_witness :
  _extract_commits_with_message (host_of_log empty_subject_log) [py "repo"]
    empty_world
  = (Done [],
     warn empty_world [SkippingMalformed [bob_sha; py "Bob"; bob_date]]).
Proof.
  destruct (extractor_returns_or_warns (host_of_log empty_subject_log)
              [py "repo"] empty_subject_log empty_world) as [Hrun _].
  - reflexivity.
  - rewrite Hrun. vm_compute. reflexivity.
Defined.

(** X3. No field of a returned document holds a separator: the message,
    the sha, the author and the date of every document are free of the
    field separator and of the record separator, and the metadata has
    exactly the keys sha, author and date. *)
Theorem extracted_fields_have_no_separator h target_dir w docs w' doc :
  _extract_commits_with_message h target_dir w = (Done docs, w') ->
  doc ∈ docs ->
  no_separator (page_content doc)
  /\ (metadata doc).*1 = [py "sha"; py "author"; py "date"]
  /\ Forall (fun field => no_separator field.2) (metadata doc).
Proof.
  intros Hrun Hdoc.
  destruct (extract_outcome h target_dir w) as [(raw & _ & Hspec)|[_ Hfail]];
    [|by rewrite Hfail in Hrun].
  rewrite Hspec in Hrun. apply (f_equal fst) in Hrun. cbn [fst] in Hrun.
  injection Hrun as <-.
  apply list_elem_of_omap in Hdoc as (entry & Hentry & Hrec).
  apply list_elem_of_filter in Hentry as [_ Hentry].
  apply commit_record_fields in Hrec as (sha & author & date & message & Hsplit & ->).
  assert (forall field, field ∈ split US entry -> no_separator field) as Hclean.
  { intros field Hfield. split.
    - by eapply split_parts_no_sep.
    - intros Hrs. apply (split_parts_no_sep RS (strip raw) entry Hentry).
      by eapply split_parts_subset. }
  rewrite Hsplit in Hclean. cbn [page_content metadata].
  split; [|split; [done|]].
  - apply Hclean. set_solver.
  - repeat constructor; apply Hclean; set_solver.
Qed.

Lemma extracted_fields_have_no_separator_witness :
  no_separator (page_content empty_subject_doc)
  /\ (metadata empty_subject_doc).*1 = [py "sha"; py "author"; py "date"]
  /\ Forall (fun field => no_separator field.2) (metadata empty_subject_doc).
Proof.
  apply (extracted_fields_have_no_separator
           (host_of_log empty_subject_first_log) [py "repo"] empty_world
           [empty_subject_doc;
            mkDocument (py "Initial commit")
              [(py "sha", nl ++ ann_sha); (py "author", py "Ann");
               (py "date", ann_date)]]
           empty_world empty_subject_doc).
  - by vm_compute.
  - apply elem_of_cons. by left.
Defined.

(** ** Parsing what [git log] prints *)

Lemma log_entry_fields c : log_entry c = entry_fields c ++ [RS].
Proof. unfold log_entry, entry_fields. by rewrite <- !app_assoc. Qed.

(** The output of [git log], seen as its last separator after the rest. *)
Lemma git_log_output_body c rest :
  git_log_output (c :: rest)
  = (entry_fields c
     ++ concat ((fun c' => RS :: nl ++ entry_fields c') <$> rest)) ++ [RS].
Proof.
  unfold git_log_output. revert c. induction rest as [|c2 rest IH]; intros c.
  - cbn [fmap list_fmap join concat]. by rewrite log_entry_fields, app_nil_r.
  - specialize (IH c2).
    change (log_entry c ++ nl ++ join nl (log_entry <$> c2 :: rest)
            = (entry_fields c
               ++ (RS :: nl ++ entry_fields c2)
               ++ concat ((fun c' => RS :: nl ++ entry_fields c') <$> rest))
              ++ [RS]).
    rewrite IH, log_entry_fields.
    rewrite <- !app_assoc. reflexivity.
Qed.

Lemma lstrip_printable c s : isspace c = false -> lstrip (c :: s) = c :: s.
Proof. intros Hc. simpl. by rewrite Hc. Qed.

Lemma strip_body body :
  (exists c s, body = c :: s /\ isspace c = false) ->
  ends_printable body ->
  strip (body ++ [RS]) = body.
Proof.
  intros (c & s & Hhead & Hc) (s' & x & Htail & Hx).
  unfold strip, rstrip. rewrite reverse_snoc.
  change (lstrip (RS :: reverse body)) with (lstrip (reverse body)).
  rewrite Htail at 1. rewrite reverse_snoc, (lstrip_printable _ _ Hx).
  rewrite <- reverse_snoc, <- Htail, reverse_involutive.
  rewrite Hhead. by apply lstrip_printable.
Qed.

Lemma ends_printable_app s t : ends_printable t -> ends_printable (s ++ t).
Proof.
  intros (t' & x & -> & Hx). exists (s ++ t'), x. by rewrite app_assoc.
Qed.

Lemma body_ends_printable pre c rest :
  (forall c', last (c :: rest) = Some c' -> ends_printable (c_subject c')) ->
  ends_printable
    (pre ++ entry_fields c
     ++ concat ((fun c' => RS :: nl ++ entry_fields c') <$> rest)).
Proof.
  revert pre c. induction rest as [|c2 rest IH]; intros pre c Hlast.
  - cbn [fmap list_fmap concat]. rewrite app_nil_r. unfold entry_fields.
    rewrite !app_assoc. apply ends_printable_app, Hlast. done.
  - rewrite fmap_cons. cbn [concat].
    replace (pre ++ entry_fields c
             ++ (RS :: nl ++ entry_fields c2)
             ++ concat ((fun c' => RS :: nl ++ entry_fields c') <$> rest))
      with ((pre ++ entry_fields c ++ RS :: nl)
            ++ entry_fields c2
            ++ concat ((fun c' => RS :: nl ++ entry_fields c') <$> rest))
      by (rewrite <- !app_assoc; cbn [app]; by rewrite <- !app_assoc).
    apply IH. intros c' Hc'. by apply Hlast.
Qed.

Lemma split_body pre c rest :
  RS ∉ pre -> Forall (fun c' => RS ∉ entry_fields c') (c :: rest) ->
  split RS (pre ++ entry_fields c
            ++ concat ((fun c' => RS :: nl ++ entry_fields c') <$> rest))
  = (pre ++ entry_fields c) :: ((fun c' => nl ++ entry_fields c') <$> rest).
Proof.
  revert pre c. induction rest as [|c2 rest IH]; intros pre c Hpre Hall.
  - cbn [fmap list_fmap concat]. rewrite app_nil_r.
    apply split_no_sep. apply Forall_cons_1 in Hall as [Hc _].
    by apply not_elem_of_app.
  - apply Forall_cons_1 in Hall as [Hc Hall].
    rewrite !fmap_cons. cbn [concat].
    replace (pre ++ entry_fields c
             ++ (RS :: nl ++ entry_fields c2)
             ++ concat ((fun c' => RS :: nl ++ entry_fields c') <$> rest))
      with ((pre ++ entry_fields c)
            ++ RS :: (nl ++ entry_fields c2
                      ++ concat ((fun c' => RS :: nl ++ entry_fields c') <$> rest)))
      by (rewrite <- !app_assoc; cbn [app]; by rewrite <- !app_assoc).
    rewrite split_app_sep, IH; [|by apply (bool_decide_unpack _)|done].
    rewrite split_no_sep by (by apply not_elem_of_app). done.
Qed.

Lemma entry_fields_no_RS c : well_formed c -> RS ∉ entry_fields c.
Proof.
  intros (_ & [_ Hsha] & [_ Hauthor] & [_ Hdate] & [_ Hsubject]).
  unfold entry_fields. rewrite !not_elem_of_app.
  repeat split; try done; apply (bool_decide_unpack _); by vm_compute.
Qed.

Lemma commit_record_entry pre c :
  US ∉ pre -> well_formed c ->
  commit_record (pre ++ entry_fields c)
  = Some (mkDocument (c_subject c)
            [(py "sha", pre ++ c_sha c); (py "author", c_author c);
             (py "date", c_date c)]).
Proof.
  intros Hpre (_ & [Hsha _] & [Hauthor _] & [Hdate _] & [Hsubject _]).
  unfold commit_record, entry_fields. cbn [app].
  rewrite app_assoc, split_app_sep, split_app_sep, split_app_sep.
  rewrite !split_no_sep by (try apply not_elem_of_app; done).
  reflexivity.
Qed.

Lemma lstrip_keeps_printable s :
  Exists (fun c => isspace c = false) s ->
  Exists (fun c => isspace c = false) (lstrip s).
Proof.
  induction 1 as [c s Hc|c s _ IH]; simpl.
  - rewrite Hc. by constructor.
  - destruct (isspace c) eqn:Hc; [done|]. by constructor.
Qed.

Lemma entry_not_blank pre c : well_formed c -> blank (pre ++ entry_fields c) = false.
Proof.
  intros ([Hne Hsha] & _).
  assert (Exists (fun x => isspace x = false) (pre ++ entry_fields c)) as Hex.
  { apply Exists_app. right. unfold entry_fields. apply Exists_app. left.
    destruct (c_sha c) as [|x sha]; [done|].
    apply Forall_cons_1 in Hsha as [Hx _]. by constructor. }
  assert (forall l : str,
            Exists (fun x => isspace x = false) l ->
            Exists (fun x => isspace x = false) (reverse l)) as Hrev.
  { intros l. rewrite !Exists_exists. intros (x & Hx & Hsp).
    exists x. split; [|done]. by apply elem_of_reverse. }
  unfold blank, strip, rstrip.
  apply Hrev, lstrip_keeps_printable, Hrev, lstrip_keeps_printable in Hex.
  by destruct Hex.
Qed.

Lemma omap_next_entries rest :
  Forall well_formed rest ->
  omap commit_record ((fun c' => nl ++ entry_fields c') <$> rest)
  = commit_doc false <$> rest.
Proof.
  induction 1 as [|c rest Hc _ IH]; [done|].
  rewrite !fmap_cons. cbn [omap list_omap].
  rewrite commit_record_entry by (try done; apply (bool_decide_unpack _); by vm_compute).
  rewrite IH. done.
Qed.

Lemma universal_newlines_id s : 0x0d%N ∉ s -> universal_newlines s = s.
Proof.
  induction s as [|c s IH]; [done|].
  intros [Hc Hs]%not_elem_of_cons. cbn [universal_newlines].
  destruct (c =? 0x0d)%N eqn:Heq; [apply N.eqb_eq in Heq; congruence|].
  by rewrite IH.
Qed.

Lemma git_log_output_no_return history :
  Forall no_return history -> 0x0d%N ∉ git_log_output history.
Proof.
  unfold git_log_output.
  induction 1 as [|c rest Hc Hrest IH]; [apply not_elem_of_nil|].
  rewrite fmap_cons. cbn [join].
  assert (0x0d%N ∉ log_entry c) as Hentry.
  { rewrite log_entry_fields. apply not_elem_of_app. split; [done|].
    apply (bool_decide_unpack _). by vm_compute. }
  destruct (log_entry <$> rest) as [|e es] eqn:Hes; [done|].
  rewrite !not_elem_of_app. split; [done|]. split; [|done].
  apply (bool_decide_unpack _). by vm_compute.
Qed.

(** X1. Round trip with the format of [git log].  The extractor reads what
    [git log] prints in text mode.  For a history of well-formed commits (a
    hash without blanks, no separator and no carriage return inside a
    field) whose oldest commit has a subject ending in a visible character,
    it returns one document per commit, in the order of the log, without
    any warning -- with the author, date and subject of the commit, and
    with its hash, which for every commit but the first is preceded by the
    newline that separates the entries. *)
Theorem extract_well_formed_log h target_dir history w :
  git_log h target_dir = Some (universal_newlines (git_log_output history)) ->
  Forall well_formed history ->
  Forall no_return history ->
  (forall c, last history = Some c -> ends_printable (c_subject c)) ->
  _extract_commits_with_message h target_dir w = (Done (commit_docs history), w).
Proof.
  intros Hlog Hwf Hcr Hlast.
  rewrite universal_newlines_id in Hlog by (by apply git_log_output_no_return).
  rewrite (extract_commits_spec _ _ _ _ Hlog).
  destruct history as [|c rest].
  { unfold loop_entries. cbn. by rewrite warn_nil. }
  apply Forall_cons_1 in Hwf as [Hc Hrest].
  pose proof (commit_record_entry [] c (not_elem_of_nil _) Hc) as Hrec.
  cbn [app] in Hrec.
  assert (loop_entries (git_log_output (c :: rest))
          = entry_fields c :: ((fun c' => nl ++ entry_fields c') <$> rest))
    as ->.
  { unfold loop_entries. rewrite git_log_output_body, strip_body.
    - apply (split_body [] c rest); [apply not_elem_of_nil|].
      constructor; [by apply entry_fields_no_RS|].
      eapply Forall_impl; [exact Hrest|]. apply entry_fields_no_RS.
    - destruct Hc as ([Hne Hsha] & _). unfold entry_fields.
      destruct (c_sha c) as [|x sha]; [done|].
      apply Forall_cons_1 in Hsha as [Hx _]. by eexists x, _.
    - by apply (body_ends_printable [] c rest). }
  assert (Forall (fun e => blank e = false /\ is_Some (commit_record e))
            (entry_fields c :: ((fun c' => nl ++ entry_fields c') <$> rest)))
    as Hentries.
  { constructor.
    - split; [by apply (entry_not_blank [])|].
      rewrite Hrec. by eexists.
    - apply Forall_fmap. eapply Forall_impl; [exact Hrest|].
      intros c' Hc'. cbn [compose]. split; [by apply entry_not_blank|].
      rewrite commit_record_entry
        by (try done; apply (bool_decide_unpack _); by vm_compute).
      by eexists. }
  rewrite filter_all by (eapply Forall_impl; [exact Hentries|]; by intros ? [? ?]).
  rewrite filter_none, fmap_nil, warn_nil.
  - cbn [omap list_omap].
    rewrite Hrec. by rewrite omap_next_entries.
  - eapply Forall_impl; [exact Hentries|]. intros e [Hb [doc Hdoc]].
    unfold malformed. rewrite Hb, Hdoc. cbn [negb andb].
    by rewrite bool_decide_eq_false_2.
Qed.

Lemma extract_well_formed_log_witness :
  _extract_commits_with_message host_of_history [py "repo"] empty_world
  = (Done (commit_docs sample_history), empty_world).
Proof.
  apply (extract_well_formed_log host_of_history [py "repo"] sample_history
           empty_world).
  - reflexivity.
  - repeat constructor; unfold well_formed, printable, no_separator;
      apply (bool_decide_unpack _); by vm_compute.
  - repeat constructor; unfold no_return; apply (bool_decide_unpack _);
      by vm_compute.
  - intros c Hc. cbn in Hc. injection Hc as <-.
    exists (py "Initial commi"), 0x74%N. split; by vm_compute.
Defined.

(** ** Outcomes of [prepare] *)

Lemma get_embeddings_any_world h provider model w w' :
  (_get_embeddings h provider model w).1 = (_get_embeddings h provider model w').1.
Proof.
  unfold _get_embeddings. repeat case_bool_decide; try done.
  unfold mbind, M_bind.
  destruct (not_key (getenv h (py "OPENAI_API_KEY"))) eqn:Hkey.
  - by rewrite !get_api_key_openai_unset.
  - by rewrite !get_api_key_openai_set.
Qed.

(** X4. [prepare] succeeds exactly when the folder has a [.git] entry, both
    git commands succeed, the embedding provider can be built and Chroma
    indexes the extracted documents; malformed log entries never make it
    fail.  Every other run ends with exit status 1. *)
Theorem prepare_succeeds_iff h folder provider model w :
  ((prepare h folder provider model w).1 = Done () <->
   path_exists h (path_div folder (py ".git")) = true
   /\ is_Some (git_rev_parse h folder)
   /\ exists raw e,
        git_log h folder = Some raw
        /\ (_get_embeddings h provider model w).1 = Done e
        /\ chroma_from_documents h
             (omap commit_record
                (filter (fun entry => blank entry = false) (loop_entries raw)))
             e (path_str (_get_embeddings_store_paths h folder).2)
           = Some ())
  /\ ((prepare h folder provider model w).1 = Done ()
      \/ exit_code (prepare h folder provider model w).1 = 1).
Proof.
  rewrite prepare_spec.
  destruct (path_exists h (path_div folder (py ".git"))); cbn [negb];
    [|split; [split; [done|by intros [? _]]|by right]].
  destruct (git_rev_parse h folder) as [out|];
    [|split; [split; [done|by intros (_ & [? ?] & _)]|by right]].
  cbn zeta.
  match goal with |- context [_extract_commits_with_message h folder ?w1] =>
    destruct (extract_outcome h folder w1) as [(raw & Hlog & ->)|[Hlog ->]]
  end; [|split; [split; [done|]|by right]].
  2:{ intros (_ & _ & raw & e & Hraw & _). congruence. }
  match goal with |- context [_get_embeddings h provider model ?w2] =>
    pose proof (get_embeddings_any_world h provider model w2 w) as Hsame;
    destruct (get_embeddings_outcome h provider model w2) as [[e He]|[text He]]
  end; rewrite He in Hsame |- *; cbn [fst] in Hsame.
  2:{ split; [split; [done|]|by right].
      intros (_ & _ & raw' & e & _ & He' & _). congruence. }
  destruct (chroma_from_documents h _ e _) as [[]|] eqn:Hchroma.
  - split; [|by left]. split; [|done]. intros _.
    split; [done|]. split; [by eexists|]. by exists raw, e.
  - split; [split; [done|]|by right].
    intros (_ & _ & raw' & e' & Hraw' & He' & Hchroma').
    assert (raw' = raw) as -> by congruence.
    assert (e' = e) as -> by congruence. congruence.
Qed.

Lemma prepare_succeeds_iff_witness :
  (prepare host1 [py "repo"] (py "hf") (py "bge") empty_world).1 = Done ()
  /\ exit_code (prepare host1 [py "elsewhere"] (py "hf") (py "bge") empty_world).1
     = 1.
Proof.
  split.
  - apply (prepare_succeeds_iff host1 [py "repo"] (py "hf") (py "bge") empty_world).
    split; [by vm_compute|]. split; [by eexists|].
    exists sample_log, (HuggingFaceEmbeddings (py "bge")).
    repeat split; by vm_compute.
  - destruct (prepare_succeeds_iff host1 [py "elsewhere"] (py "hf") (py "bge")
                empty_world) as [_ [Hdone|Hexit]]; [|exact Hexit].
    vm_compute in Hdone. discriminate Hdone.
Defined.

(** X5. The metadata file is written last.  A [prepare] run that does not
    end normally writes no metadata file: no file named
    [*-embeddings-*.json] is created or changed in [.tmp] (what Chroma
    leaves in its own directory when it fails is not covered).  A run that
    ends normally has asked Chroma exactly once to index the documents, and
    the metadata file it then writes records the directory and the provider
    of that request. *)
Theorem prepare_writes_metadata_last h folder provider model w :
  let run := prepare h folder provider model w in
  let dir := path_str (_get_embeddings_store_paths h folder).2 in
  (run.1 <> Done () ->
   metadata_files run.2 = metadata_files w
   /\ forall p, p ∈ metadata_files w -> files run.2 !! p = files w !! p)
  /\ (run.1 = Done () ->
      exists docs e items,
        calls run.2 = calls w ++ [FromDocuments docs e dir]
        /\ chroma_from_documents h docs e dir = Some ()
        /\ (_get_embeddings h provider model w).1 = Done e
        /\ files run.2 !! embed_path h folder = Some (JsonText (JDict items))
        /\ dict_get items (py "chroma_dir") = Some (JStr dir)
        /\ dict_get items (py "provider") = Some (JStr provider)).
Proof.
  cbn zeta.
  assert (forall (r : result ()) w1,
            files w1 = files w ->
            (r, w1).1 <> Done () ->
            metadata_files (r, w1).2 = metadata_files w
            /\ forall p, p ∈ metadata_files w ->
                 files (r, w1).2 !! p = files w !! p) as Hsame_files.
  { intros r w1 Hfiles _. cbn [snd]. unfold metadata_files. by rewrite Hfiles. }
  rewrite prepare_spec.
  destruct (negb (path_exists h (path_div folder (py ".git"))));
    [split; [by apply Hsame_files|done]|].
  destruct (git_rev_parse h folder) as [out|];
    [|split; [by apply Hsame_files|done]].
  cbn zeta.
  match goal with |- context [_extract_commits_with_message h folder ?w1] =>
    destruct (extract_outcome h folder w1) as [(raw & Hlog & ->)|[Hlog ->]]
  end; [|split; [by apply Hsame_files|done]].
  match goal with |- context [_get_embeddings h provider model ?w2] =>
    pose proof (get_embeddings_any_world h provider model w2 w) as Hsame;
    destruct (get_embeddings_outcome h provider model w2) as [[e He]|[text He]]
  end; rewrite He in Hsame |- *; cbn [fst] in Hsame;
    [|split; [by apply Hsame_files|done]].
  destruct (chroma_from_documents h _ e _) as [[]|] eqn:Hchroma;
    [|split; [by apply Hsame_files|done]].
  split; [done|]. intros _. eexists _, e, _.
  cbn [fst snd files calls called warn].
  split; [reflexivity|]. split; [exact Hchroma|]. split; [done|].
  split; [apply lookup_insert_eq|]. split; reflexivity.
Qed.

Lemma prepare_writes_metadata_last_witness :
  metadata_files
    (prepare host1 [py "elsewhere"] (py "hf") (py "bge") two_files_world).2
  = metadata_files two_files_world
  /\ exists docs e items,
       calls (prepare host1 [py "repo"] (py "hf") (py "bge") empty_world).2
       = calls empty_world
         ++ [FromDocuments docs e
               (path_str (_get_embeddings_store_paths host1 [py "repo"]).2)]
       /\ chroma_from_documents host1 docs e
            (path_str (_get_embeddings_store_paths host1 [py "repo"]).2)
          = Some ()
       /\ (_get_embeddings host1 (py "hf") (py "bge") empty_world).1 = Done e
       /\ files (prepare host1 [py "repo"] (py "hf") (py "bge") empty_world).2
            !! embed_path host1 [py "repo"]
          = Some (JsonText (JDict items))
       /\ dict_get items (py "chroma_dir")
          = Some (JStr (path_str (_get_embeddings_store_paths host1 [py "repo"]).2))
       /\ dict_get items (py "provider") = Some (JStr (py "hf")).
Proof.
  split.
  - apply (prepare_writes_metadata_last host1 [py "elsewhere"] (py "hf") (py "bge")
             two_files_world).
    vm_compute. discriminate.
  - apply (prepare_writes_metadata_last host1 [py "repo"] (py "hf") (py "bge")
             empty_world).
    vm_compute. reflexivity.
Defined.

(** ** The two paths of a [prepare] run *)

Lemma path_str_child dir name :
  ~ is_anchor dir -> path_str [dir; name] = dir ++ py "/" ++ name.
Proof.
  intros Hdir. unfold path_str. by rewrite bool_decide_eq_false_2.
Qed.

Lemma store_paths_chroma_dir h folder :
  (_get_embeddings_store_paths h folder).2
  = [py ".tmp"; py ".git_gpt_chroma_db_" ++ strftime_YmdHMS (now_utc h)].
Proof.
  unfold _get_embeddings_store_paths. cbn [snd].
  change (root_dir ++ py "/.git_gpt_chroma_db_" ++ strftime_YmdHMS (now_utc h))
    with (root_dir ++ py "/"
          ++ (py ".git_gpt_chroma_db_" ++ strftime_YmdHMS (now_utc h))).
  apply Path_of_child.
  - apply not_elem_of_app. split; [|apply strftime_no_slash].
    apply (bool_decide_unpack _). by vm_compute.
  - rewrite length_app, strftime_length.
    change (length (py ".git_gpt_chroma_db_")) with 19%nat. lia.
Qed.

Lemma chroma_dir_str h folder :
  path_str (_get_embeddings_store_paths h folder).2
  = py ".tmp/.git_gpt_chroma_db_" ++ strftime_YmdHMS (now_utc h).
Proof.
  rewrite store_paths_chroma_dir, path_str_child by (by intros [|]).
  reflexivity.
Qed.

Lemma prepare_done_calls h folder provider model w w' :
  prepare h folder provider model w = (Done (), w') ->
  exists docs e,
    calls w'
    = calls w
      ++ [FromDocuments docs e
            (py ".tmp/.git_gpt_chroma_db_" ++ strftime_YmdHMS (now_utc h))].
Proof.
  intros Hrun. rewrite prepare_spec in Hrun.
  destruct (negb (path_exists h (path_div folder (py ".git")))); [done|].
  destruct (git_rev_parse h folder) as [out|]; [|done].
  cbn zeta in Hrun.
  match type of Hrun with context [_extract_commits_with_message h folder ?w1] =>
    destruct (extract_outcome h folder w1) as [(raw & Hlog & Hx)|[Hlog Hx]]
  end; rewrite Hx in Hrun; [|done].
  match type of Hrun with context [_get_embeddings h provider model ?w2] =>
    destruct (get_embeddings_outcome h provider model w2) as [[e He]|[text He]]
  end; rewrite He in Hrun; [|done].
  destruct (chroma_from_documents h _ e _) as [[]|]; [|done].
  apply (f_equal snd) in Hrun. cbn [snd] in Hrun. subst w'.
  cbn [calls called warn]. rewrite chroma_dir_str. by eexists _, _.
Qed.

(** X6. The vector store directory depends on the second of the run and on
    nothing else.  Two successful [prepare] runs, one after the other, each
    ask Chroma once to index into [.tmp/.git_gpt_chroma_db_<timestamp>];
    the two directories are the same exactly when the two timestamps are,
    whatever the folders. *)
Theorem prepare_runs_share_store_iff_same_second
    h1 folder1 provider1 model1 h2 folder2 provider2 model2 w w1 w2 :
  prepare h1 folder1 provider1 model1 w = (Done (), w1) ->
  prepare h2 folder2 provider2 model2 w1 = (Done (), w2) ->
  exists docs1 e1 dir1 docs2 e2 dir2,
    calls w2
    = calls w ++ [FromDocuments docs1 e1 dir1; FromDocuments docs2 e2 dir2]
    /\ dir1 = py ".tmp/.git_gpt_chroma_db_" ++ strftime_YmdHMS (now_utc h1)
    /\ dir2 = py ".tmp/.git_gpt_chroma_db_" ++ strftime_YmdHMS (now_utc h2)
    /\ (dir1 = dir2 <->
        strftime_YmdHMS (now_utc h1) = strftime_YmdHMS (now_utc h2)).
Proof.
  intros (docs1 & e1 & Hc1)%prepare_done_calls (docs2 & e2 & Hc2)%prepare_done_calls.
  eexists docs1, e1, _, docs2, e2, _.
  split; [|split; [reflexivity|split; [reflexivity|]]].
  - rewrite Hc2, Hc1, <- app_assoc. reflexivity.
  - split; [|by intros ->]. by intros ?%app_inv_head.
Qed.

Lemma run_done {A : Type} (run : result A * World) (a : A) :
  run.1 = Done a -> run = (Done a, run.2).
Proof. destruct run as [r w]. cbn [fst snd]. by intros ->. Qed.

Lemma prepare_runs_share_store_iff_same_second_witness :
  exists docs1 e1 dir1 docs2 e2 dir2,
    calls (run_prepares [run_alpha; run_beta] empty_world)
    = calls empty_world
      ++ [FromDocuments docs1 e1 dir1; FromDocuments docs2 e2 dir2]
    /\ dir1 = py ".tmp/.git_gpt_chroma_db_"
              ++ strftime_YmdHMS (now_utc (run_host run_alpha))
    /\ dir2 = py ".tmp/.git_gpt_chroma_db_"
              ++ strftime_YmdHMS (now_utc (run_host run_beta))
    /\ (dir1 = dir2 <->
        strftime_YmdHMS (now_utc (run_host run_alpha))
        = strftime_YmdHMS (now_utc (run_host run_beta))).
Proof.
  apply (prepare_runs_share_store_iff_same_second
           (run_host run_alpha) (run_folder run_alpha) (run_provider run_alpha)
           (run_model run_alpha)
           (run_host run_beta) (run_folder run_beta) (run_provider run_beta)
           (run_model run_beta)
           empty_world (run_prepares [run_alpha] empty_world)).
  - apply run_done. vm_compute. reflexivity.
  - apply run_done. vm_compute. reflexivity.
Defined.

(** ** What [search] does and does not do *)

(** X9. The calls of a [search] run.  Every run asks Chroma for at most one
    similarity search -- for the query and the limit of the command line --
    and calls the chat model at most once, after the similarity search and
    only with [--summarize]; it makes no other call. *)
Theorem search_makes_at_most_two_calls directories h query provider model
    summarize llm_provider llm_model k w :
  exists new,
    calls (search directories h query provider model summarize llm_provider
             llm_model k w).2
    = calls w ++ new
    /\ (new = []
        \/ (exists dir e, new = [SimilaritySearch dir e query k])
        \/ (summarize = true
            /\ exists dir e llm prompt,
                 new = [SimilaritySearch dir e query k; Invoke llm prompt])).
Proof.
  rewrite search_unfold.
  assert (forall (r : result ()) text,
            exists new,
              calls (r, complain w text).2 = calls w ++ new
              /\ (new = []
                  \/ (exists dir e, new = [SimilaritySearch dir e query k])
                  \/ (summarize = true
                      /\ exists dir e llm prompt,
                           new = [SimilaritySearch dir e query k;
                                  Invoke llm prompt]))) as Hcomplain.
  { intros r text. exists []. split; [|by left]. cbn. by rewrite app_nil_r. }
  assert (forall (r : result ()),
            exists new,
              calls (r, w).2 = calls w ++ new
              /\ (new = []
                  \/ (exists dir e, new = [SimilaritySearch dir e query k])
                  \/ (summarize = true
                      /\ exists dir e llm prompt,
                           new = [SimilaritySearch dir e query k;
                                  Invoke llm prompt]))) as Hsame.
  { intros r. exists []. split; [|by left]. cbn. by rewrite app_nil_r. }
  destruct (200 <? length query)%nat; [apply Hcomplain|].
  case_bool_decide; [apply Hcomplain|].
  destruct (last (sorted (metadata_entries directories w))) as [latest|];
    [|apply Hsame].
  destruct (files w !! latest) as [[data|text]|]; [|apply Hsame..].
  destruct data as [| | | | |items]; try apply Hsame.
  destruct (dict_get items (py "chroma_dir")) as [dir|]; [|apply Hsame].
  rewrite search_in_spec.
  destruct (get_embeddings_outcome h provider model w) as [[e ->]|[text ->]];
    [|apply Hcomplain].
  cbn zeta.
  destruct (chroma_similarity_search h dir e query k) as [docs|].
  2:{ eexists [_]. split; [done|]. right. left. by eexists _, _. }
  match goal with |- context [format_results docs [] ?w1] =>
    destruct (format_results_frame docs [] w1) as (_ & _ & Hc);
    destruct (format_results docs [] w1) as [[commits|code|x] w2]
  end; cbn [fst snd files calls called warn] in Hc |- *.
  2,3: eexists [_]; (split; [cbn [snd]; by rewrite Hc|]);
       right; left; by eexists _, _.
  destruct summarize.
  2:{ eexists [_]. split; [cbn [snd]; by rewrite Hc|].
      right. left. by eexists _, _. }
  rewrite summarize_commits_spec.
  destruct (get_llm_provider_outcome h llm_provider llm_model w2)
    as [[llm ->]|[text ->]].
  - cbn zeta. destruct (llm_invoke h llm _);
      eexists [_; _];
      (split; [cbn [snd calls called warn]; by rewrite Hc, <- app_assoc|]);
      right; right; (split; [done|]); by eexists _, _, _, _.
  - eexists [_].
    split; [cbn [snd calls complain]; by rewrite Hc|].
    right. left. by eexists _, _.
Qed.

(** X10. [search] does not fall back to an older metadata file.  When the
    entry of [.tmp] with the greatest name among those named
    [*-embeddings-*.json] is a directory, is a file that is not JSON or not
    a JSON object, or is an object without [chroma_dir], the run ends with
    the exception of that step -- IsADirectoryError, JSONDecodeError,
    TypeError, KeyError -- without output and without any call to Chroma,
    whatever the other metadata files hold. *)
Theorem search_fails_on_bad_latest_file directories h query provider model
    summarize llm_provider llm_model k w latest :
  (length query <= 200)%nat ->
  latest ∈ metadata_entries directories w ->
  (forall p, p ∈ metadata_entries directories w ->
     str_le (path_name p) (path_name latest)) ->
  let run :=
    search directories h query provider model summarize llm_provider llm_model
      k w in
  (files w !! latest = None -> run = (Raised IsADirectoryError, w))
  /\ (forall text, files w !! latest = Some (OtherText text) ->
        run = (Raised JSONDecodeError, w))
  /\ (forall j, files w !! latest = Some (JsonText j) ->
        (forall items, j <> JDict items) ->
        run = (Raised TypeError, w))
  /\ (forall items, files w !! latest = Some (JsonText (JDict items)) ->
        dict_get items (py "chroma_dir") = None ->
        run = (Raised (KeyError (py "chroma_dir")), w)).
Proof.
  intros Hlen Hin Hmax. cbn zeta.
  rewrite (search_latest _ _ _ _ _ _ _ _ _ _ latest Hlen Hin Hmax).
  split; [|split; [|split]].
  - by intros ->.
  - by intros text ->.
  - intros j -> Hj. destruct j as [| | | | |items]; try done. by destruct (Hj items).
  - by intros items -> ->.
Qed.

Lemma search_fails_on_bad_latest_file_witness :
  search [] host1 (py "parser") (py "hf") (py "bge") false (py "openai") (py "gpt")
    5 broken_world
  = (Raised JSONDecodeError, broken_world)
  /\ search [zz_directory] host1 (py "parser") (py "hf") (py "bge") false
       (py "openai") (py "gpt") 5 two_files_world
     = (Raised IsADirectoryError, two_files_world).
Proof.
  split.
  - assert (metadata_entries [] broken_world = [broken_file; zeta_file; alpha_file])
      as Hfiles by (vm_compute; reflexivity).
    destruct (search_fails_on_bad_latest_file [] host1 (py "parser") (py "hf")
                (py "bge") false (py "openai") (py "gpt") 5 broken_world
                broken_file) as (_ & Hother & _).
    + vm_compute. lia.
    + rewrite Hfiles. apply elem_of_cons. by left.
    + intros p Hp. rewrite Hfiles in Hp.
      apply elem_of_cons in Hp as [->|Hp]; [by vm_compute|].
      apply elem_of_cons in Hp as [->|Hp]; [by vm_compute|].
      apply list_elem_of_singleton in Hp as ->. by vm_compute.
    + apply (Hother (py "{")). vm_compute. reflexivity.
  - assert (metadata_entries [zz_directory] two_files_world
            = [zeta_file; alpha_file; zz_directory])
      as Hfiles by (vm_compute; reflexivity).
    destruct (search_fails_on_bad_latest_file [zz_directory] host1 (py "parser")
                (py "hf") (py "bge") false (py "openai") (py "gpt") 5
                two_files_world zz_directory) as (Hdir & _).
    + vm_compute. lia.
    + rewrite Hfiles. do 2 (apply elem_of_cons; right).
      by apply list_elem_of_singleton.
    + intros p Hp. rewrite Hfiles in Hp.
      apply elem_of_cons in Hp as [->|Hp]; [by vm_compute|].
      apply elem_of_cons in Hp as [->|Hp]; [by vm_compute|].
      apply list_elem_of_singleton in Hp as ->. by vm_compute.
    + apply Hdir. vm_compute. reflexivity.
Defined.

(** ** [prepare], then [search] *)

Lemma prepare_done_inv h folder provider model w w' :
  prepare h folder provider model w = (Done (), w') ->
  exists out raw e,
    let docs :=
      omap commit_record
        (filter (fun entry => blank entry = false) (loop_entries raw)) in
    let dir := py ".tmp/.git_gpt_chroma_db_" ++ strftime_YmdHMS (now_utc h) in
    git_rev_parse h folder = Some out
    /\ git_log h folder = Some raw
    /\ (_get_embeddings h provider model w).1 = Done e
    /\ files w'
       = <[embed_path h folder :=
             JsonText (JDict (prepare_payload h folder provider (strip out) docs))]>
           (files w)
    /\ calls w' = calls w ++ [FromDocuments docs e dir]
    /\ stderr w' = stderr w
    /\ stdout w'
       = stdout w
         ++ [Line (py "Preparing embeddings for branch: " ++ strip out
                   ++ py " at " ++ path_str folder)]
         ++ ((fun entry => SkippingMalformed (split_max US entry 4))
             <$> filter (fun entry => malformed entry = true) (loop_entries raw))
         ++ [Line (check_mark ++ py " Embeddings indexed and stored in "
                   ++ path_str (embed_path h folder))].
Proof.
  intros Hrun. rewrite prepare_spec in Hrun.
  destruct (negb (path_exists h (path_div folder (py ".git")))); [done|].
  destruct (git_rev_parse h folder) as [out|]; [|done].
  cbn zeta in Hrun.
  match type of Hrun with context [_extract_commits_with_message h folder ?w1] =>
    destruct (extract_outcome h folder w1) as [(raw & Hlog & Hx)|[Hlog Hx]]
  end; rewrite Hx in Hrun; [|done].
  match type of Hrun with context [_get_embeddings h provider model ?w2] =>
    pose proof (get_embeddings_any_world h provider model w2 w) as Hsame;
    destruct (get_embeddings_outcome h provider model w2) as [[e He]|[text He]]
  end; rewrite He in Hrun, Hsame; cbn [fst] in Hsame; [|done].
  destruct (chroma_from_documents h _ e _) as [[]|]; [|done].
  apply (f_equal snd) in Hrun. cbn [snd] in Hrun. subst w'.
  exists out, raw, e. cbn zeta. cbn [files calls stdout stderr called warn].
  rewrite chroma_dir_str.
  repeat split; try done. by rewrite <- !app_assoc.
Qed.

Lemma metadata_files_insert w w' name x :
  glob_match (glob_pattern (py "*-embeddings-*.json")) name = true ->
  files w' = <[[py ".tmp"; name] := x]> (files w) ->
  forall q, q ∈ metadata_files w' <-> q = [py ".tmp"; name] \/ q ∈ metadata_files w.
Proof.
  intros Hmatch Hfiles q. rewrite !elem_of_metadata_files, Hfiles, root_path.
  cbn [app]. split.
  - intros (n & -> & Hn & Hsome).
    destruct (decide (n = name)) as [->|Hne]; [by left|right].
    exists n. rewrite lookup_insert_ne in Hsome by congruence. done.
  - intros [->|(n & -> & Hn & Hsome)].
    + exists name. rewrite lookup_insert_eq. split; [done|]. split; [done|by eexists].
    + exists n. split; [done|]. split; [done|].
      destruct (decide (n = name)) as [->|Hne].
      * rewrite lookup_insert_eq. by eexists.
      * by rewrite lookup_insert_ne by congruence.
Qed.

Lemma metadata_entries_insert directories w w' name x :
  glob_match (glob_pattern (py "*-embeddings-*.json")) name = true ->
  files w' = <[[py ".tmp"; name] := x]> (files w) ->
  forall q,
    q ∈ metadata_entries directories w'
    <-> q = [py ".tmp"; name] \/ q ∈ metadata_entries directories w.
Proof.
  intros Hmatch Hfiles q. rewrite !metadata_entries_app, !elem_of_app.
  rewrite (metadata_files_insert w w' name x Hmatch Hfiles q).
  split; [intros [[?|?]|?]|intros [?|[?|?]]]; auto.
Qed.

Lemma latest_entry_insert directories w w' name x :
  glob_match (glob_pattern (py "*-embeddings-*.json")) name = true ->
  files w' = <[[py ".tmp"; name] := x]> (files w) ->
  latest_entry directories w'
  = Some match latest_entry directories w with
         | Some old =>
             if bool_decide (str_le (path_name old) name)
             then [py ".tmp"; name] else old
         | None => [py ".tmp"; name]
         end.
Proof.
  intros Hmatch Hfiles.
  pose proof (metadata_entries_insert directories w w' name x Hmatch Hfiles) as Hin.
  assert ([py ".tmp"; name] ∈ metadata_entries directories w') as Hnew
    by (apply Hin; by left).
  unfold latest_entry.
  destruct (last (sorted (metadata_entries directories w))) as [old|] eqn:Hold.
  - apply sorted_last_upper in Hold as [Hold Hupper].
    assert (old ∈ metadata_entries directories w') as Hold' by (apply Hin; by right).
    pose proof (metadata_entry_name _ _ _ Hold) as Hname.
    case_bool_decide as Hle.
    + apply sorted_last_greatest; [done|].
      intros q [->|Hq]%Hin; [apply path_leb_refl|].
      trans old; [by apply Hupper|].
      eapply metadata_entries_le; [done..|]. by rewrite path_name_child.
    + apply sorted_last_greatest; [done|].
      intros q [->|Hq]%Hin; [|by apply Hupper].
      destruct (total path_le [py ".tmp"; name] old) as [Hno|Hon]; [done|].
      destruct Hle. remember (path_name old) as n eqn:Hn. subst old.
      unfold path_le in Hon. cbn [path_leb] in Hon.
      rewrite bool_decide_eq_true_2 in Hon by done.
      case_bool_decide as Heq; [rewrite Heq; apply str_leb_refl|done].
  - apply last_None in Hold.
    pose proof (merge_sort_Permutation path_le (metadata_entries directories w))
      as Hperm.
    fold (sorted (metadata_entries directories w)) in Hperm.
    rewrite Hold in Hperm. apply Permutation_nil_l in Hperm.
    apply sorted_last_greatest; [done|].
    intros q [->|Hq]%Hin; [apply path_leb_refl|].
    rewrite <- Hperm in Hq. by apply elem_of_nil in Hq.
Qed.

Lemma dict_get_payload h folder provider branch docs :
  dict_get (prepare_payload h folder provider branch docs) (py "chroma_dir")
  = Some (JStr (py ".tmp/.git_gpt_chroma_db_" ++ strftime_YmdHMS (now_utc h)))
  /\ dict_get (prepare_payload h folder provider branch docs) (py "provider")
     = Some (JStr provider).
Proof. rewrite <- chroma_dir_str with (folder := folder). by split. Qed.

(** After a successful [prepare] whose metadata file has the greatest name,
    [search] goes on from the directory that [prepare] recorded. *)
Lemma search_after_prepare directories h folder provider model w w' h2 query
    provider2 model2 summarize llm_provider llm_model k :
  prepare h folder provider model w = (Done (), w') ->
  (forall p, p ∈ metadata_entries directories w ->
     str_le (path_name p) (path_name (embed_path h folder))) ->
  (length query <= 200)%nat ->
  search directories h2 query provider2 model2 summarize llm_provider llm_model
    k w'
  = search_in h2 query provider2 model2 summarize llm_provider llm_model k
      (JStr (py ".tmp/.git_gpt_chroma_db_" ++ strftime_YmdHMS (now_utc h))) w'.
Proof.
  intros (out & raw & e1 & _ & _ & _ & Hfiles & _)%prepare_done_inv Hmax Hlen.
  cbn zeta in Hfiles.
  pose proof (metadata_entries_insert directories w w'
    (embed_name (node_name h folder) (strftime_YmdHMS (now_utc h))) _
    (glob_match_embed_name _ _) Hfiles) as Hin.
  fold (embed_path h folder) in Hin.
  rewrite (search_latest _ _ _ _ _ _ _ _ _ _ (embed_path h folder) Hlen).
  - rewrite Hfiles, lookup_insert_eq.
    by rewrite (proj1 (dict_get_payload _ _ _ _ _)).
  - apply Hin. by left.
  - intros p [->|Hp]%Hin; [apply str_leb_refl|by apply Hmax].
Qed.

(** X8. Which index [search] uses after a [prepare].  [search] takes the
    entry of [.tmp] with the greatest name among those named
    [*-embeddings-*.json], files and directories alike.  After a successful
    [prepare] that entry is the new metadata file when its name is at least
    the name of the entry taken before (or there was none), and the entry
    taken before otherwise: an index prepared later under a smaller name is
    never searched. *)
Theorem latest_entry_after_prepare directories h folder provider model w w' :
  prepare h folder provider model w = (Done (), w') ->
  latest_entry directories w'
  = Some match latest_entry directories w with
         | Some old =>
             if bool_decide (str_le (path_name old)
                               (path_name (embed_path h folder)))
             then embed_path h folder else old
         | None => embed_path h folder
         end.
Proof.
  intros (out & raw & e & _ & _ & _ & Hfiles & _)%prepare_done_inv.
  unfold embed_path in *. rewrite path_name_child.
  eapply latest_entry_insert; [apply glob_match_embed_name|exact Hfiles].
Qed.

Lemma latest_entry_after_prepare_witness :
  latest_entry [zz_directory]
    (prepare host1 [py "repo"] (py "hf") (py "bge") two_files_world).2
  = Some zz_directory.
Proof.
  rewrite (latest_entry_after_prepare [zz_directory] host1 [py "repo"] (py "hf")
             (py "bge") two_files_world
             (prepare host1 [py "repo"] (py "hf") (py "bge") two_files_world).2).
  - vm_compute. reflexivity.
  - apply run_done. vm_compute. reflexivity.
Defined.

(** X7. [prepare], then [search].  When the metadata file of a successful
    [prepare] has the greatest name among the entries of [.tmp] named
    [*-embeddings-*.json] (files and directories), a following [search]
    whose query has at most 200 characters and whose embedding provider can
    be built runs its similarity search against the very directory that
    [prepare] asked Chroma to index into. *)
Theorem search_after_prepare_uses_its_store directories h folder provider model
    w w' h2 query provider2 model2 summarize llm_provider llm_model k e :
  prepare h folder provider model w = (Done (), w') ->
  (forall p, p ∈ metadata_entries directories w ->
     str_le (path_name p) (path_name (embed_path h folder))) ->
  (length query <= 200)%nat ->
  (_get_embeddings h2 provider2 model2 w').1 = Done e ->
  exists docs e1 dir rest,
    calls (search directories h2 query provider2 model2 summarize llm_provider
             llm_model k w').2
    = calls w ++ FromDocuments docs e1 dir
              :: SimilaritySearch (JStr dir) e query k :: rest.
Proof.
  intros Hrun Hmax Hlen Hemb.
  rewrite (search_after_prepare _ _ _ _ _ _ _ _ _ _ _ _ _ _ _ Hrun Hmax Hlen).
  pose proof Hrun as (out & raw & e1 & _ & _ & _ & _ & Hcalls & _)%prepare_done_inv.
  cbn zeta in Hcalls.
  destruct (search_in_calls h2 query provider2 model2 summarize llm_provider
              llm_model k
              (JStr (py ".tmp/.git_gpt_chroma_db_" ++ strftime_YmdHMS (now_utc h)))
              w')
    as [(text & _ & Hexit)|(e' & rest & He' & Hsearch)]; [congruence|].
  assert (e' = e) as -> by congruence.
  rewrite Hsearch, Hcalls, <- app_assoc. by eexists _, e1, _, rest.
Qed.

Lemma search_after_prepare_uses_its_store_witness :
  exists docs e1 dir rest,
    calls (search [] host1 (py "parser") (py "hf") (py "bge") false (py "openai")
             (py "gpt") 5
             (prepare host1 [py "repo"] (py "hf") (py "bge") empty_world).2).2
    = calls empty_world
      ++ FromDocuments docs e1 dir
         :: SimilaritySearch (JStr dir) (HuggingFaceEmbeddings (py "bge"))
              (py "parser") 5 :: rest.
Proof.
  apply (search_after_prepare_uses_its_store [] host1 [py "repo"] (py "hf")
           (py "bge") empty_world).
  - apply run_done. vm_compute. reflexivity.
  - intros p Hp. vm_compute in Hp. by apply elem_of_nil in Hp.
  - vm_compute. lia.
  - vm_compute. reflexivity.
Defined.



(** ** [list_embeddings] *)

#[global] Instance path_ge_total : Total path_ge.
Proof. intros p q. unfold path_ge. destruct (total path_le p q); auto. Qed.

#[global] Instance path_ge_trans : Transitive path_ge.
Proof. intros p q r Hpq Hqr. unfold path_ge in *. by trans q. Qed.

#[global] Instance path_ge_antisym : AntiSymm (=) path_ge.
Proof. intros p q Hpq Hqp. unfold path_ge in *. by apply (anti_symm path_le). Qed.

(** [sorted(paths, reverse=True)] is [sorted(paths)] backwards. *)
Lemma sorted_reverse_sorted paths : sorted_reverse paths = reverse (sorted paths).
Proof.
  apply (Sorted_unique path_ge).
  - apply Sorted_merge_sort, _.
  - apply (Sorted_reverse path_le), Sorted_merge_sort, _.
  - unfold sorted_reverse, sorted.
    by rewrite reverse_Permutation, !merge_sort_Permutation.
Qed.

Lemma show_metadata_spec directories r file w :
  show_metadata directories r file w
  = (match (shown directories r w file).2 with
     | None => Done ()
     | Some e => Raised e
     end,
     warn w (shown directories r w file).1).
Proof.
  unfold show_metadata, shown.
  unfold mbind at 1, M_bind at 1, read_json.
  destruct (files w !! file) as [[data|text]|]; [|by rewrite warn_nil..].
  unfold mbind at 1, M_bind at 1. cbn [echo put_out].
  fold (metadata_header file).
  destruct data as [| | | | |items];
    try (unfold mbind at 1, M_bind at 1; reflexivity).
  unfold metadata_fields. cbn [field_lines json_getitem].
  destruct (dict_get items (py "branch")), (dict_get items (py "created_at")),
    (dict_get items (py "provider")), (dict_get items (py "doc_count")),
    (dict_get items (py "chroma_dir"));
    unfold mbind, M_bind, echo, put_out, warn;
    cbn [from_option mret M_ret raise files stdout stderr calls fst snd fmap
         option_fmap option_map];
    rewrite <- ?app_assoc; reflexivity.
Qed.

Lemma shown_same_files directories r w w' file :
  files w' = files w -> shown directories r w' file = shown directories r w file.
Proof. intros Hfiles. unfold shown. by rewrite Hfiles. Qed.

Lemma listing_nil directories r w : listing directories r w [] = w.
Proof.
  destruct w. unfold listing. cbn. by rewrite !app_nil_r.
Qed.

Lemma listing_cons directories r w w1 file listed :
  files w1 = files w ->
  stdout w1 = stdout w ++ (shown directories r w file).1 ->
  stderr w1
  = stderr w ++ option_list (failure_line r file <$> (shown directories r w file).2) ->
  calls w1 = calls w ->
  listing directories r w1 listed = listing directories r w (file :: listed).
Proof.
  intros Hfiles Hout Herr Hcalls. unfold listing.
  pose proof (fun f => shown_same_files directories r w w1 f Hfiles) as Hshown.
  assert ((fun f => (shown directories r w1 f).1) <$> listed
          = (fun f => (shown directories r w f).1) <$> listed) as ->.
  { apply list_fmap_ext. intros i f _. by rewrite Hshown. }
  assert (omap (fun f => failure_line r f <$> (shown directories r w1 f).2) listed
          = omap (fun f => failure_line r f <$> (shown directories r w f).2) listed) as ->.
  { apply list_omap_ext, Forall_Forall2_diag, Forall_forall.
    intros f _. by rewrite Hshown. }
  rewrite Hfiles, Hout, Herr, Hcalls, fmap_cons. cbn [concat omap list_omap].
  rewrite <- !app_assoc. do 3 f_equal.
  by destruct (failure_line r file <$> (shown directories r w file).2).
Qed.

Lemma list_loop_spec directories r listed w :
  list_loop directories r listed w = (Done (), listing directories r w listed).
Proof.
  revert w. induction listed as [|file listed IH]; intros w.
  - by rewrite listing_nil.
  - cbn [list_loop]. unfold mbind, M_bind, try_except.
    rewrite show_metadata_spec.
    destruct (shown directories r w file) as [lines [e|]] eqn:Hshown; cbn [fst snd];
      cbn [echo_err]; rewrite IH; f_equal; apply listing_cons;
      rewrite ?Hshown; cbn [files stdout stderr calls warn fst snd fmap
                            option_fmap option_map option_list];
      by rewrite ?app_nil_r.
Qed.

Lemma list_embeddings_unfold directories r w :
  list_embeddings directories r w
  = (if bool_decide (metadata_entries directories w = [])
     then (Exit 1, complain w (py "No embeddings found in current directory."))
     else (Done (),
           listing directories r w
             (reverse (sorted (metadata_entries directories w))))).
Proof.
  unfold list_embeddings. unfold mbind at 1, M_bind at 1.
  rewrite glob_metadata_entries.
  case_bool_decide; [done|].
  by rewrite list_loop_spec, sorted_reverse_sorted.
Qed.

(** X12. [list_embeddings] in full.  When [.tmp] has no entry named
    [*-embeddings-*.json], neither a file nor a directory, it reports "No
    embeddings found in current directory." and exits with code 1.
    Otherwise it always ends normally, writes no file and calls no library:
    it goes through these entries by descending name -- starting with the
    entry [search] would load -- and for each prints its block on standard
    output up to the first step that fails, and one "Failed to read" line
    on standard error when a step fails.  An entry that cannot be read -- a
    directory, a file that is not JSON -- does not stop the listing. *)
Theorem list_embeddings_lists_every_entry directories r w :
  list_embeddings directories r w
  = (if bool_decide (metadata_entries directories w = [])
     then (Exit 1, complain w (py "No embeddings found in current directory."))
     else (Done (),
           listing directories r w
             (reverse (sorted (metadata_entries directories w)))))
  /\ head (reverse (sorted (metadata_entries directories w)))
     = latest_entry directories w
  /\ (forall d, files w !! d = None -> d ∈ directories ->
        shown directories r w d = ([], Some IsADirectoryError)).
Proof.
  split; [apply list_embeddings_unfold|]. split; [apply head_reverse|].
  intros d Hnone Hdir. unfold shown. rewrite Hnone.
  by rewrite bool_decide_eq_true_2.
Qed.

Lemma list_embeddings_lists_every_entry_witness :
  list_embeddings [zz_directory] plain_rendering empty_world
  = (Done (),
     complain empty_world
       (nl ++ warning_sign ++ py "  Failed to read zz-embeddings-dir.json: error")).
Proof.
  destruct (list_embeddings_lists_every_entry [zz_directory] plain_rendering
              empty_world) as (Hrun & _ & Hdir).
  rewrite Hrun.
  change (metadata_entries [zz_directory] empty_world) with [zz_directory].
  rewrite bool_decide_eq_false_2 by done.
  change (reverse (sorted [zz_directory])) with [zz_directory].
  unfold listing. cbn [fmap list_fmap omap list_omap concat].
  rewrite (Hdir zz_directory); [reflexivity|apply lookup_empty|].
  by apply list_elem_of_singleton.
Defined.

(** X13. A metadata file is listed in full exactly when it holds a JSON
    object with the keys branch, created_at, provider, doc_count and
    chroma_dir (the key path is not needed); its block then has the header
    and five lines.  In every other case the block stops early with the
    exception of the failing step. *)
Theorem metadata_block_complete_iff directories r file w :
  ((show_metadata directories r file w).1 = Done () <->
   exists items,
     files w !! file = Some (JsonText (JDict items))
     /\ Forall (fun key => is_Some (dict_get items key))
          [py "branch"; py "created_at"; py "provider"; py "doc_count";
           py "chroma_dir"])
  /\ ((show_metadata directories r file w).1 = Done () ->
      exists lines,
        length lines = 6%nat
        /\ (show_metadata directories r file w).2 = warn w lines)
  /\ ((show_metadata directories r file w).1 <> Done () ->
      exists e lines,
        (length lines < 6)%nat
        /\ show_metadata directories r file w = (Raised e, warn w lines)).
Proof.
  rewrite show_metadata_spec. unfold shown.
  destruct (files w !! file) as [[data|text]|]; cbn [fst snd].
  2,3: split; [split; [done|by intros (? & ? & _)]|];
       (split; [done|]); intros _; eexists _, []; split; [cbn; lia|done].
  destruct data as [| | | | |items].
  1-5: split; [split; [done|intros (? & ? & _); congruence]|];
       (split; [done|]); intros _; eexists _, [_]; split; [cbn; lia|done].
  unfold metadata_fields. cbn [field_lines].
  destruct (dict_get items (py "branch")) as [v1|] eqn:H1,
    (dict_get items (py "created_at")) as [v2|] eqn:H2,
    (dict_get items (py "provider")) as [v3|] eqn:H3,
    (dict_get items (py "doc_count")) as [v4|] eqn:H4,
    (dict_get items (py "chroma_dir")) as [v5|] eqn:H5;
    cbn [fst snd fmap option_fmap option_map].
  1:{ split; [|split; [|done]].
      - split; [|done]. intros _. exists items. split; [done|].
        repeat constructor; by eexists.
      - intros _. by eexists [_; _; _; _; _; _]. }
  all: split;
    [split; [done|];
     intros (items' & [= <-] & Hall);
     repeat (apply Forall_cons_1 in Hall as [[? ?] Hall]; try congruence)|];
    (split; [done|]); intros _; eexists _, _; (split; [|reflexivity]); cbn; lia.
Qed.

Lemma metadata_block_complete_iff_witness :
  (show_metadata [] plain_rendering zeta_file two_files_world).1 = Done ().
Proof.
  apply (proj1 (metadata_block_complete_iff [] plain_rendering zeta_file
                  two_files_world)).
  exists (sample_items (py "openai") (py "20240101000000")).
  split; [vm_compute; reflexivity|].
  repeat constructor; vm_compute; eauto.
Defined.

Lemma metadata_files_singleton w p :
  (forall q, q ∈ metadata_files w <-> q = p) -> metadata_files w = [p].
Proof.
  intros Hin. apply Permutation_singleton_r, NoDup_Permutation.
  - apply NoDup_filter, NoDup_fst_map_to_list.
  - apply NoDup_singleton.
  - intros q. rewrite Hin. by rewrite list_elem_of_singleton.
Qed.

Lemma prepare_payload_lines r h folder provider branch docs :
  field_lines r (prepare_payload h folder provider branch docs) metadata_fields
  = ([Line (py "  Branch      : " ++ branch);
      Line (py "  Created at  : " ++ utcnow_isoformat h ++ py "Z");
      Line (py "  Provider    : " ++ provider);
      Line (py "  Doc count   : " ++ str_of_Z (Z.of_nat (length docs)));
      Line (py "  Chroma dir  : "
            ++ path_str (_get_embeddings_store_paths h folder).2)],
     None).
Proof. reflexivity. Qed.

(** X14. [prepare], then [list_embeddings].  After a successful [prepare]
    in a store where [.tmp] had no entry named [*-embeddings-*.json]
    (neither a file nor a directory), [list_embeddings] ends normally
    and prints exactly one block: the name of the new file, the branch
    that [git rev-parse] reported (stripped), the creation time with its
    "Z", the provider given on the command line, the number of commit
    documents extracted, and the Chroma directory
    .tmp/.git_gpt_chroma_db_<timestamp>; nothing goes to standard error. *)
Theorem list_embeddings_after_prepare directories r h folder provider model
    w w' :
  metadata_entries directories w = [] ->
  prepare h folder provider model w = (Done (), w') ->
  exists out docs,
    git_rev_parse h folder = Some out
    /\ (_extract_commits_with_message h folder w).1 = Done docs
    /\ list_embeddings directories r w'
       = (Done (),
          warn w'
            [Line (nl ++ py "Embeddings metadata from "
                   ++ embed_name (node_name h folder) (strftime_YmdHMS (now_utc h))
                   ++ py ":");
             Line (py "  Branch      : " ++ strip out);
             Line (py "  Created at  : " ++ utcnow_isoformat h ++ py "Z");
             Line (py "  Provider    : " ++ provider);
             Line (py "  Doc count   : " ++ str_of_Z (Z.of_nat (length docs)));
             Line (py "  Chroma dir  : " ++ py ".tmp/.git_gpt_chroma_db_"
                   ++ strftime_YmdHMS (now_utc h))]).
Proof.
  intros Hnone Hrun.
  pose proof Hrun as (out & raw & e & Hrev & Hlog & _ & Hfiles & _)%prepare_done_inv.
  cbn zeta in Hfiles.
  eexists out, _. split; [done|]. split.
  { by rewrite (extract_commits_spec _ _ raw) by done. }
  apply metadata_entries_nil in Hnone as [Hnone Hdirs].
  assert (metadata_entries directories w' = [embed_path h folder]) as Hmeta.
  { rewrite (no_metadata_directory_entries _ _ Hdirs).
    apply metadata_files_singleton. intros q.
    unfold embed_path in *.
    rewrite (metadata_files_insert w w' _ _ (glob_match_embed_name _ _) Hfiles).
    rewrite Hnone. split; [intros [->|[]%elem_of_nil]; done|by left]. }
  rewrite list_embeddings_unfold, Hmeta.
  rewrite bool_decide_eq_false_2 by done.
  change (reverse (sorted [embed_path h folder])) with [embed_path h folder].
  unfold listing, shown. cbn [fmap list_fmap omap list_omap concat].
  erewrite (f_equal (fun fs => fs !! embed_path h folder) Hfiles).
  rewrite lookup_insert_eq, prepare_payload_lines.
  cbn [fst snd fmap option_fmap option_map omap list_omap concat].
  rewrite !app_nil_r, chroma_dir_str.
  unfold metadata_header, embed_path. by rewrite path_name_child.
Qed.

Lemma list_embeddings_after_prepare_witness :
  exists out docs,
    git_rev_parse host1 [py "repo"] = Some out
    /\ (_extract_commits_with_message host1 [py "repo"] empty_world).1 = Done docs
    /\ (list_embeddings [] plain_rendering
          (prepare host1 [py "repo"] (py "hf") (py "bge") empty_world).2).1
       = Done ().
Proof.
  destruct (list_embeddings_after_prepare [] plain_rendering host1 [py "repo"]
              (py "hf") (py "bge") empty_world
              (prepare host1 [py "repo"] (py "hf") (py "bge") empty_world).2)
    as (out & docs & Hout & Hdocs & Hlist).
  - vm_compute. reflexivity.
  - apply run_done. vm_compute. reflexivity.
  - exists out, docs. split; [exact Hout|]. split; [exact Hdocs|].
    rewrite Hlist. reflexivity.
Defined.

(** ** [cleanup] *)

Lemma metadata_files_NoDup w : NoDup (metadata_files w).
Proof. apply NoDup_filter, NoDup_fst_map_to_list. Qed.

Lemma metadata_files_present w :
  Forall (fun p => is_Some (files w !! p)) (metadata_files w).
Proof.
  apply Forall_forall. intros p Hp.
  by apply elem_of_metadata_files in Hp as (name & _ & _ & Hsome).
Qed.

Lemma unlink_loop_spec embed_files w :
  NoDup embed_files ->
  Forall (fun p => is_Some (files w !! p)) embed_files ->
  unlink_loop embed_files w
  = (Done (),
     mkWorld
       (filter (fun entry : Path * file_text => entry.1 ∉ embed_files) (files w))
       (stdout w ++ (deleted_line <$> embed_files)) (stderr w) (calls w)).
Proof.
  revert w. induction embed_files as [|f rest IH]; intros w Hnd Hall.
  - cbn [unlink_loop fmap list_fmap mret M_ret]. rewrite app_nil_r.
    rewrite map_filter_id; [by destruct w|].
    intros i x _. apply not_elem_of_nil.
  - apply NoDup_cons in Hnd as [Hf Hnd].
    apply Forall_cons_1 in Hall as [[t Ht] Hall].
    cbn [unlink_loop]. unfold mbind at 1, M_bind at 1, unlink. rewrite Ht.
    unfold mbind at 1, M_bind at 1, echo, put_out.
    cbn [files stdout stderr calls].
    rewrite IH; [|done|].
    + cbn [files stdout stderr calls]. rewrite fmap_cons, <- app_assoc.
      f_equal. f_equal. apply map_eq. intros i. apply option_eq. intros x.
      rewrite !map_lookup_filter_Some, lookup_delete_Some, not_elem_of_cons.
      cbn [fst]. split.
      * intros [[Hne Hi] Hrest]. by repeat split.
      * intros [Hi [Hne Hrest]]. by repeat split.
    + cbn [files]. apply Forall_forall. intros q Hq.
      rewrite lookup_delete_ne by (by intros ->).
      by apply (proj1 (Forall_forall _ _) Hall).
Qed.

Lemma rmtree_loop_spec survives chroma_dirs w :
  rmtree_loop survives chroma_dirs w
  = (Done (),
     mkWorld
       (filter (fun entry : Path * file_text =>
                  survives entry.1 = true
                  \/ Forall (fun d => ~ below d entry.1) chroma_dirs)
               (files w))
       (stdout w ++ (deleted_directory_line <$> chroma_dirs))
       (stderr w) (calls w)).
Proof.
  revert w. induction chroma_dirs as [|d rest IH]; intros w.
  - cbn [rmtree_loop fmap list_fmap mret M_ret]. rewrite app_nil_r.
    rewrite map_filter_id; [by destruct w|].
    intros i x _. right. constructor.
  - cbn [rmtree_loop].
    unfold mbind at 1, M_bind at 1, rmtree_ignore_errors.
    unfold mbind at 1, M_bind at 1, echo, put_out.
    cbn [files stdout stderr calls].
    rewrite IH. cbn [files stdout stderr calls].
    rewrite fmap_cons, <- app_assoc.
    f_equal. f_equal. apply map_eq. intros i. apply option_eq. intros x.
    rewrite !map_lookup_filter_Some. cbn [fst]. rewrite Forall_cons. split.
    + intros [[Hi [Hd|Hs]] [Hs'|Hrest]]; split; try done; by (left + right).
    + intros [Hi [Hs|[Hd Hrest]]]; (split; [split; [done|]|]);
        by (left + right).
Qed.

Lemma cleanup_spec directories survives w :
  no_metadata_directory directories ->
  cleanup directories survives w
  = (Done (),
     mkWorld
       (filter (fun entry : Path * file_text =>
                  survives entry.1 = true
                  \/ Forall (fun d => ~ below d entry.1)
                        (store_entries directories w))
          (filter (fun entry : Path * file_text => entry.1 ∉ metadata_files w)
                  (files w)))
       (stdout w ++ (deleted_line <$> metadata_files w)
        ++ (deleted_directory_line <$> store_entries directories w)
        ++ [Line (check_mark ++ py " Cleanup complete.")])
       (stderr w) (calls w)).
Proof.
  intros Hno. unfold cleanup.
  unfold mbind at 1, M_bind at 1.
  rewrite glob_metadata_entries, (no_metadata_directory_entries _ _ Hno).
  unfold mbind at 1, M_bind at 1, glob.
  fold (store_entries directories w).
  unfold mbind at 1, M_bind at 1.
  rewrite (unlink_loop_spec _ _ (metadata_files_NoDup w) (metadata_files_present w)).
  unfold mbind at 1, M_bind at 1. rewrite rmtree_loop_spec.
  unfold echo, put_out. cbn [files stdout stderr calls].
  by rewrite <- !app_assoc.
Qed.

Lemma cleanup_files directories survives w p x :
  no_metadata_directory directories ->
  files (cleanup directories survives w).2 !! p = Some x <->
  files w !! p = Some x
  /\ (p ∉ metadata_files w)
  /\ (survives p = true
      \/ forall d, d ∈ store_entries directories w -> ~ below d p).
Proof.
  intros Hno. rewrite (cleanup_spec _ _ _ Hno). cbn [snd files].
  rewrite !map_lookup_filter_Some, Forall_forall. cbn [fst]. split.
  - by intros [[Hp Hmeta] Hkept].
  - by intros (Hp & Hmeta & Hkept).
Qed.

Lemma cleanup_no_metadata directories survives w :
  no_metadata_directory directories ->
  metadata_files (cleanup directories survives w).2 = [].
Proof.
  intros Hno. apply elem_of_nil_inv. intros q Hq.
  pose proof Hq as (name & Hname & Hmatch & [x Hx])%elem_of_metadata_files.
  apply (cleanup_files _ _ _ _ _ Hno) in Hx as (Hx & Hmeta & _).
  apply Hmeta, elem_of_metadata_files. by exists name.
Qed.

(** X15. What [cleanup] deletes.  When no directory is named like a metadata
    file, [cleanup] ends normally and only deletes: a file is left, with its
    content, exactly when it is no metadata file of [.tmp] and either lies
    below none of the entries [.tmp/.git_gpt_chroma_db_*] or could not be
    removed.  It prints one "Deleted" line per metadata file, then one
    "Deleted directory" line per such entry -- also for an entry it could
    not remove -- and "Cleanup complete." last; nothing goes to standard
    error and no library is called. *)
Theorem cleanup_deletes_only_its_files directories survives w :
  no_metadata_directory directories ->
  (cleanup directories survives w).1 = Done ()
  /\ (forall p x,
        files (cleanup directories survives w).2 !! p = Some x <->
        files w !! p = Some x
        /\ (p ∉ metadata_files w)
        /\ (survives p = true
            \/ forall d, d ∈ store_entries directories w -> ~ below d p))
  /\ stderr (cleanup directories survives w).2 = stderr w
  /\ calls (cleanup directories survives w).2 = calls w
  /\ exists removed entries,
       removed ≡ₚ metadata_files w
       /\ entries ≡ₚ store_entries directories w
       /\ stdout (cleanup directories survives w).2
          = stdout w ++ (deleted_line <$> removed)
            ++ (deleted_directory_line <$> entries)
            ++ [Line (check_mark ++ py " Cleanup complete.")].
Proof.
  intros Hno. split; [by rewrite (cleanup_spec _ _ _ Hno)|].
  split; [intros p x; by apply cleanup_files|].
  rewrite (cleanup_spec _ _ _ Hno). cbn [snd stdout stderr calls].
  split; [done|]. split; [done|].
  by exists (metadata_files w), (store_entries directories w).
Qed.

Lemma cleanup_deletes_only_its_files_witness :
  (cleanup [store_dir] (fun _ => false) cluttered_world).1 = Done ()
  /\ files (cleanup [store_dir] (fun _ => false) cluttered_world).2
     = {[ notes_file := OtherText (py "remember") ]}.
Proof.
  split.
  - apply (cleanup_deletes_only_its_files [store_dir] (fun _ => false)
             cluttered_world).
    repeat constructor.
  - vm_compute. reflexivity.
Defined.

(** X16. [cleanup], then [search] or [list_embeddings].  When no directory
    is named like a metadata file, no metadata file is left after
    [cleanup]: a following [search] (with a query of at most 200
    characters) reports "No embeddings found. Run 'prepare' first." and a
    following [list_embeddings] reports "No embeddings found in current
    directory."; both exit with code 1, before any provider is built. *)
Theorem cleanup_leaves_nothing_to_search directories survives w
    h query provider model summarize llm_provider llm_model k r :
  no_metadata_directory directories ->
  (length query <= 200)%nat ->
  let w' := (cleanup directories survives w).2 in
  metadata_files w' = []
  /\ search directories h query provider model summarize llm_provider llm_model k w'
     = (Exit 1, complain w' (py "No embeddings found. Run 'prepare' first."))
  /\ list_embeddings directories r w'
     = (Exit 1, complain w' (py "No embeddings found in current directory.")).
Proof.
  intros Hno Hlen w'.
  pose proof (cleanup_no_metadata directories survives w Hno) as Hnone.
  fold w' in Hnone. split; [done|].
  assert (metadata_entries directories w' = []) as Hentries
    by (by rewrite (no_metadata_directory_entries _ _ Hno)).
  split.
  - rewrite search_unfold, (proj2 (Nat.ltb_ge _ _) Hlen).
    by rewrite bool_decide_eq_true_2.
  - rewrite list_embeddings_unfold. by rewrite bool_decide_eq_true_2.
Qed.

Lemma cleanup_leaves_nothing_to_search_witness :
  (search [store_dir] host1 (py "parser") (py "hf") (py "bge") false
     (py "openai") (py "gpt") 5
     (cleanup [store_dir] (fun _ => false) cluttered_world).2).1
  = Exit 1.
Proof.
  destruct (cleanup_leaves_nothing_to_search [store_dir] (fun _ => false)
              cluttered_world host1 (py "parser") (py "hf") (py "bge") false
              (py "openai") (py "gpt") 5 plain_rendering)
    as (_ & Hsearch & _).
  - repeat constructor.
  - vm_compute. lia.
  - rewrite Hsearch. reflexivity.
Defined.

Lemma glob_match_store_name timestamp :
  glob_match (glob_pattern (py ".git_gpt_chroma_db_*"))
    (py ".git_gpt_chroma_db_" ++ timestamp)
  = true.
Proof.
  assert (glob_pattern (py ".git_gpt_chroma_db_*") =
          (Char <$> py ".git_gpt_chroma_db_") ++ [Star]) as -> by (by vm_compute).
  rewrite glob_match_chars.
  rewrite <- (app_nil_r timestamp). by apply glob_match_star_skip.
Qed.

(** X17. [prepare], then [cleanup].  Take a successful [prepare], any
    files that Chroma persisted below the directory it was given, and a
    [cleanup] afterwards (no directory being named like a metadata file).
    Then the metadata file that [prepare] wrote is gone; no file below the
    Chroma directory of that [prepare] is left, unless its removal failed;
    and every file left either was there, with the same content, before
    [prepare], or is a file of that Chroma store whose removal failed. *)
Theorem cleanup_undoes_prepare (h : Host) (folder : Path) (provider model : str)
    (w w' : World) (directories : list Path) (survives : Path -> bool)
    (store : gmap Path file_text) :
  prepare h folder provider model w = (Done (), w') ->
  no_metadata_directory directories ->
  (forall p, is_Some (store !! p) ->
     below (_get_embeddings_store_paths h folder).2 p) ->
  (_get_embeddings_store_paths h folder).2 ∈ directories ->
  let after :=
    files (cleanup directories survives
             (mkWorld (store ∪ files w') (stdout w') (stderr w') (calls w'))).2 in
  after !! (_get_embeddings_store_paths h folder).1 = None
  /\ (forall p,
        below (_get_embeddings_store_paths h folder).2 p ->
        survives p = false -> after !! p = None)
  /\ (forall p x,
        after !! p = Some x ->
        files w !! p = Some x
        \/ (survives p = true
            /\ below (_get_embeddings_store_paths h folder).2 p
            /\ store !! p = Some x)).
Proof.
  intros (out & raw & e & _ & _ & _ & Hfiles & _)%prepare_done_inv Hno Hstore Hdir.
  cbn zeta in Hfiles |- *. unfold embed_path in Hfiles.
  revert Hstore Hdir.
  rewrite store_paths_embed_file, store_paths_chroma_dir. unfold embed_path.
  set (name := embed_name (node_name h folder) (strftime_YmdHMS (now_utc h))) in *.
  set (dir := [py ".tmp"; py ".git_gpt_chroma_db_" ++ strftime_YmdHMS (now_utc h)]).
  intros Hstore Hdir.
  set (w2 := mkWorld (store ∪ files w') (stdout w') (stderr w') (calls w')).
  assert ([py ".tmp"; name] ∈ metadata_files w2) as Hnew.
  { apply elem_of_metadata_files. exists name. rewrite root_path.
    split; [done|]. split; [apply glob_match_embed_name|].
    cbn [files w2]. apply lookup_union_is_Some. right.
    rewrite Hfiles, lookup_insert_eq. by eexists. }
  assert (dir ∈ store_entries directories w2) as Hentry.
  { apply list_elem_of_filter. split.
    - rewrite root_path.
      exact (eq_trans (in_glob_child [py ".tmp"] _ _) (glob_match_store_name _)).
    - apply elem_of_app. by right. }
  split; [|split].
  - apply eq_None_not_Some. intros [x Hx].
    by apply (cleanup_files _ _ _ _ _ Hno) in Hx as (_ & Hnot & _).
  - intros p Hbelow Hsurvives. apply eq_None_not_Some. intros [x Hx].
    apply (cleanup_files _ _ _ _ _ Hno) in Hx as (_ & _ & [Hs|Hkept]);
      [congruence|].
    by apply (Hkept dir Hentry).
  - intros p x (Hx & Hnot & Hkept)%(cleanup_files _ _ _ _ _ Hno).
    cbn [files w2] in Hx. apply lookup_union_Some_raw in Hx as [Hx|[Hnone Hx]].
    + right. assert (below dir p) as Hbelow by (apply Hstore; by eexists).
      split; [|done].
      destruct Hkept as [Hs|Hkept]; [done|]. by destruct (Hkept dir Hentry).
    + left. rewrite Hfiles in Hx. rewrite lookup_insert_ne in Hx; [done|].
      by intros <-.
Qed.

Lemma cleanup_undoes_prepare_witness :
  let w' := (prepare host1 [py "repo"] (py "hf") (py "bge") cluttered_world).2 in
  files (cleanup [new_store_dir] (fun _ => false)
           (mkWorld (new_store ∪ files w') (stdout w') (stderr w') (calls w'))).2
  !! (_get_embeddings_store_paths host1 [py "repo"]).1
  = None.
Proof.
  destruct (cleanup_undoes_prepare host1 [py "repo"] (py "hf") (py "bge")
              cluttered_world
              (prepare host1 [py "repo"] (py "hf") (py "bge") cluttered_world).2
              [new_store_dir] (fun _ => false) new_store)
    as (Hgone & _).
  - apply run_done. vm_compute. reflexivity.
  - repeat constructor.
  - intros p [x Hx]. unfold new_store in Hx.
    apply lookup_singleton_Some in Hx as [<- _].
    split; [by eexists [_]|]. vm_compute. discriminate.
  - vm_compute. apply list_elem_of_singleton. reflexivity.
  - exact Hgone.
Defined.

(** ** [search] with and without [--summarize] *)

Lemma summarize_commits_stdout h llm_provider llm_model commits query w :
  stdout w
  `prefix_of` stdout (summarize_commits h llm_provider llm_model commits query w).2.
Proof.
  rewrite summarize_commits_spec.
  destruct (get_llm_provider_outcome h llm_provider llm_model w)
    as [[llm ->]|[text ->]]; [|done].
  cbn zeta. destruct (llm_invoke h llm _); [|done].
  cbn [snd stdout warn called]. by eexists.
Qed.

(** X18. [--summarize] is an addition to the plain search.  A search
    without [--summarize] does not depend on the LLM provider and model.
    With [--summarize], [search] first does all that the plain search does:
    when the plain search does not end normally, the run ends the same way
    in the same state; when it does, the run goes on with the summarizer
    from the state the plain search ends in, so that what the plain search
    prints is printed first -- also when the chat model cannot be built. *)
Theorem summarize_extends_plain_search directories h query provider model
    llm_provider llm_model k w :
  let plain :=
    search directories h query provider model false llm_provider llm_model k w in
  let full :=
    search directories h query provider model true llm_provider llm_model k w in
  (forall llm_provider' llm_model',
     search directories h query provider model false llm_provider' llm_model' k w
     = plain)
  /\ (plain.1 <> Done () -> full = plain)
  /\ (plain.1 = Done () ->
      exists commits,
        full = summarize_commits h llm_provider llm_model commits query plain.2)
  /\ stdout plain.2 `prefix_of` stdout full.2.
Proof.
  cbn zeta. split.
  { intros lp lm. rewrite !search_unfold.
    destruct (200 <? length query)%nat; [done|].
    case_bool_decide; [done|].
    destruct (last (sorted (metadata_entries directories w))) as [latest|]; [|done].
    destruct (files w !! latest) as [[data|text]|]; [|done..].
    destruct data as [| | | | |items]; reflexivity. }
  assert (forall run : result () * World,
            run.1 <> Done () ->
            (run.1 <> Done () -> run = run)
            /\ (run.1 = Done () ->
                exists commits,
                  run = summarize_commits h llm_provider llm_model commits query
                          run.2)
            /\ stdout run.2 `prefix_of` stdout run.2) as Hsame.
  { intros run Hrun. split; [done|]. split; [by intros ?|done]. }
  rewrite !search_unfold.
  destruct (200 <? length query)%nat; [by apply Hsame|].
  case_bool_decide; [by apply Hsame|].
  destruct (last (sorted (metadata_entries directories w))) as [latest|]; [|by apply Hsame].
  destruct (files w !! latest) as [[data|text]|]; [|by apply Hsame..].
  destruct data as [| | | | |items]; try by apply Hsame.
  destruct (dict_get items (py "chroma_dir")) as [dir|]; [|by apply Hsame].
  rewrite !search_in_spec.
  destruct (get_embeddings_outcome h provider model w) as [[e ->]|[text ->]];
    [|by apply Hsame].
  cbn zeta.
  destruct (chroma_similarity_search h dir e query k) as [docs|];
    [|by apply Hsame].
  match goal with |- context [format_results docs [] ?w1] =>
    destruct (format_results docs [] w1) as [[commits|code|x] w2]
  end; [|by apply Hsame..].
  split; [done|]. split; [intros _; by exists commits|].
  apply summarize_commits_stdout.
Qed.

Lemma summarize_extends_plain_search_witness :
  exists commits,
    search [] host1 (py "parser") (py "hf") (py "bge") true (py "nope") (py "gpt") 5
      two_files_world
    = summarize_commits host1 (py "nope") (py "gpt") commits (py "parser")
        (search [] host1 (py "parser") (py "hf") (py "bge") false (py "nope")
           (py "gpt") 5 two_files_world).2.
Proof.
  destruct (summarize_extends_plain_search [] host1 (py "parser") (py "hf")
              (py "bge") (py "nope") (py "gpt") 5 two_files_world)
    as (_ & _ & Hdone & _).
  apply Hdone. vm_compute. reflexivity.
Defined.
